(** * Hotel Last Resort: the report layer of [app.py]

    A shallow embedding of the Flask application in [src/app-groupL/app.py].
    Every route opens a SQLite connection through [query_db], runs one or
    more fixed [SELECT] statements, derives a few statistics from the
    returned rows and hands them to a template.

    The development has three layers:
    - [Sql]: the relational operators the statements are built from (joins,
      [GROUP BY], [ORDER BY], [LIMIT], aggregates) and the SQLite scalar
      functions they call ([date], [strftime], [julianday], [CAST]);
    - the tables and [Statements]: the rows that the statements read and
      the statements themselves, as functions from a database to result
      rows;
    - [Python] and [App]: the interpreter effects of [query_db] (exceptions,
      [print], connection handling) and the routes with their arithmetic.

    Conventions.  A SQLite [REAL] and a Python [float] are IEEE 754
    binary64 numbers, the kernel's primitive floats; the aggregates [SUM]
    and [AVG] add them as SQLite 3.40 does and [sum] as CPython 3.11
    does, one rounded addition after the other.  Only the quotient
    [avg_per_day] is kept as an exact rational.  Key and text columns
    are taken to be [NOT NULL]; an amount is NULL, an INTEGER or a REAL.
    A timestamp column holds a text of the form [YYYY-MM-DD HH:MM:SS]
    whose fields need not be in range: SQLite answers NULL for the ones
    it cannot read. *)

From Stdlib Require Import List ZArith QArith Qcanon String Ascii Bool Lia.
From Stdlib Require Import Permutation Sorted OrderedTypeEx Floats.
Import ListNotations.

Open Scope Z_scope.

(* ================================================================== *)
(** * Numbers *)

(** A number as SQLite stores it and as Python receives it: an INTEGER
    (Python [int]) or a REAL (Python [float]). *)
Inductive number : Type :=
| Integer (z : Z)
| Float (f : float).

Module Double.

(** The double nearest to an integer, ties to even: the C conversion of
    a 64-bit integer and Python's [float(int)].  An integer beyond the
    range of the doubles gives an infinity. *)
Definition of_Z (z : Z) : float :=
  let n := Z.abs z in
  let bits := Z.log2 n + 1 in
  let magnitude :=
    if bits <=? 62 then PrimFloat.of_uint63 (Uint63.of_Z n)
    else
      let k := bits - 62 in
      let sticky := if Z.land n (Z.ones k) =? 0 then 0 else 1 in
      FloatOps.Z.ldexp
        (PrimFloat.of_uint63 (Uint63.of_Z (Z.lor (Z.shiftr n k) sticky))) k in
  if z <? 0 then PrimFloat.opp magnitude else magnitude.

(** The rational that a finite double stands for. *)
Definition exact (f : float) : option Qc :=
  match Prim2SF f with
  | S754_zero _ => Some (Q2Qc 0)
  | S754_finite s m e =>
      let n := if s then Z.neg m else Z.pos m in
      Some (Q2Qc (if 0 <=? e then inject_Z (n * 2 ^ e)
                  else Qmake n (Pos.pow 2 (Z.to_pos (- e)))))
  | S754_infinity _ | S754_nan => None
  end.

(** Order of two doubles; a NaN, which SQLite never stores, compares
    equal. *)
Definition compare (a b : float) : comparison :=
  match PrimFloat.compare a b with
  | FLt => Lt
  | FGt => Gt
  | FEq | FNotComparable => Eq
  end.

(** Order of an integer and a double, by their exact values. *)
Definition compare_Z (i : Z) (r : float) : comparison :=
  match Prim2SF r with
  | S754_zero _ => i ?= 0
  | S754_finite s m e =>
      let n := if s then Z.neg m else Z.pos m in
      if 0 <=? e then i ?= n * 2 ^ e else i * 2 ^ (- e) ?= n
  | S754_infinity s => if s then Gt else Lt
  | S754_nan => Eq
  end.

End Double.

(* ================================================================== *)
(** * Relational operators *)

Module Sql.

(** What [cursor.execute] followed by [cursor.fetchall] gives back:
    the rows, or an [sqlite3.Error] with its message. *)
Inductive result (A : Type) : Type :=
| Ok (a : A)
| Error (message : string).
Arguments Ok {A} a.
Arguments Error {A} message.

Definition and_then {A B} (r : result A) (k : A -> result B) : result B :=
  match r with
  | Ok a => k a
  | Error m => Error m
  end.

(** The rows of a statement whose result columns may fail one by one:
    the first error is the error of the statement. *)
Fixpoint collect {A} (l : list (result A)) : result (list A) :=
  match l with
  | [] => Ok []
  | Ok a :: r => and_then (collect r) (fun rows => Ok (a :: rows))
  | Error m :: _ => Error m
  end.

Section Operators.
Context {A B K : Type}.

(** [l JOIN r ON on] *)
Definition inner_join (l : list A) (r : list B) (on : A -> B -> bool)
  : list (A * B) :=
  flat_map (fun a => map (pair a) (filter (on a) r)) l.

(** [l LEFT JOIN r ON on]: a left row without partner is kept once,
    extended with NULLs. *)
Definition left_join (l : list A) (r : list B) (on : A -> B -> bool)
  : list (A * option B) :=
  flat_map (fun a =>
              match filter (on a) r with
              | [] => [(a, None)]
              | m => map (fun b => (a, Some b)) m
              end) l.

(** The distinct values of a list, each at its first occurrence. *)
Fixpoint distinct (eqb : K -> K -> bool) (l : list K) : list K :=
  match l with
  | [] => []
  | k :: r => k :: filter (fun k' => negb (eqb k' k)) (distinct eqb r)
  end.

(** [GROUP BY key]: one group per distinct key, holding the rows that
    carry it. *)
Definition group_by (key : A -> K) (eqb : K -> K -> bool) (l : list A)
  : list (K * list A) :=
  map (fun k => (k, filter (fun x => eqb (key x) k) l))
      (distinct eqb (map key l)).

(** [ORDER BY]: a stable insertion sort.  SQLite leaves the order of
    rows with equal sort keys open; the model fixes one. *)
Fixpoint insert_row (leb : A -> A -> bool) (x : A) (l : list A) : list A :=
  match l with
  | [] => [x]
  | y :: r => if leb x y then x :: l else y :: insert_row leb x r
  end.

Definition order_by (leb : A -> A -> bool) (l : list A) : list A :=
  fold_right (insert_row leb) [] l.

(** The order that [leb] puts on rows. *)
Definition sorted_by (leb : A -> A -> bool) (a b : A) : Prop :=
  leb a b = true.

(** [LIMIT n] *)
Definition limit (n : nat) (l : list A) : list A := firstn n l.

(** [COUNT( * )] *)
Definition count_star (l : list A) : Z := Z.of_nat (List.length l).

End Operators.

(** ** The aggregates [SUM] and [AVG]

    Both run the same accumulator over the values of a group, in the
    order in which the rows arrive (SQLite 3.40, [sumStep]): a NULL is
    skipped; every other value is added to the double [rSum]; integers
    are also added exactly to [iSum] until the first REAL arrives or the
    64-bit sum overflows. *)
Record accumulator : Type := {
  rSum : float; iSum : Z; cnt : Z; overflow : bool; approx : bool
}.

Definition sum_start : accumulator :=
  {| rSum := PrimFloat.zero; iSum := 0; cnt := 0;
     overflow := false; approx := false |}.

Definition fits_int64 (z : Z) : bool :=
  (- 2 ^ 63 <=? z) && (z <=? 2 ^ 63 - 1).

Definition sum_step (p : accumulator) (v : option number) : accumulator :=
  match v with
  | None => p
  | Some (Integer i) =>
      let exact := negb (approx p || overflow p) in
      let fits := fits_int64 (iSum p + i) in
      {| rSum := PrimFloat.add (rSum p) (Double.of_Z i);
         iSum := if exact && fits then iSum p + i else iSum p;
         cnt := cnt p + 1;
         overflow := overflow p || (exact && negb fits);
         approx := approx p || (exact && negb fits) |}
  | Some (Float r) =>
      {| rSum := PrimFloat.add (rSum p) r;
         iSum := iSum p;
         cnt := cnt p + 1;
         overflow := overflow p;
         approx := true |}
  end.

(** A REAL result: SQLite stores a NaN as NULL. *)
Definition real (f : float) : option float :=
  if PrimFloat.is_nan f then None else Some f.

(** [SUM(x)]: NULL when no value was added, an error when the integer
    sum overflowed, a REAL when a REAL was added, an INTEGER otherwise. *)
Definition sum_final (p : accumulator) : result (option number) :=
  if cnt p =? 0 then Ok None
  else if overflow p then Error "integer overflow"
  else if approx p then Ok (option_map Float (real (rSum p)))
  else Ok (Some (Integer (iSum p))).

(** [AVG(x)]: NULL when no value was added, otherwise the double sum
    over the count. *)
Definition avg_final (p : accumulator) : option float :=
  if cnt p =? 0 then None
  else real (PrimFloat.div (rSum p) (Double.of_Z (cnt p))).

Definition sql_sum {A} (f : A -> option number) (l : list A)
  : result (option number) :=
  sum_final (fold_left sum_step (map f l) sum_start).

Definition sql_avg {A} (f : A -> option number) (l : list A) : option float :=
  avg_final (fold_left sum_step (map f l) sum_start).

(** ** Text: BINARY collation and keywords *)

Definition text_leb (a b : string) : bool := String.leb a b.

Definition upper_char (c : ascii) : ascii :=
  let n := N_of_ascii c in
  if ((97 <=? n) && (n <=? 122))%N then ascii_of_N (n - 32) else c.

Fixpoint upper (s : string) : string :=
  match s with
  | EmptyString => EmptyString
  | String c r => String (upper_char c) (upper r)
  end.

(** The keywords of SQLite's grammar that never fall back to an
    identifier: written without quotes where a name is expected, they
    are a syntax error. *)
Definition reserved_words : list string :=
  [ "ADD"; "ALL"; "ALTER"; "AND"; "AS"; "AUTOINCREMENT"; "BETWEEN"; "CASE";
    "CHECK"; "COLLATE"; "COMMIT"; "CONSTRAINT"; "CREATE"; "DEFAULT";
    "DEFERRABLE"; "DELETE"; "DISTINCT"; "DROP"; "ELSE"; "ESCAPE"; "EXCEPT";
    "EXISTS"; "FOREIGN"; "FROM"; "GROUP"; "HAVING"; "IN"; "INDEX"; "INSERT";
    "INTERSECT"; "INTO"; "IS"; "ISNULL"; "JOIN"; "LIMIT"; "NOT"; "NOTHING";
    "NOTNULL"; "NULL"; "ON"; "OR"; "ORDER"; "PRIMARY"; "REFERENCES";
    "RETURNING"; "SELECT"; "SET"; "TABLE"; "THEN"; "TO"; "TRANSACTION";
    "UNION"; "UNIQUE"; "UPDATE"; "USING"; "VALUES"; "WHEN"; "WHERE"
  ]%string.

Definition is_reserved (name : string) : bool :=
  existsb (String.eqb (upper name)) reserved_words.

Definition double_quote : string := String (ascii_of_N 34) EmptyString.

(** A table named in a [FROM] or [JOIN] clause, as the statement spells
    it. *)
Definition table {A} (name : string) (rows : list A) : result (list A) :=
  if is_reserved name
  then Error ("near " ++ double_quote ++ name ++ double_quote
                ++ ": syntax error")%string
  else Ok rows.

(** ** Date and time functions *)

(** A stored timestamp, [YYYY-MM-DD HH:MM:SS]. *)
Record datetime : Type := {
  year : Z; month : Z; day_of_month : Z;
  hour : Z; minute : Z; second : Z
}.

Definition digit (n : Z) : ascii := ascii_of_N (48 + Z.to_N (n mod 10)).

Definition pad2 (n : Z) : string :=
  String (digit (n / 10)) (String (digit n) EmptyString).

Definition pad4 (n : Z) : string :=
  String (digit (n / 1000)) (String (digit (n / 100)) (pad2 n)).

(** The Julian day number in milliseconds, as SQLite's [computeJD]
    derives it from the calendar fields. *)
Definition julianday_ms (t : datetime) : Z :=
  let '(Y, M) := if month t <=? 2 then (year t - 1, month t + 12)
                 else (year t, month t) in
  let A := Y ÷ 100 in
  let B := 2 - A + A ÷ 4 in
  let X1 := (36525 * (Y + 4716)) ÷ 100 in
  let X2 := (306001 * (M + 1)) ÷ 10000 in
  (X1 + X2 + day_of_month t + B) * 86400000 - 131716800000
  + hour t * 3600000 + minute t * 60000 + second t * 1000.

Definition within (lo n hi : Z) : bool := (lo <=? n) && (n <=? hi).

(** The timestamps that SQLite reads: each field within the bounds of
    its parser (a month up to 12, a day up to 31 whatever the month, an
    hour up to 24) and the instant not after the year 9999.  For every
    other text the date and time functions answer NULL. *)
Definition readable (t : datetime) : bool :=
  within 0 (year t) 9999 && within 1 (month t) 12
  && within 1 (day_of_month t) 31 && within 0 (hour t) 24
  && within 0 (minute t) 59 && within 0 (second t) 59
  && within 0 (julianday_ms t) 464269060799999.

(** One conversion of [strftime].  Only the conversions below are
    interpreted; SQLite answers NULL for a letter it does not know. *)
Definition conversion (c : ascii) (t : datetime) : option string :=
  match c with
  | "Y"%char => Some (pad4 (year t))
  | "m"%char => Some (pad2 (month t))
  | "d"%char => Some (pad2 (day_of_month t))
  | "H"%char => Some (pad2 (hour t))
  | "M"%char => Some (pad2 (minute t))
  | "S"%char => Some (pad2 (second t))
  | "%"%char => Some "%"%string
  | _ => None
  end.

(** The format of [strftime] run over a timestamp that was read: a
    percent sign takes the next character as a conversion, so [%%] is a
    literal percent sign and the character after it is ordinary text. *)
Fixpoint formatted (fmt : string) (t : datetime) : option string :=
  match fmt with
  | EmptyString => Some EmptyString
  | String "%"%char EmptyString => None
  | String "%"%char (String c rest) =>
      match conversion c t, formatted rest t with
      | Some s, Some r => Some (s ++ r)%string
      | _, _ => None
      end
  | String c rest => option_map (String c) (formatted rest t)
  end.

(** [strftime(fmt, t)] *)
Definition strftime (fmt : string) (t : datetime) : option string :=
  if readable t then formatted fmt t else None.

(** [date(t)]: the year, month and day as they were read; a day that
    the month does not have is not carried over. *)
Definition date (t : datetime) : option string :=
  if readable t
  then Some (pad4 (year t) ++ "-" ++ pad2 (month t) ++ "-"
               ++ pad2 (day_of_month t))%string
  else None.

(** [julianday(t)], in days: the milliseconds divided by the length of
    a day, in doubles. *)
Definition julianday (t : datetime) : option float :=
  if readable t
  then Some (PrimFloat.div (Double.of_Z (julianday_ms t))
                           (Double.of_Z 86400000))
  else None.

(** [a - b] on two REAL operands; NULL when one operand is NULL. *)
Definition minus (a b : option float) : option float :=
  match a, b with
  | Some x, Some y => real (PrimFloat.sub x y)
  | _, _ => None
  end.

(** [CAST(text AS INTEGER)]: the longest prefix that reads as an
    integer, 0 when there is none. *)
Definition digit_value (c : ascii) : option Z :=
  let n := N_of_ascii c in
  if ((48 <=? n) && (n <=? 57))%N then Some (Z.of_N (n - 48)) else None.

Fixpoint leading_digits (s : string) (acc : Z) : Z :=
  match s with
  | EmptyString => acc
  | String c r =>
      match digit_value c with
      | Some d => leading_digits r (10 * acc + d)
      | None => acc
      end
  end.

Fixpoint skip_spaces (s : string) : string :=
  match s with
  | String " "%char r => skip_spaces r
  | _ => s
  end.

Definition cast_integer (s : string) : Z :=
  match skip_spaces s with
  | String "-"%char r => - leading_digits r 0
  | String "+"%char r => leading_digits r 0
  | r => leading_digits r 0
  end.

(** Comparison of nullable sort keys: NULL sorts before every value. *)
Definition option_leb {V} (leb : V -> V -> bool) (a b : option V) : bool :=
  match a, b with
  | None, _ => true
  | Some _, None => false
  | Some x, Some y => leb x y
  end.

Definition option_eqb {V} (eqb : V -> V -> bool) (a b : option V) : bool :=
  match a, b with
  | None, None => true
  | Some x, Some y => eqb x y
  | _, _ => false
  end.

(** Order of two numbers: by value, whatever their storage class. *)
Definition number_compare (a b : number) : comparison :=
  match a, b with
  | Integer x, Integer y => x ?= y
  | Float x, Float y => Double.compare x y
  | Integer x, Float y => Double.compare_Z x y
  | Float x, Integer y => CompOpp (Double.compare_Z y x)
  end.

Definition number_leb (a b : number) : bool :=
  match number_compare a b with Gt => false | _ => true end.

Definition real_leb (a b : float) : bool :=
  match Double.compare a b with Gt => false | _ => true end.

End Sql.

Notation "x <- r ;;; k" := (Sql.and_then r (fun x => k))
  (at level 61, r at next level, right associativity).

(* ================================================================== *)
(** * The tables

    The schema is not part of the application; the records below carry the
    columns that the interpreted statements read. *)

Module Building.
Record row : Type := { buildingId : Z; buildingName : string }.
End Building.

Module Room.
Record row : Type := {
  roomId : Z; roomNumber : Z; buildingId : Z;
  roomTypeId : Z; roomStatusId : Z
}.
End Room.

Module RoomStatus.
Record row : Type := { roomStatusId : Z; status : string }.
End RoomStatus.

Module RoomType.
Record row : Type := { roomTypeId : Z; roomType : string }.
End RoomType.

Module Reservation.
Record row : Type := {
  reservationId : Z;
  startDateTime : Sql.datetime;
  endDateTime : Sql.datetime
}.
End Reservation.

Module ReservationRoom.
Record row : Type := { reservationId : Z; roomId : Z }.
End ReservationRoom.

Module Transaction.
Record row : Type := {
  transactionDate : Sql.datetime; amount : option number
}.
End Transaction.

Record database : Type := {
  building : list Building.row;
  room : list Room.row;
  room_status : list RoomStatus.row;
  room_type : list RoomType.row;
  reservation : list Reservation.row;
  reservation_room : list ReservationRoom.row;
  transaction : list Transaction.row
}.

(* ================================================================== *)
(** * Result rows

    [dict(row)] turns every fetched row into a dictionary whose keys are
    the column names of the [SELECT] list; one record per statement. *)

(** A column whose declared type the application does not depend on: the
    Python side only tests it for truth.  A sum or an average is a
    [number] or NULL, a count an integer. *)
Inductive value : Type :=
| Null
| Int (z : Z)
| Real (f : float)
| Text (s : string).

Module DayCount.
Record row : Type := { day : option string; num_reservations : Z }.
End DayCount.

Module RoomCount.
Record row : Type := {
  buildingName : string; room_status : string; num_rooms : Z
}.
End RoomCount.

Module StayLength.
Record row : Type := {
  roomType : string; avg_nights : option float; num_room_bookings : Z
}.
End StayLength.

Module MonthRevenue.
Record row : Type := {
  yr : option Z; mo : option Z; total_revenue : option number;
  num_tx : Z
}.
End MonthRevenue.

Module UnusedRoom.
Record row : Type := { buildingName : string; roomNumber : Z }.
End UnusedRoom.

Module CustomerBill.
Record row : Type := {
  customerId : Z; last_name : string; first_name : string;
  bills : Z; total_billed : option number
}.
End CustomerBill.

Module SleepingRoom.
Record row : Type := {
  roomId : Z; roomNumber : Z; buildingName : string; roomType : string;
  bedType : option string; squareFootage : value; hasPaidBar : value;
  room_status : string
}.
End SleepingRoom.

Module MeetingSpace.
Record row : Type := {
  roomId : Z; roomNumber : Z; buildingName : string; spaceType : string;
  capacity : value; hasProjector : value; hasWhiteboard : value;
  hasPaidBar : value
}.
End MeetingSpace.

Module BookingType.
Record row : Type := { roomType : string; type_category : string }.
End BookingType.

Module Staff.
Record row : Type := {
  staffId : Z; firstName : string; lastName : string; email : string;
  phone : string; role : string; department : string; hireDate : string;
  isActive : value
}.
End Staff.

Module Swipes.
Record row : Type := {
  department : string; location : string; staff_swipes : Z
}.
End Swipes.

Module OpenRequests.
Record row : Type := { depositStatus : string; open_requests : Z }.
End OpenRequests.

Module SpaceEvents.
Record row : Type := { spaceType : string; events_count : Z }.
End SpaceEvents.

(* ================================================================== *)
(** * The statements

    One constant per SQL text passed to [query_db].  The statement of
    [account] and of [employee_customer_cards] is the same text. *)

Inductive query : Type :=
| revenue_by_customer          (* Query 5 *)
| available_sleeping_rooms
| meeting_spaces_with_amenities
| reservations_per_day_limit_10 (* Query 1, LIMIT 10 *)
| room_types_for_booking
| space_types_for_booking
| staff_list
| staff_swipes_by_department   (* Query 8 *)
| open_requests_by_type        (* Query 7 *)
| stay_length_by_room_type     (* Query 3 *)
| events_by_space_type         (* Query 6 *)
| room_counts_by_status        (* Query 2 *)
| reservations_per_day         (* Query 1 *)
| monthly_revenue              (* Query 4 *)
| rooms_never_reserved_rows.   (* Query 9 *)

Definition row_of (q : query) : Type :=
  match q with
  | revenue_by_customer => CustomerBill.row
  | available_sleeping_rooms => SleepingRoom.row
  | meeting_spaces_with_amenities => MeetingSpace.row
  | reservations_per_day_limit_10 => DayCount.row
  | room_types_for_booking => BookingType.row
  | space_types_for_booking => BookingType.row
  | staff_list => Staff.row
  | staff_swipes_by_department => Swipes.row
  | open_requests_by_type => OpenRequests.row
  | stay_length_by_room_type => StayLength.row
  | events_by_space_type => SpaceEvents.row
  | room_counts_by_status => RoomCount.row
  | reservations_per_day => DayCount.row
  | monthly_revenue => MonthRevenue.row
  | rooms_never_reserved_rows => UnusedRoom.row
  end.

Module Statements.
Import Sql.

Definition text_pair_eqb (a b : string * string) : bool :=
  (fst a =? fst b)%string && (snd a =? snd b)%string.

(** Query 1: reservations per day, by check-in date.
<<
  SELECT date(r.startDateTime) AS day, COUNT( * ) AS num_reservations
  FROM reservation AS r
  GROUP BY date(r.startDateTime)
>> *)
Definition day_counts (r : list Reservation.row) : list DayCount.row :=
  map (fun g => {| DayCount.day := fst g;
                   DayCount.num_reservations := count_star (snd g) |})
      (group_by (fun r => date (Reservation.startDateTime r))
                (option_eqb String.eqb) r).

(** [... ORDER BY day]: a NULL day comes first. *)
Definition earliest_first (a b : DayCount.row) : bool :=
  option_leb text_leb (DayCount.day a) (DayCount.day b).

(** [... ORDER BY day DESC]: a NULL day comes last. *)
Definition latest_first (a b : DayCount.row) : bool :=
  option_leb text_leb (DayCount.day b) (DayCount.day a).

Definition sql_reservations_per_day (db : database)
  : result (list DayCount.row) :=
  r <- table "reservation" (reservation db) ;;;
  Ok (order_by earliest_first (day_counts r)).

(** [... ORDER BY day DESC LIMIT 10] *)
Definition sql_reservations_per_day_limit_10 (db : database)
  : result (list DayCount.row) :=
  r <- table "reservation" (reservation db) ;;;
  Ok (limit 10 (order_by latest_first (day_counts r))).

(** Query 2: room counts by status for each building.
<<
  SELECT b.buildingName, rs.status AS room_status, COUNT( * ) AS num_rooms
  FROM building AS b
  JOIN room AS rm ON rm.buildingId = b.buildingId
  JOIN room_status AS rs ON rs.roomStatusId = rm.roomStatusId
  GROUP BY b.buildingName, rs.status
  ORDER BY b.buildingName, num_rooms DESC
>> *)
Definition room_count_leb (x y : RoomCount.row) : bool :=
  match (RoomCount.buildingName x ?= RoomCount.buildingName y)%string with
  | Lt => true
  | Gt => false
  | Eq => RoomCount.num_rooms y <=? RoomCount.num_rooms x
  end.

Definition sql_room_counts_by_status (db : database)
  : result (list RoomCount.row) :=
  b <- table "building" (building db) ;;;
  rm <- table "room" (room db) ;;;
  rs <- table "room_status" (room_status db) ;;;
  let b_rm :=
    inner_join b rm
      (fun b rm => Room.buildingId rm =? Building.buildingId b) in
  let b_rm_rs :=
    inner_join b_rm rs
      (fun x rs => RoomStatus.roomStatusId rs =? Room.roomStatusId (snd x)) in
  let groups :=
    group_by (fun x : Building.row * Room.row * RoomStatus.row =>
                (Building.buildingName (fst (fst x)), RoomStatus.status (snd x)))
             text_pair_eqb b_rm_rs in
  Ok (order_by room_count_leb
        (map (fun g => {| RoomCount.buildingName := fst (fst g);
                          RoomCount.room_status := snd (fst g);
                          RoomCount.num_rooms := count_star (snd g) |})
             groups)).

(** Query 3: average stay length by room type.
<<
  SELECT rt.roomType,
         AVG(julianday(r.endDateTime) - julianday(r.startDateTime)) AS avg_nights,
         COUNT( * ) AS num_room_bookings
  FROM room_type AS rt
  JOIN room AS rm ON rm.roomTypeId = rt.roomTypeId
  JOIN reservation_room AS rr ON rr.roomId = rm.roomId
  JOIN reservation AS r ON r.reservationId = rr.reservationId
  GROUP BY rt.roomType
  ORDER BY avg_nights DESC
>> *)
Definition nights (r : Reservation.row) : option float :=
  minus (julianday (Reservation.endDateTime r))
        (julianday (Reservation.startDateTime r)).

Definition booked_rooms (db_room_type : list RoomType.row)
    (db_room : list Room.row) (db_rr : list ReservationRoom.row)
    (db_reservation : list Reservation.row)
  : list (RoomType.row * Room.row * ReservationRoom.row * Reservation.row) :=
  let rt_rm :=
    inner_join db_room_type db_room
      (fun rt rm => Room.roomTypeId rm =? RoomType.roomTypeId rt) in
  let rt_rm_rr :=
    inner_join rt_rm db_rr
      (fun x rr => ReservationRoom.roomId rr =? Room.roomId (snd x)) in
  inner_join rt_rm_rr db_reservation
    (fun x r =>
       Reservation.reservationId r =? ReservationRoom.reservationId (snd x)).

Definition sql_stay_length_by_room_type (db : database)
  : result (list StayLength.row) :=
  rt <- table "room_type" (room_type db) ;;;
  rm <- table "room" (room db) ;;;
  rr <- table "reservation_room" (reservation_room db) ;;;
  r <- table "reservation" (reservation db) ;;;
  let groups :=
    group_by (fun x : RoomType.row * Room.row * ReservationRoom.row
                      * Reservation.row =>
                RoomType.roomType (fst (fst (fst x))))
             String.eqb (booked_rooms rt rm rr r) in
  Ok (order_by
        (fun x y => option_leb real_leb (StayLength.avg_nights y)
                               (StayLength.avg_nights x))
        (map (fun g =>
                {| StayLength.roomType := fst g;
                   StayLength.avg_nights :=
                     sql_avg (fun x => option_map Float (nights (snd x)))
                             (snd g);
                   StayLength.num_room_bookings := count_star (snd g) |})
             groups)).

(** Query 4: monthly revenue from transactions.  The Python literal
    spells the formats with two percent signs and nothing rewrites
    them before SQLite reads the text.
<<
  SELECT CAST(strftime('%%Y', t.transactionDate) AS INTEGER) AS yr,
         CAST(strftime('%%m', t.transactionDate) AS INTEGER) AS mo,
         SUM(t.amount) AS total_revenue,
         COUNT( * ) AS num_tx
  FROM transaction AS t
  GROUP BY strftime('%%Y', t.transactionDate), strftime('%%m', t.transactionDate)
  ORDER BY yr, mo
>> *)
Definition month_key (t : Transaction.row) : option string * option string :=
  (strftime "%%Y" (Transaction.transactionDate t),
   strftime "%%m" (Transaction.transactionDate t)).

Definition month_key_eqb (a b : option string * option string) : bool :=
  option_eqb String.eqb (fst a) (fst b)
  && option_eqb String.eqb (snd a) (snd b).

Definition month_leb (x y : MonthRevenue.row) : bool :=
  if option_eqb Z.eqb (MonthRevenue.yr x) (MonthRevenue.yr y)
  then option_leb Z.leb (MonthRevenue.mo x) (MonthRevenue.mo y)
  else option_leb Z.leb (MonthRevenue.yr x) (MonthRevenue.yr y).

Definition month_revenue
    (g : option string * option string * list Transaction.row)
  : result MonthRevenue.row :=
  total <- sql_sum Transaction.amount (snd g) ;;;
  Ok {| MonthRevenue.yr := option_map cast_integer (fst (fst g));
        MonthRevenue.mo := option_map cast_integer (snd (fst g));
        MonthRevenue.total_revenue := total;
        MonthRevenue.num_tx := count_star (snd g) |}.

(** The statement's [SELECT ... GROUP BY ... ORDER BY] over the rows of
    its [FROM] clause. *)
Definition monthly_revenue_of (t : list Transaction.row)
  : result (list MonthRevenue.row) :=
  rows <- collect (map month_revenue (group_by month_key month_key_eqb t)) ;;;
  Ok (order_by month_leb rows).

Definition sql_monthly_revenue (db : database)
  : result (list MonthRevenue.row) :=
  t <- table "transaction" (transaction db) ;;;
  monthly_revenue_of t.

(** Query 9: rooms that have never been reserved.
<<
  SELECT b.buildingName, rm.roomNumber
  FROM building AS b
  JOIN room AS rm ON rm.buildingId = b.buildingId
  LEFT JOIN reservation_room AS rr ON rr.roomId = rm.roomId
  WHERE rr.roomId IS NULL
  ORDER BY b.buildingName, rm.roomNumber
>> *)
Definition unused_room_leb (x y : UnusedRoom.row) : bool :=
  match (UnusedRoom.buildingName x ?= UnusedRoom.buildingName y)%string with
  | Lt => true
  | Gt => false
  | Eq => UnusedRoom.roomNumber x <=? UnusedRoom.roomNumber y
  end.

Definition is_null {A} (x : option A) : bool :=
  match x with None => true | Some _ => false end.

Definition sql_rooms_never_reserved (db : database)
  : result (list UnusedRoom.row) :=
  b <- table "building" (building db) ;;;
  rm <- table "room" (room db) ;;;
  rr <- table "reservation_room" (reservation_room db) ;;;
  let b_rm :=
    inner_join b rm
      (fun b rm => Room.buildingId rm =? Building.buildingId b) in
  let b_rm_rr :=
    left_join b_rm rr
      (fun x rr => ReservationRoom.roomId rr =? Room.roomId (snd x)) in
  let kept :=
    filter (fun x => is_null (option_map ReservationRoom.roomId (snd x)))
           b_rm_rr in
  Ok (order_by unused_room_leb
        (map (fun x => {| UnusedRoom.buildingName :=
                            Building.buildingName (fst (fst x));
                          UnusedRoom.roomNumber := Room.roomNumber (snd (fst x)) |})
             kept)).

End Statements.

(* ================================================================== *)
(** * Python effects *)

Module Python.

(** The exceptions that the application can meet: those of the
    [sqlite3] module, which all derive from [sqlite3.Error], and the two
    that adding column values can raise. *)
Inductive exception : Type :=
| sqlite3_Error (message : string)
| TypeError (message : string)
| OverflowError (message : string).

Definition str (e : exception) : string :=
  match e with
  | sqlite3_Error m | TypeError m | OverflowError m => m
  end.

(** What a request leaves behind besides its response. *)
Inductive event : Type :=
| Opened                   (* a connection was opened *)
| Closed                   (* [conn.close()] *)
| Printed (line : string). (* [print(line)] *)

Inductive outcome (A : Type) : Type :=
| Return (a : A)
| Raise (e : exception).
Arguments Return {A} a.
Arguments Raise {A} e.

(** A computation: its outcome and the events it emitted, in order. *)
Definition Py (A : Type) : Type := (outcome A * list event)%type.

Definition ret {A} (a : A) : Py A := (Return a, []).

Definition raise {A} (e : exception) : Py A := (Raise e, []).

Definition emit (ev : event) : Py unit := (Return tt, [ev]).

Definition bind {A B} (m : Py A) (k : A -> Py B) : Py B :=
  match m with
  | (Return a, t) => let (o, t') := k a in (o, t ++ t')
  | (Raise e, t) => (Raise e, t)
  end.

Definition print (line : string) : Py unit := emit (Printed line).

(** [try: body  except sqlite3.Error as e: handler e]: any other
    exception passes through. *)
Definition try_except {A} (body : Py A) (handler : exception -> Py A) : Py A :=
  match body with
  | (Return a, t) => (Return a, t)
  | (Raise (sqlite3_Error m), t) =>
      let (o, t') := handler (sqlite3_Error m) in (o, t ++ t')
  | (Raise e, t) => (Raise e, t)
  end.

(** [try: body  finally: final]: [final] runs on both exits; when it
    raises, its exception replaces the outcome of [body]. *)
Definition try_finally {A} (body : Py A) (final : Py unit) : Py A :=
  let (o, t) := body in
  match final with
  | (Return _, t') => (o, t ++ t')
  | (Raise e, t') => (Raise e, t ++ t')
  end.

(** Truth value of a list, a string and a column value. *)
Definition truthy {A} (l : list A) : bool :=
  match l with [] => false | _ :: _ => true end.

Definition truthy_text (s : string) : bool :=
  match s with EmptyString => false | String _ _ => true end.

Definition truthy_value (v : value) : bool :=
  match v with
  | Null => false
  | Int z => negb (z =? 0)
  | Real f => negb (PrimFloat.eqb f PrimFloat.zero)
  | Text s => truthy_text s
  end.

Definition len {A} (l : list A) : Z := Z.of_nat (List.length l).

(** [sum(xs)]: a left fold that starts from 0. *)
Definition sum (xs : list Z) : Z := fold_left Z.add xs 0.

(** [float(n)]: the nearest double, or [OverflowError]. *)
Definition float_of_int (n : Z) : Py float :=
  let f := Double.of_Z n in
  if PrimFloat.is_infinity f
  then raise (OverflowError "int too large to convert to float")
  else ret f.

Definition type_name (a : number) : string :=
  match a with Integer _ => "int" | Float _ => "float" end.

(** [a + b] on two numbers: exact on two integers, a rounded addition of
    doubles as soon as one operand is a float. *)
Definition add (a b : number) : Py number :=
  match a, b with
  | Integer x, Integer y => ret (Integer (x + y))
  | Float x, Float y => ret (Float (PrimFloat.add x y))
  | Integer x, Float y =>
      bind (float_of_int x) (fun f => ret (Float (PrimFloat.add f y)))
  | Float x, Integer y =>
      bind (float_of_int y) (fun f => ret (Float (PrimFloat.add x f)))
  end.

(** [a + v] where [v] is a column value: [None] cannot be added. *)
Definition plus (a : number) (v : option number) : Py number :=
  match v with
  | Some b => add a b
  | None =>
      raise (TypeError ("unsupported operand type(s) for +: '"
                          ++ type_name a ++ "' and 'NoneType'"))
  end.

(** [sum(vs)] over column values that are numbers or [None]: the same
    left fold from the integer 0. *)
Definition sum_numbers (vs : list (option number)) : Py number :=
  fold_left (fun acc v => bind acc (fun a => plus a v)) vs (ret (Integer 0)).

(** [a / b] on integers is true division. *)
Definition true_div (a b : Z) : Qc :=
  (Q2Qc (inject_Z a) / Q2Qc (inject_Z b))%Qc.

(** [len(set(xs))] *)
Definition len_set (xs : list string) : Z :=
  len (Sql.distinct String.eqb xs).

End Python.

Notation "x <- m ;; k" := (Python.bind m (fun x => k))
  (at level 61, m at next level, right associativity).
Notation "m ;; k" := (Python.bind m (fun _ => k))
  (at level 61, right associativity).

(* ================================================================== *)
(** * The application *)

(** The SQLite library as the application sees it: whether
    [sqlite3.connect] succeeds, and what executing each statement and
    fetching its rows gives. *)
Record sqlite3 : Type := {
  connect_error : option string;
  execute_fetchall : forall q : query, Sql.result (list (row_of q))
}.

(** A database file that opens.  The six statements interpreted in
    [Statements] are evaluated on its tables; the answers to the others
    are left to [others]. *)
Definition sqlite3_on (db : database)
    (others : forall q : query, Sql.result (list (row_of q))) : sqlite3 :=
  {| connect_error := None;
     execute_fetchall := fun q =>
       match q return Sql.result (list (row_of q)) with
       | reservations_per_day_limit_10 =>
           Statements.sql_reservations_per_day_limit_10 db
       | reservations_per_day => Statements.sql_reservations_per_day db
       | room_counts_by_status => Statements.sql_room_counts_by_status db
       | stay_length_by_room_type => Statements.sql_stay_length_by_room_type db
       | monthly_revenue => Statements.sql_monthly_revenue db
       | rooms_never_reserved_rows => Statements.sql_rooms_never_reserved db
       | q' => others q'
       end |}.

(** The keyword arguments of each [render_template] call. *)
Inductive context : Type :=
| no_context
| account_context (reservations : list CustomerBill.row)
| guest_rooms_context (available_rooms : list SleepingRoom.row) (total_rooms : Z)
| meeting_spaces_context (meeting_spaces : list MeetingSpace.row)
    (total_spaces : Z)
| my_reservations_context (reservations : list DayCount.row)
    (total_reservations : Z)
| book_context (all_types : list BookingType.row)
| staff_roster_context (staff : list Staff.row) (total_staff active_staff : Z)
| card_management_context (staff_cards : list Swipes.row)
    (total_swipes departments locations : Z)
| employee_rooms_context (forum_posts : list OpenRequests.row)
    (room_types : list StayLength.row)
    (meeting_spaces_events : list SpaceEvents.row)
    (total_requests total_bookings total_events : Z)
| employee_customer_cards_context (customer_cards : list CustomerBill.row)
    (total_customers : Z) (total_revenue : number)
| employee_room_list_context (rooms : list RoomCount.row)
    (total_rooms available_rooms : Z)
| employee_reservations_context (reservations : list DayCount.row)
    (total_reservations total_days : Z) (avg_per_day : Qc)
| employee_revenue_context (revenue : list MonthRevenue.row)
    (total_revenue : number) (total_transactions months_tracked : Z)
| rooms_never_reserved_context (rooms : list UnusedRoom.row) (total_unused : Z)
| error_context (error : Python.exception).

Record response : Type := { template : string; variables : context }.

Inductive route : Type :=
| GET_home | GET_signup | GET_account | GET_profile | GET_guest_rooms
| GET_meeting_spaces | GET_my_reservations | GET_book | GET_confirmation
| GET_management | GET_staff_roster | GET_card_management
| GET_employee | GET_employee_rooms | GET_employee_customer_cards
| GET_employee_room_list | GET_employee_reservations | GET_employee_revenue
| GET_employee_rooms_never_reserved.

Module App.
Import Python.

Definition DB_PATH : string := "hotel_last_resort.db".

(** A connection is known by the file it was opened on. *)
Inductive connection : Type := Connection (path : string).

Definition render_template (name : string) (c : context) : Py response :=
  ret {| template := name; variables := c |}.

(** The result of [query_db]: a list of rows, or with [one] the first
    row or [None]. *)
Definition fetched (one : bool) (A : Type) : Type :=
  if one then option A else list A.

(** [[] if not one else None] *)
Definition nothing (one : bool) {A : Type} : fetched one A :=
  match one return fetched one A with
  | true => None
  | false => []
  end.

(** [(dict_results[0] if dict_results else None) if one else dict_results] *)
Definition selected (one : bool) {A : Type} (dict_results : list A)
  : fetched one A :=
  match one return fetched one A with
  | true => hd_error dict_results
  | false => dict_results
  end.

Section Requests.
Variable lib : sqlite3.

(** [sqlite3.connect(path)] returns a connection or raises; it never
    returns [None]. *)
Definition sqlite3_connect (path : string) : Py connection :=
  match connect_error lib with
  | Some m => raise (sqlite3_Error m)
  | None => emit Opened ;; ret (Connection path)
  end.

(** The row factory set on the connection only decides how rows are
    presented; [query_db] turns them into dictionaries anyway. *)
Definition get_db_connection : Py (option connection) :=
  conn <- sqlite3_connect DB_PATH ;;
  ret (Some conn).

(** [cursor.execute(query, args)] and [cursor.fetchall()], followed by
    [dict(row)] on every row. *)
Definition cursor_fetchall (conn : connection) (q : query)
  : Py (list (row_of q)) :=
  match execute_fetchall lib q with
  | Sql.Ok results => ret results
  | Sql.Error m => raise (sqlite3_Error m)
  end.

Definition close (conn : connection) : Py unit := emit Closed.

(** [query_db(query, args=(), one=False)].  No caller passes [args] or
    [one].  The connection is opened before the [try] block; the guard
    on [None] follows, then the block with its [except] and [finally]
    clauses. *)
Definition query_db (q : query) (one : bool) : Py (fetched one (row_of q)) :=
  conn <- get_db_connection ;;
  match conn with
  | None => ret (nothing one)
  | Some conn =>
      try_finally
        (try_except
           (dict_results <- cursor_fetchall conn q ;;
            ret (selected one dict_results))
           (fun e =>
              print ("Query error: " ++ str e)%string ;;
              ret (nothing one)))
        (close conn)
  end.

(** ** Customer routes

    Every dictionary carries all the columns of its statement, so
    [r.get(c, 0)] is the field [c] of the row; the default is never
    used, also not for a field that is [None]. *)

Definition home : Py response := render_template "index.html" no_context.

Definition signup : Py response := render_template "signup.html" no_context.

Definition account : Py response :=
  reservations <- query_db revenue_by_customer false ;;
  render_template "account.html" (account_context reservations).

Definition profile : Py response :=
  render_template "profile.html" no_context.

Definition guest_rooms : Py response :=
  available_rooms <- query_db available_sleeping_rooms false ;;
  let total_rooms :=
    if truthy available_rooms then len available_rooms else 0 in
  render_template "guest_rooms.html"
    (guest_rooms_context available_rooms total_rooms).

Definition meeting_spaces_page : Py response :=
  meeting_spaces <- query_db meeting_spaces_with_amenities false ;;
  let total_spaces :=
    if truthy meeting_spaces then len meeting_spaces else 0 in
  render_template "meeting_spaces.html"
    (meeting_spaces_context meeting_spaces total_spaces).

Definition my_reservations : Py response :=
  reservations <- query_db reservations_per_day_limit_10 false ;;
  let total_reservations :=
    if truthy reservations then len reservations else 0 in
  render_template "my_reservations.html"
    (my_reservations_context reservations total_reservations).

Definition book : Py response :=
  room_types <- query_db room_types_for_booking false ;;
  meeting_space_types <- query_db space_types_for_booking false ;;
  let all_types := (room_types ++ meeting_space_types)%list in
  render_template "book.html" (book_context all_types).

Definition confirmation : Py response :=
  render_template "confirmation.html" no_context.

(** ** Management routes *)

Definition management_login : Py response :=
  render_template "management_login.html" no_context.

Definition staff_roster : Py response :=
  staff <- query_db staff_list false ;;
  let total_staff := if truthy staff then len staff else 0 in
  let active_staff :=
    if truthy staff
    then len (filter (fun s => truthy_value (Staff.isActive s)) staff)
    else 0 in
  render_template "staff_roster.html"
    (staff_roster_context staff total_staff active_staff).

Definition card_management : Py response :=
  staff_cards <- query_db staff_swipes_by_department false ;;
  let total_swipes :=
    if truthy staff_cards
    then sum (map Swipes.staff_swipes staff_cards) else 0 in
  let departments :=
    if truthy staff_cards
    then len_set
           (map Swipes.department
              (filter (fun s => truthy_text (Swipes.department s))
                      staff_cards))
    else 0 in
  let locations :=
    if truthy staff_cards
    then len_set
           (map Swipes.location
              (filter (fun s => truthy_text (Swipes.location s))
                      staff_cards))
    else 0 in
  render_template "card_management.html"
    (card_management_context staff_cards total_swipes departments locations).

(** ** Employee routes *)

Definition employee_login : Py response :=
  render_template "employee_login.html" no_context.

Definition employee_rooms : Py response :=
  forum_posts <- query_db open_requests_by_type false ;;
  room_types <- query_db stay_length_by_room_type false ;;
  meeting_spaces_events <- query_db events_by_space_type false ;;
  let total_requests :=
    if truthy forum_posts
    then sum (map OpenRequests.open_requests forum_posts) else 0 in
  let total_bookings :=
    if truthy room_types
    then sum (map StayLength.num_room_bookings room_types) else 0 in
  let total_events :=
    if truthy meeting_spaces_events
    then sum (map SpaceEvents.events_count meeting_spaces_events) else 0 in
  render_template "employee_rooms.html"
    (employee_rooms_context forum_posts room_types meeting_spaces_events
       total_requests total_bookings total_events).

Definition employee_customer_cards : Py response :=
  customer_cards <- query_db revenue_by_customer false ;;
  let total_customers :=
    if truthy customer_cards then len customer_cards else 0 in
  total_revenue <-
    (if truthy customer_cards
     then sum_numbers (map CustomerBill.total_billed customer_cards)
     else ret (Integer 0)) ;;
  render_template "employee_customer_cards.html"
    (employee_customer_cards_context customer_cards
       total_customers total_revenue).

Definition employee_room_list : Py response :=
  rooms <- query_db room_counts_by_status false ;;
  let total_rooms :=
    if truthy rooms then sum (map RoomCount.num_rooms rooms) else 0 in
  let available_rooms :=
    if truthy rooms
    then sum (map RoomCount.num_rooms
                (filter (fun r => (RoomCount.room_status r =? "available")%string)
                        rooms))
    else 0 in
  render_template "employee_room_list.html"
    (employee_room_list_context rooms total_rooms available_rooms).

Definition employee_reservations_page : Py response :=
  reservations <- query_db reservations_per_day false ;;
  let total_reservations :=
    if truthy reservations
    then sum (map DayCount.num_reservations reservations) else 0 in
  let total_days := if truthy reservations then len reservations else 0 in
  let avg_per_day :=
    if 0 <? total_days then true_div total_reservations total_days
    else Q2Qc 0 in
  render_template "employee_reservations.html"
    (employee_reservations_context reservations
       total_reservations total_days avg_per_day).

Definition employee_revenue : Py response :=
  revenue <- query_db monthly_revenue false ;;
  total_revenue <-
    (if truthy revenue
     then sum_numbers (map MonthRevenue.total_revenue revenue)
     else ret (Integer 0)) ;;
  let total_transactions :=
    if truthy revenue then sum (map MonthRevenue.num_tx revenue) else 0 in
  let months_tracked := if truthy revenue then len revenue else 0 in
  render_template "employee_revenue.html"
    (employee_revenue_context revenue
       total_revenue total_transactions months_tracked).

Definition rooms_never_reserved : Py response :=
  rooms <- query_db rooms_never_reserved_rows false ;;
  let total_unused := if truthy rooms then len rooms else 0 in
  render_template "rooms_never_reserved.html"
    (rooms_never_reserved_context rooms total_unused).

(** [@app.errorhandler(Exception)] *)
Definition handle_error (e : exception) : Py response :=
  render_template "error.html" (error_context e).

(** The view function bound to each URL by [@app.route]. *)
Definition view (r : route) : Py response :=
  match r with
  | GET_home => home
  | GET_signup => signup
  | GET_account => account
  | GET_profile => profile
  | GET_guest_rooms => guest_rooms
  | GET_meeting_spaces => meeting_spaces_page
  | GET_my_reservations => my_reservations
  | GET_book => book
  | GET_confirmation => confirmation
  | GET_management => management_login
  | GET_staff_roster => staff_roster
  | GET_card_management => card_management
  | GET_employee => employee_login
  | GET_employee_rooms => employee_rooms
  | GET_employee_customer_cards => employee_customer_cards
  | GET_employee_room_list => employee_room_list
  | GET_employee_reservations => employee_reservations_page
  | GET_employee_revenue => employee_revenue
  | GET_employee_rooms_never_reserved => rooms_never_reserved
  end.

(** Flask runs the view; an exception that leaves it goes to the
    registered handler, whose response is sent instead. *)
Definition dispatch_request (r : route) : Py response :=
  match view r with
  | (Return resp, t) => (Return resp, t)
  | (Raise e, t) => let (o, t') := handle_error e in (o, (t ++ t')%list)
  end.

(** The response that a request receives, when there is one. *)
Definition served (r : route) : option response :=
  match fst (dispatch_request r) with
  | Return resp => Some resp
  | Raise _ => None
  end.

End Requests.

(** The template that each view renders. *)
Definition page_of (r : route) : string :=
  match r with
  | GET_home => "index.html"
  | GET_signup => "signup.html"
  | GET_account => "account.html"
  | GET_profile => "profile.html"
  | GET_guest_rooms => "guest_rooms.html"
  | GET_meeting_spaces => "meeting_spaces.html"
  | GET_my_reservations => "my_reservations.html"
  | GET_book => "book.html"
  | GET_confirmation => "confirmation.html"
  | GET_management => "management_login.html"
  | GET_staff_roster => "staff_roster.html"
  | GET_card_management => "card_management.html"
  | GET_employee => "employee_login.html"
  | GET_employee_rooms => "employee_rooms.html"
  | GET_employee_customer_cards => "employee_customer_cards.html"
  | GET_employee_room_list => "employee_room_list.html"
  | GET_employee_reservations => "employee_reservations.html"
  | GET_employee_revenue => "employee_revenue.html"
  | GET_employee_rooms_never_reserved => "rooms_never_reserved.html"
  end.

End App.

(* ================================================================== *)
(** * Vocabulary of the properties *)

Module Spec.
Import Sql.

(** The arithmetic sum of a field over a row sequence. *)
Definition total_of {A} (f : A -> Z) (rows : list A) : Z :=
  fold_right (fun r acc => f r + acc) 0 rows.

(** The arithmetic sum and the arithmetic mean of a list of rationals. *)
Definition sum_exact (l : list Qc) : Qc := fold_right Qcplus (Q2Qc 0) l.

Definition mean (l : list Qc) : Qc :=
  (sum_exact l / Q2Qc (inject_Z (Z.of_nat (List.length l))))%Qc.

(** A field that holds the integer [z], and one that holds the double
    [f]. *)
Definition whole (z : Z) : option number := Some (Integer z).

Definition fraction (f : float) : option number := Some (Float f).

(** The integer in an INTEGER field, the double in a REAL field. *)
Definition integer_in (v : option number) : Z :=
  match v with Some (Integer z) => z | _ => 0 end.

Definition double_in (v : option number) : float :=
  match v with Some (Float f) => f | _ => PrimFloat.zero end.

Definition is_integer (v : option number) : Prop := v = whole (integer_in v).

Definition is_real (v : option number) : Prop := v = fraction (double_in v).

(** The sum of a list of doubles in double arithmetic: taken from left
    to right and rounded after every addition. *)
Definition rounded_sum (l : list float) : float :=
  fold_left PrimFloat.add l PrimFloat.zero.



(** A double that is a number; a NaN is none. *)
Definition a_number (f : float) : option float :=
  if PrimFloat.is_nan f then None else Some f.

(** The values that an aggregate adds: the doubles, without the
    NULLs. *)
Definition added (v : option float) : list float :=
  match v with Some d => [d] | None => [] end.

(** The mean of a list of doubles in double arithmetic: their rounded
    sum divided by their number. *)
Definition rounded_mean (l : list float) : option float :=
  match l with
  | [] => None
  | _ => a_number (PrimFloat.div (rounded_sum l)
                                 (Double.of_Z (Z.of_nat (List.length l))))
  end.

(** The rows that [query_db] hands to a view once the connection is
    open: the fetched rows, or none when the statement failed. *)
Definition returned (lib : sqlite3) (q : query) : list (row_of q) :=
  match execute_fetchall lib q with
  | Ok rows => rows
  | Error _ => []
  end.

(** A library whose connection opens, with given answers. *)
Definition connected (answers : forall q : query, result (list (row_of q)))
  : sqlite3 :=
  {| connect_error := None; execute_fetchall := answers |}.

(** A library whose [connect] raises: the database file cannot be
    opened. *)
Definition unreachable (message : string)
    (answers : forall q : query, result (list (row_of q))) : sqlite3 :=
  {| connect_error := Some message; execute_fetchall := answers |}.

(** The statements that each view passes to [query_db]. *)
Definition statements_of (r : route) : list query :=
  match r with
  | GET_account => [revenue_by_customer]
  | GET_guest_rooms => [available_sleeping_rooms]
  | GET_meeting_spaces => [meeting_spaces_with_amenities]
  | GET_my_reservations => [reservations_per_day_limit_10]
  | GET_book => [room_types_for_booking; space_types_for_booking]
  | GET_staff_roster => [staff_list]
  | GET_card_management => [staff_swipes_by_department]
  | GET_employee_rooms =>
      [open_requests_by_type; stay_length_by_room_type; events_by_space_type]
  | GET_employee_customer_cards => [revenue_by_customer]
  | GET_employee_room_list => [room_counts_by_status]
  | GET_employee_reservations => [reservations_per_day]
  | GET_employee_revenue => [monthly_revenue]
  | GET_employee_rooms_never_reserved => [rooms_never_reserved_rows]
  | GET_home | GET_signup | GET_profile | GET_confirmation
  | GET_management | GET_employee => []
  end.

Definition uses_database (r : route) : bool :=
  Python.truthy (statements_of r).

(** A page without data: every collection empty, every statistic 0. *)
Definition blank (c : context) : Prop :=
  match c with
  | no_context => True
  | account_context reservations => reservations = []
  | guest_rooms_context available_rooms total_rooms =>
      available_rooms = [] /\ total_rooms = 0
  | meeting_spaces_context meeting_spaces total_spaces =>
      meeting_spaces = [] /\ total_spaces = 0
  | my_reservations_context reservations total_reservations =>
      reservations = [] /\ total_reservations = 0
  | book_context all_types => all_types = []
  | staff_roster_context staff total_staff active_staff =>
      staff = [] /\ total_staff = 0 /\ active_staff = 0
  | card_management_context staff_cards total_swipes departments locations =>
      staff_cards = [] /\ total_swipes = 0 /\ departments = 0 /\ locations = 0
  | employee_rooms_context forum_posts room_types meeting_spaces_events
      total_requests total_bookings total_events =>
      forum_posts = [] /\ room_types = [] /\ meeting_spaces_events = []
      /\ total_requests = 0 /\ total_bookings = 0 /\ total_events = 0
  | employee_customer_cards_context customer_cards total_customers
      total_revenue =>
      customer_cards = [] /\ total_customers = 0
      /\ total_revenue = Integer 0
  | employee_room_list_context rooms total_rooms available_rooms =>
      rooms = [] /\ total_rooms = 0 /\ available_rooms = 0
  | employee_reservations_context reservations total_reservations
      total_days avg_per_day =>
      reservations = [] /\ total_reservations = 0 /\ total_days = 0
      /\ avg_per_day = Q2Qc 0
  | employee_revenue_context revenue total_revenue total_transactions
      months_tracked =>
      revenue = [] /\ total_revenue = Integer 0 /\ total_transactions = 0
      /\ months_tracked = 0
  | rooms_never_reserved_context rooms total_unused =>
      rooms = [] /\ total_unused = 0
  | error_context _ => False
  end.

(** The generic error page that [handle_error] renders. *)
Definition error_page (e : Python.exception) : response :=
  {| template := "error.html"; variables := error_context e |}.

(** ** The calendar *)

Definition leap_year (y : Z) : bool :=
  ((y mod 4 =? 0) && negb (y mod 100 =? 0)) || (y mod 400 =? 0).

Definition days_in_month (y m : Z) : Z :=
  if m =? 2 then (if leap_year y then 29 else 28)
  else if (m =? 4) || (m =? 6) || (m =? 9) || (m =? 11) then 30
  else 31.

(** A timestamp that names an instant of the calendar: a day that its
    month has, and a time of that day. *)
Definition well_formed (t : datetime) : Prop :=
  0 <= year t <= 9999 /\ 1 <= month t <= 12
  /\ 1 <= day_of_month t <= days_in_month (year t) (month t)
  /\ 0 <= hour t <= 23 /\ 0 <= minute t <= 59 /\ 0 <= second t <= 59.

(** The days of the years before year [y], counted from year 0. *)
Fixpoint days_before_year (y : nat) : Z :=
  match y with
  | O => 0
  | S k => days_before_year k + (if leap_year (Z.of_nat k) then 366 else 365)
  end.

(** The days of the months of year [y] before month [m]. *)
Definition days_before_month (y m : Z) : Z :=
  fold_right (fun k acc => days_in_month y (Z.of_nat k) + acc) 0
             (seq 1 (Z.to_nat (m - 1))).

(** The milliseconds from 0000-01-01 00:00:00 to a timestamp.  A field
    beyond its range counts on: the 31st of a month of 30 days is the
    1st of the next, 24:00 the midnight that ends the day. *)
Definition instant (t : datetime) : Z :=
  ((days_before_year (Z.to_nat (year t)) + days_before_month (year t) (month t)
    + (day_of_month t - 1)) * 86400
   + hour t * 3600 + minute t * 60 + second t) * 1000.

(** The day number that SQLite's [computeJD] gives to the day before
    the first of a month, as [Sql.julianday_ms] computes it. *)
Definition computed_day (y m : Z) : Z :=
  let '(Y, M) := if m <=? 2 then (y - 1, m + 12) else (y, m) in
  (36525 * (Y + 4716)) ÷ 100 + (306001 * (M + 1)) ÷ 10000
  + (2 - Y ÷ 100 + (Y ÷ 100) ÷ 4).

(** The Julian day number of 0000-01-01 00:00:00 is 1721059.5; in
    milliseconds: *)
Definition julian_epoch : Z := 148699540800000.

(** The last millisecond of the year 9999. *)
Definition last_instant : Z := 315569519999999.

(** The timestamps that have a Julian day number: month and day as a
    calendar writes them (1 to 12, 1 to 31), a time up to 24:59:59, and
    an instant within the years 0 to 9999. *)
Definition legible (t : datetime) : bool :=
  (0 <=? year t) && (year t <=? 9999) && (1 <=? month t) && (month t <=? 12)
  && (1 <=? day_of_month t) && (day_of_month t <=? 31)
  && (0 <=? hour t) && (hour t <=? 24)
  && (0 <=? minute t) && (minute t <=? 59)
  && (0 <=? second t) && (second t <=? 59)
  && (instant t <=? last_instant).

(** The Julian day number of a timestamp as a double. *)
Definition julian_day (t : datetime) : float :=
  PrimFloat.div (Double.of_Z (julian_epoch + instant t))
                (Double.of_Z 86400000).

(** ** Stays *)

(** The stays in rooms of the type named [ty]: for every
    [reservation_room] row whose room has that type, the reservation it
    belongs to. *)
Definition stays_of_room_type (db : database) (ty : string)
  : list Reservation.row :=
  flat_map
    (fun rr =>
       flat_map
         (fun rm =>
            flat_map
              (fun rt =>
                 filter (fun r => Reservation.reservationId r
                                  =? ReservationRoom.reservationId rr)
                        (reservation db))
              (filter (fun rt =>
                         (RoomType.roomTypeId rt =? Room.roomTypeId rm)
                         && (RoomType.roomType rt =? ty)%string)
                      (room_type db)))
         (filter (fun rm => Room.roomId rm =? ReservationRoom.roomId rr)
                 (room db)))
    (reservation_room db).

(** End minus start of a stay, in days. *)
Definition days_between (r : Reservation.row) : Qc :=
  Q2Qc (Qmake (instant (Reservation.endDateTime r)
               - instant (Reservation.startDateTime r)) 86400000).

(** The same difference in double arithmetic: each end of the stay as
    its Julian day number, then one subtraction.  A stay with a
    timestamp that has no Julian day number has no length. *)
Definition days_in_doubles (r : Reservation.row) : list float :=
  if legible (Reservation.startDateTime r)
     && legible (Reservation.endDateTime r)
  then match a_number (PrimFloat.sub
                         (julian_day (Reservation.endDateTime r))
                         (julian_day (Reservation.startDateTime r))) with
       | Some d => [d]
       | None => []
       end
  else [].

(** ** Check-in days *)

(** A day of the calendar: year, month, day. *)
Definition calendar_day : Type := (Z * Z * Z)%type.

Definition day_of (t : datetime) : calendar_day :=
  (year t, month t, day_of_month t).


(** The decimal digit [d]. *)
Definition numeral (d : Z) : string :=
  match d with
  | 0 => "0" | 1 => "1" | 2 => "2" | 3 => "3" | 4 => "4"
  | 5 => "5" | 6 => "6" | 7 => "7" | 8 => "8" | _ => "9"
  end.

(** The last [width] decimal digits of [n]. *)
Fixpoint decimal (width : nat) (n : Z) : string :=
  match width with
  | O => EmptyString
  | S w => (decimal w (n / 10) ++ numeral (n mod 10))%string
  end.

(** A calendar day as the reports write it, [YYYY-MM-DD]. *)
Definition iso_date (d : calendar_day) : string :=
  (decimal 4 (fst (fst d)) ++ "-" ++ decimal 2 (snd (fst d)) ++ "-"
     ++ decimal 2 (snd d))%string.




(** The strict order of the days of a report: an absent day is below
    every text, texts are compared as [ORDER BY] compares them. *)
Definition day_below (a b : option string) : Prop :=
  match a, b with
  | None, Some _ => True
  | Some x, Some y => (x ?= y)%string = Lt
  | _, None => False
  end.

(** Calendar order of two timestamps, by day. *)
Definition calendar_compare (a b : datetime) : comparison :=
  match year a ?= year b with
  | Eq => match month a ?= month b with
          | Eq => day_of_month a ?= day_of_month b
          | c => c
          end
  | c => c
  end.

(** A room that no [reservation_room] row references. *)
Definition never_reserved (db : database) (rm : Room.row) : Prop :=
  forall rr, In rr (reservation_room db) ->
             ReservationRoom.roomId rr <> Room.roomId rm.

(** A room that is in a building of the [building] table. *)
Definition housed_in (rm : Room.row) (b : Building.row) : Prop :=
  Room.buildingId rm = Building.buildingId b.

(** The result row that stands for room [rm] of building [b]. *)
Definition listing (b : Building.row) (rm : Room.row) : UnusedRoom.row :=
  {| UnusedRoom.buildingName := Building.buildingName b;
     UnusedRoom.roomNumber := Room.roomNumber rm |}.

(** The claim that the report is the set difference, with a room
    counted as listed when a result row carries its number. *)
Definition is_set_difference (db : database) (rows : list UnusedRoom.row)
  : Prop :=
  forall rm, In rm (room db) ->
    ((exists row, In row rows
                  /\ UnusedRoom.roomNumber row = Room.roomNumber rm)
     <-> never_reserved db rm).

(** ** Stay lengths *)

(** [l if c else []] *)
Definition when {A} (c : bool) (l : list A) : list A :=
  if c then l else [].

(** The condition under which a room type, a room, a [reservation_room]
    row and a reservation make up one booking of the type named [ty]. *)
Definition is_booking (ty : string) (rt : RoomType.row) (rm : Room.row)
    (rr : ReservationRoom.row) (r : Reservation.row) : bool :=
  (Room.roomTypeId rm =? RoomType.roomTypeId rt)
  && (ReservationRoom.roomId rr =? Room.roomId rm)
  && (Reservation.reservationId r =? ReservationRoom.reservationId rr)
  && (RoomType.roomType rt =? ty)%string.

(** [[r] if the four rows make up a booking else []] *)
Definition stay_of_booking (ty : string) (rt : RoomType.row) (rm : Room.row)
    (rr : ReservationRoom.row) (r : Reservation.row) : list Reservation.row :=
  when (is_booking ty rt rm rr r) [r].

Definition room_type_name
    (x : RoomType.row * Room.row * ReservationRoom.row * Reservation.row)
  : string :=
  RoomType.roomType (fst (fst (fst x))).

Definition nights_of
    (x : RoomType.row * Room.row * ReservationRoom.row * Reservation.row)
  : option number :=
  option_map Float (Statements.nights (snd x)).

Definition stay_length_of
    (g : string * list (RoomType.row * Room.row * ReservationRoom.row
                        * Reservation.row))
  : StayLength.row :=
  {| StayLength.roomType := fst g;
     StayLength.avg_nights := sql_avg nights_of (snd g);
     StayLength.num_room_bookings := count_star (snd g) |}.

Definition longest_first (x y : StayLength.row) : bool :=
  option_leb real_leb (StayLength.avg_nights y) (StayLength.avg_nights x).

(** ** Room counts by status *)

(** The rows that Query 2 groups: every room with its building and its
    status. *)
Definition housed_rooms (db : database)
  : list (Building.row * Room.row * RoomStatus.row) :=
  inner_join
    (inner_join (building db) (room db)
       (fun b rm => Room.buildingId rm =? Building.buildingId b))
    (room_status db)
    (fun x rs => RoomStatus.roomStatusId rs =? Room.roomStatusId (snd x)).

Definition is_available (x : Building.row * Room.row * RoomStatus.row)
  : bool :=
  (RoomStatus.status (snd x) =? "available")%string.

Definition place_and_status (x : Building.row * Room.row * RoomStatus.row)
  : string * string :=
  (Building.buildingName (fst (fst x)), RoomStatus.status (snd x)).

Definition room_count_of (g : string * string
                                * list (Building.row * Room.row * RoomStatus.row))
  : RoomCount.row :=
  {| RoomCount.buildingName := fst (fst g);
     RoomCount.room_status := snd (fst g);
     RoomCount.num_rooms := count_star (snd g) |}.

End Spec.

(** ** Sample data *)

Module Sample.
Import Sql.

Definition at_noon (y m d : Z) : datetime :=
  {| year := y; month := m; day_of_month := d;
     hour := 12; minute := 0; second := 0 |}.

Definition no_answer (q : query) : Sql.result (list (row_of q)) :=
  Error "no such table".

Definition empty_database : database :=
  {| building := []; room := []; room_status := []; room_type := [];
     reservation := []; reservation_room := []; transaction := [] |}.

(** Two payments in two different months. *)
Definition two_months : database :=
  {| building := []; room := []; room_status := []; room_type := [];
     reservation := []; reservation_room := [];
     transaction :=
       [ {| Transaction.transactionDate := at_noon 2024 1 15;
            Transaction.amount := Some (Integer 100) |};
         {| Transaction.transactionDate := at_noon 2024 2 20;
            Transaction.amount := Some (Integer 50) |} ] |}.

(** A room whose [buildingId] matches no row of [building], and no
    reservation at all. *)
Definition orphan_room : Room.row :=
  {| Room.roomId := 1; Room.roomNumber := 101; Room.buildingId := 7;
     Room.roomTypeId := 1; Room.roomStatusId := 1 |}.

Definition unhoused : database :=
  {| building := []; room := [orphan_room]; room_status := [];
     room_type := []; reservation := []; reservation_room := [];
     transaction := [] |}.

(** One building, one status, two rooms and three stays. *)
Definition main_building : Building.row :=
  {| Building.buildingId := 1; Building.buildingName := "Main" |}.

Definition available : RoomStatus.row :=
  {| RoomStatus.roomStatusId := 1; RoomStatus.status := "available" |}.

Definition room_101 : Room.row :=
  {| Room.roomId := 1; Room.roomNumber := 101; Room.buildingId := 1;
     Room.roomTypeId := 1; Room.roomStatusId := 1 |}.

Definition room_102 : Room.row :=
  {| Room.roomId := 2; Room.roomNumber := 102; Room.buildingId := 1;
     Room.roomTypeId := 2; Room.roomStatusId := 1 |}.

Definition stay (id y m d y' m' d' : Z) : Reservation.row :=
  {| Reservation.reservationId := id;
     Reservation.startDateTime := at_noon y m d;
     Reservation.endDateTime := at_noon y' m' d' |}.

Definition small_hotel : database :=
  {| building := [main_building];
     room := [room_101; room_102];
     room_status := [available];
     room_type := [ {| RoomType.roomTypeId := 1; RoomType.roomType := "Single" |};
                    {| RoomType.roomTypeId := 2; RoomType.roomType := "Suite" |} ];
     reservation := [ stay 1 2024 1 10 2024 1 12;
                      stay 2 2024 1 10 2024 1 15;
                      stay 3 2023 12 30 2024 1 2 ];
     reservation_room :=
       [ {| ReservationRoom.reservationId := 1; ReservationRoom.roomId := 1 |};
         {| ReservationRoom.reservationId := 2; ReservationRoom.roomId := 1 |};
         {| ReservationRoom.reservationId := 3; ReservationRoom.roomId := 1 |} ];
     transaction := [] |}.

(** Twelve days of March 2024 with one check-in each, and a second
    check-in on the 5th. *)
Definition twelve_days : database :=
  {| building := []; room := []; room_status := []; room_type := [];
     reservation :=
       stay 13 2024 3 5 2024 3 6
       :: map (fun d => stay d 2024 3 d 2024 3 (d + 1))
              [7; 3; 12; 1; 9; 5; 11; 2; 8; 4; 10; 6];
     reservation_room := []; transaction := [] |}.

(** A third room that is occupied, beside the two available ones. *)
Definition occupied : RoomStatus.row :=
  {| RoomStatus.roomStatusId := 2; RoomStatus.status := "occupied" |}.

Definition room_103 : Room.row :=
  {| Room.roomId := 3; Room.roomNumber := 103; Room.buildingId := 1;
     Room.roomTypeId := 1; Room.roomStatusId := 2 |}.

Definition mixed_hotel : database :=
  {| building := [main_building];
     room := [room_101; room_103; room_102];
     room_status := [occupied; available];
     room_type := [];
     reservation := []; reservation_room := []; transaction := [] |}.

(** Guests who check in at 15:00 and check out at 11:00. *)
Definition visit (id y m d y' m' d' : Z) : Reservation.row :=
  {| Reservation.reservationId := id;
     Reservation.startDateTime :=
       {| year := y; month := m; day_of_month := d;
          hour := 15; minute := 0; second := 0 |};
     Reservation.endDateTime :=
       {| year := y'; month := m'; day_of_month := d';
          hour := 11; minute := 0; second := 0 |} |}.

Definition afternoon_arrivals : database :=
  {| building := [main_building];
     room := [room_101; room_102];
     room_status := [available];
     room_type := [ {| RoomType.roomTypeId := 1; RoomType.roomType := "Single" |};
                    {| RoomType.roomTypeId := 2; RoomType.roomType := "Suite" |} ];
     reservation := [ visit 1 2024 1 10 2024 1 12;
                      visit 2 2024 1 10 2024 1 15;
                      visit 3 2023 12 30 2024 1 2 ];
     reservation_room :=
       [ {| ReservationRoom.reservationId := 1; ReservationRoom.roomId := 1 |};
         {| ReservationRoom.reservationId := 2; ReservationRoom.roomId := 1 |};
         {| ReservationRoom.reservationId := 3; ReservationRoom.roomId := 1 |} ];
     transaction := [] |}.



End Sample.

(* ================================================================== *)
(** * The whole database

    The remaining statements read further tables and further columns of
    [room].  [Hotel.t] holds all tables that [app.py] names; [Hotel.core]
    is its view through the columns of [database]. *)

Module Customer.
Record row : Type := { customerId : Z; lastName : string; firstName : string }.
End Customer.

Module Billing.
Record row : Type := { customerId : Z; totalAmount : option number }.
End Billing.

Module BedType.
Record row : Type := { bedTypeId : Z; bedType : string }.
End BedType.

Module RoomDetail.
Record row : Type := {
  roomId : Z; roomNumber : Z; buildingId : Z; roomTypeId : Z;
  bedTypeId : Z; roomStatusId : Z; squareFootage : value; hasPaidBar : value
}.

Definition columns (rm : row) : Room.row :=
  {| Room.roomId := roomId rm; Room.roomNumber := roomNumber rm;
     Room.buildingId := buildingId rm; Room.roomTypeId := roomTypeId rm;
     Room.roomStatusId := roomStatusId rm |}.
End RoomDetail.

Module MeetingRoom.
Record row : Type := {
  roomId : Z; spaceType : string; capacity : value;
  hasProjector : value; hasWhiteboard : value; hasPaidBar : value
}.
End MeetingRoom.

Module CardAssignment.
Record row : Type := { staffcardId : Z; staffId : Z }.
End CardAssignment.

Module Reader.
Record row : Type := { readersId : Z; location : string }.
End Reader.

Module Reading.
Record row : Type := { staffcardId : Z; readerID : Z }.
End Reading.

Module CustomerRequest.
Record row : Type := { depositStatus : string; resolved : string }.
End CustomerRequest.

Module Event.
Record row : Type := { eventId : Z }.
End Event.

Module EventReservation.
Record row : Type := { reservationId : Z; eventId : Z }.
End EventReservation.

Module Hotel.

Record t : Type := {
  building : list Building.row;
  room : list RoomDetail.row;
  room_status : list RoomStatus.row;
  room_type : list RoomType.row;
  bed_type : list BedType.row;
  meeting_space : list MeetingRoom.row;
  reservation : list Reservation.row;
  reservation_room : list ReservationRoom.row;
  transaction : list Transaction.row;
  customer : list Customer.row;
  billing : list Billing.row;
  staff : list Staff.row;
  staff_card_assignment : list CardAssignment.row;
  readers : list Reader.row;
  reading_info : list Reading.row;
  customer_requests : list CustomerRequest.row;
  event : list Event.row;
  event_reservation : list EventReservation.row
}.

Definition core (h : t) : database :=
  Build_database (building h) (map RoomDetail.columns (room h))
    (room_status h) (room_type h) (reservation h) (reservation_room h)
    (transaction h).

End Hotel.

(** ** The remaining statements *)

Module Reports.
Import Sql.

(** The next sort key decides where the first one ties. *)
Definition then_by (c : comparison) (rest : bool) : bool :=
  match c with
  | Lt => true
  | Gt => false
  | Eq => rest
  end.

(** Query 5: revenue by customer.
<<
    SELECT c.customerId, c.lastName AS last_name, c.firstName AS first_name,
           COUNT( * ) AS bills, SUM(b.totalAmount) AS total_billed
    FROM billing AS b
    JOIN customer AS c ON c.customerId = b.customerId
    GROUP BY c.customerId, c.lastName, c.firstName
    ORDER BY total_billed DESC
>> *)
Definition billed_customer (x : Billing.row * Customer.row)
  : Z * string * string :=
  (Customer.customerId (snd x), Customer.lastName (snd x),
   Customer.firstName (snd x)).

Definition customer_eqb (a b : Z * string * string) : bool :=
  (fst (fst a) =? fst (fst b))
  && (snd (fst a) =? snd (fst b))%string
  && (snd a =? snd b)%string.

Definition bills_of_customers (b : list Billing.row) (c : list Customer.row)
  : list (Billing.row * Customer.row) :=
  inner_join b c (fun b c => Customer.customerId c =? Billing.customerId b).

Definition billed_amount (x : Billing.row * Customer.row) : option number :=
  Billing.totalAmount (fst x).

(** The row of a group; none when its [SUM] fails. *)
Definition customer_bill
    (g : Z * string * string * list (Billing.row * Customer.row))
  : result CustomerBill.row :=
  total <- sql_sum billed_amount (snd g) ;;;
  Ok {| CustomerBill.customerId := fst (fst (fst g));
        CustomerBill.last_name := snd (fst (fst g));
        CustomerBill.first_name := snd (fst g);
        CustomerBill.bills := count_star (snd g);
        CustomerBill.total_billed := total |}.

(** [ORDER BY total_billed DESC]: a NULL total comes last. *)
Definition highest_billed_first (x y : CustomerBill.row) : bool :=
  option_leb number_leb (CustomerBill.total_billed y)
             (CustomerBill.total_billed x).

Definition sql_revenue_by_customer (h : Hotel.t)
  : result (list CustomerBill.row) :=
  b <- table "billing" (Hotel.billing h) ;;;
  c <- table "customer" (Hotel.customer h) ;;;
  rows <- collect (map customer_bill
                     (group_by billed_customer customer_eqb
                               (bills_of_customers b c))) ;;;
  Ok (order_by highest_billed_first rows).

(** Available sleeping rooms.
<<
    SELECT rm.roomId, rm.roomNumber, b.buildingName, rt.roomType, bt.bedType,
           rm.squareFootage, rm.hasPaidBar, rs.status AS room_status
    FROM room AS rm
    JOIN building AS b ON b.buildingId = rm.buildingId
    JOIN room_type AS rt ON rt.roomTypeId = rm.roomTypeId
    LEFT JOIN bed_type AS bt ON bt.bedTypeId = rm.bedTypeId
    JOIN room_status AS rs ON rs.roomStatusId = rm.roomStatusId
    LEFT JOIN meeting_space AS ms ON ms.roomId = rm.roomId
    WHERE ms.roomId IS NULL AND rs.status = 'available'
    ORDER BY b.buildingName, rm.roomNumber
>> *)
Definition described_room : Type :=
  (RoomDetail.row * Building.row * RoomType.row * option BedType.row
   * RoomStatus.row * option MeetingRoom.row)%type.

Definition the_room (x : described_room) : RoomDetail.row :=
  fst (fst (fst (fst (fst x)))).
Definition the_building (x : described_room) : Building.row :=
  snd (fst (fst (fst (fst x)))).
Definition the_type (x : described_room) : RoomType.row :=
  snd (fst (fst (fst x))).
Definition the_bed (x : described_room) : option BedType.row :=
  snd (fst (fst x)).
Definition the_status (x : described_room) : RoomStatus.row :=
  snd (fst x).
Definition the_space (x : described_room) : option MeetingRoom.row :=
  snd x.

Definition described_rooms (h : Hotel.t) : list described_room :=
  let rm_b :=
    inner_join (Hotel.room h) (Hotel.building h)
      (fun rm b => Building.buildingId b =? RoomDetail.buildingId rm) in
  let rm_b_rt :=
    inner_join rm_b (Hotel.room_type h)
      (fun x rt => RoomType.roomTypeId rt =? RoomDetail.roomTypeId (fst x)) in
  let rm_b_rt_bt :=
    left_join rm_b_rt (Hotel.bed_type h)
      (fun x bt => BedType.bedTypeId bt
                   =? RoomDetail.bedTypeId (fst (fst x))) in
  let rm_b_rt_bt_rs :=
    inner_join rm_b_rt_bt (Hotel.room_status h)
      (fun x rs => RoomStatus.roomStatusId rs
                   =? RoomDetail.roomStatusId (fst (fst (fst x)))) in
  left_join rm_b_rt_bt_rs (Hotel.meeting_space h)
    (fun x ms => MeetingRoom.roomId ms
                 =? RoomDetail.roomId (fst (fst (fst (fst x))))).

Definition sleeping_room (x : described_room) : SleepingRoom.row :=
  {| SleepingRoom.roomId := RoomDetail.roomId (the_room x);
     SleepingRoom.roomNumber := RoomDetail.roomNumber (the_room x);
     SleepingRoom.buildingName := Building.buildingName (the_building x);
     SleepingRoom.roomType := RoomType.roomType (the_type x);
     SleepingRoom.bedType := option_map BedType.bedType (the_bed x);
     SleepingRoom.squareFootage := RoomDetail.squareFootage (the_room x);
     SleepingRoom.hasPaidBar := RoomDetail.hasPaidBar (the_room x);
     SleepingRoom.room_status := RoomStatus.status (the_status x) |}.

Definition is_available_bedroom (x : described_room) : bool :=
  Statements.is_null (option_map MeetingRoom.roomId (the_space x))
  && (RoomStatus.status (the_status x) =? "available")%string.

Definition by_building_and_number (x y : SleepingRoom.row) : bool :=
  then_by (SleepingRoom.buildingName x ?= SleepingRoom.buildingName y)%string
          (SleepingRoom.roomNumber x <=? SleepingRoom.roomNumber y).

Definition sql_available_sleeping_rooms (h : Hotel.t)
  : result (list SleepingRoom.row) :=
  _ <- table "room" (Hotel.room h) ;;;
  _ <- table "building" (Hotel.building h) ;;;
  _ <- table "room_type" (Hotel.room_type h) ;;;
  _ <- table "bed_type" (Hotel.bed_type h) ;;;
  _ <- table "room_status" (Hotel.room_status h) ;;;
  _ <- table "meeting_space" (Hotel.meeting_space h) ;;;
  Ok (order_by by_building_and_number
        (map sleeping_room (filter is_available_bedroom (described_rooms h)))).

(** Meeting spaces with amenities.
<<
    SELECT ms.roomId, rm.roomNumber, b.buildingName, ms.spaceType, ms.capacity,
           ms.hasProjector, ms.hasWhiteboard, ms.hasPaidBar
    FROM meeting_space AS ms
    JOIN room AS rm ON rm.roomId = ms.roomId
    JOIN building AS b ON b.buildingId = rm.buildingId
    ORDER BY ms.spaceType, rm.roomNumber
>> *)
Definition located_spaces (h : Hotel.t)
  : list (MeetingRoom.row * RoomDetail.row * Building.row) :=
  inner_join
    (inner_join (Hotel.meeting_space h) (Hotel.room h)
       (fun ms rm => RoomDetail.roomId rm =? MeetingRoom.roomId ms))
    (Hotel.building h)
    (fun x b => Building.buildingId b =? RoomDetail.buildingId (snd x)).

Definition meeting_space_row
    (x : MeetingRoom.row * RoomDetail.row * Building.row) : MeetingSpace.row :=
  {| MeetingSpace.roomId := MeetingRoom.roomId (fst (fst x));
     MeetingSpace.roomNumber := RoomDetail.roomNumber (snd (fst x));
     MeetingSpace.buildingName := Building.buildingName (snd x);
     MeetingSpace.spaceType := MeetingRoom.spaceType (fst (fst x));
     MeetingSpace.capacity := MeetingRoom.capacity (fst (fst x));
     MeetingSpace.hasProjector := MeetingRoom.hasProjector (fst (fst x));
     MeetingSpace.hasWhiteboard := MeetingRoom.hasWhiteboard (fst (fst x));
     MeetingSpace.hasPaidBar := MeetingRoom.hasPaidBar (fst (fst x)) |}.

Definition by_space_type_and_number (x y : MeetingSpace.row) : bool :=
  then_by (MeetingSpace.spaceType x ?= MeetingSpace.spaceType y)%string
          (MeetingSpace.roomNumber x <=? MeetingSpace.roomNumber y).

Definition sql_meeting_spaces (h : Hotel.t) : result (list MeetingSpace.row) :=
  _ <- table "meeting_space" (Hotel.meeting_space h) ;;;
  _ <- table "room" (Hotel.room h) ;;;
  _ <- table "building" (Hotel.building h) ;;;
  Ok (order_by by_space_type_and_number
        (map meeting_space_row (located_spaces h))).

(** The two statements of [book].
<<
    SELECT DISTINCT rt.roomType, 'room' AS type_category
    FROM room_type AS rt ORDER BY rt.roomType

    SELECT DISTINCT ms.spaceType AS roomType, 'meeting' AS type_category
    FROM meeting_space AS ms ORDER BY ms.spaceType
>> *)
Definition booking_type (category name : string) : BookingType.row :=
  {| BookingType.roomType := name; BookingType.type_category := category |}.

Definition booking_type_eqb (x y : BookingType.row) : bool :=
  (BookingType.roomType x =? BookingType.roomType y)%string
  && (BookingType.type_category x =? BookingType.type_category y)%string.

Definition by_type_name (x y : BookingType.row) : bool :=
  text_leb (BookingType.roomType x) (BookingType.roomType y).

Definition sql_room_types_for_booking (h : Hotel.t)
  : result (list BookingType.row) :=
  rt <- table "room_type" (Hotel.room_type h) ;;;
  Ok (order_by by_type_name
        (distinct booking_type_eqb
           (map (fun rt => booking_type "room" (RoomType.roomType rt)) rt))).

Definition sql_space_types_for_booking (h : Hotel.t)
  : result (list BookingType.row) :=
  ms <- table "meeting_space" (Hotel.meeting_space h) ;;;
  Ok (order_by by_type_name
        (distinct booking_type_eqb
           (map (fun ms => booking_type "meeting" (MeetingRoom.spaceType ms))
                ms))).

(** The staff list.
<<
    SELECT s.staffId, s.firstName, s.lastName, s.email, s.phone,
           s.role, s.department, s.hireDate, s.isActive
    FROM staff AS s
    ORDER BY s.department, s.lastName, s.firstName
>> *)
Definition by_department_and_name (x y : Staff.row) : bool :=
  then_by (Staff.department x ?= Staff.department y)%string
    (then_by (Staff.lastName x ?= Staff.lastName y)%string
       (text_leb (Staff.firstName x) (Staff.firstName y))).

Definition sql_staff_list (h : Hotel.t) : result (list Staff.row) :=
  s <- table "staff" (Hotel.staff h) ;;;
  Ok (order_by by_department_and_name s).

(** Query 8: staff door-reader swipes by department and reader location.
<<
    SELECT s.department, rd.location, COUNT( * ) AS staff_swipes
    FROM reading_info AS ri
    JOIN staff_card_assignment AS sca ON sca.staffcardId = ri.staffcardId
    JOIN staff AS s ON s.staffId = sca.staffId
    JOIN readers AS rd ON rd.readersId = ri.readerID
    GROUP BY s.department, rd.location
    ORDER BY staff_swipes DESC
>> *)
Definition swipe : Type :=
  (Reading.row * CardAssignment.row * Staff.row * Reader.row)%type.

Definition staff_swipes (h : Hotel.t) : list swipe :=
  let ri_sca :=
    inner_join (Hotel.reading_info h) (Hotel.staff_card_assignment h)
      (fun ri sca => CardAssignment.staffcardId sca =? Reading.staffcardId ri) in
  let ri_sca_s :=
    inner_join ri_sca (Hotel.staff h)
      (fun x s => Staff.staffId s =? CardAssignment.staffId (snd x)) in
  inner_join ri_sca_s (Hotel.readers h)
    (fun x rd => Reader.readersId rd =? Reading.readerID (fst (fst x))).

Definition department_and_location (x : swipe) : string * string :=
  (Staff.department (snd (fst x)), Reader.location (snd x)).

Definition swipes_row (g : string * string * list swipe) : Swipes.row :=
  {| Swipes.department := fst (fst g);
     Swipes.location := snd (fst g);
     Swipes.staff_swipes := count_star (snd g) |}.

Definition most_swipes_first (x y : Swipes.row) : bool :=
  Swipes.staff_swipes y <=? Swipes.staff_swipes x.

Definition sql_staff_swipes (h : Hotel.t) : result (list Swipes.row) :=
  _ <- table "reading_info" (Hotel.reading_info h) ;;;
  _ <- table "staff_card_assignment" (Hotel.staff_card_assignment h) ;;;
  _ <- table "staff" (Hotel.staff h) ;;;
  _ <- table "readers" (Hotel.readers h) ;;;
  Ok (order_by most_swipes_first
        (map swipes_row
           (group_by department_and_location Statements.text_pair_eqb
              (staff_swipes h)))).

(** Query 7: open customer requests by request type.
<<
    SELECT cr.depositStatus, COUNT( * ) AS open_requests
    FROM customer_requests AS cr
    WHERE cr.resolved = 'N'
    GROUP BY cr.depositStatus
    ORDER BY open_requests DESC
>> *)
Definition is_open (cr : CustomerRequest.row) : bool :=
  (CustomerRequest.resolved cr =? "N")%string.

Definition open_requests_row (g : string * list CustomerRequest.row)
  : OpenRequests.row :=
  {| OpenRequests.depositStatus := fst g;
     OpenRequests.open_requests := count_star (snd g) |}.

Definition most_requests_first (x y : OpenRequests.row) : bool :=
  OpenRequests.open_requests y <=? OpenRequests.open_requests x.

Definition sql_open_requests (h : Hotel.t) : result (list OpenRequests.row) :=
  cr <- table "customer_requests" (Hotel.customer_requests h) ;;;
  Ok (order_by most_requests_first
        (map open_requests_row
           (group_by CustomerRequest.depositStatus String.eqb
              (filter is_open cr)))).

(** Query 6: meeting-space events by space type.
<<
    SELECT ms.spaceType, COUNT(DISTINCT er.eventId) AS events_count
    FROM meeting_space AS ms
    LEFT JOIN reservation_room AS rr ON rr.roomId = ms.roomId
    LEFT JOIN event_reservation AS er ON er.reservationId = rr.reservationId
    LEFT JOIN event AS e ON e.eventId = er.eventId
    GROUP BY ms.spaceType
    ORDER BY ms.spaceType
>> *)
Definition space_use : Type :=
  (MeetingRoom.row * option ReservationRoom.row * option EventReservation.row
   * option Event.row)%type.

(** A comparison with a NULL on its right side is not true. *)
Definition matches {A} (p : A -> bool) (x : option A) : bool :=
  match x with
  | Some a => p a
  | None => false
  end.

Definition space_uses (h : Hotel.t) : list space_use :=
  let ms_rr :=
    left_join (Hotel.meeting_space h) (Hotel.reservation_room h)
      (fun ms rr => ReservationRoom.roomId rr =? MeetingRoom.roomId ms) in
  let ms_rr_er :=
    left_join ms_rr (Hotel.event_reservation h)
      (fun x er =>
         matches (fun rr => EventReservation.reservationId er
                            =? ReservationRoom.reservationId rr) (snd x)) in
  left_join ms_rr_er (Hotel.event h)
    (fun x e =>
       matches (fun er => Event.eventId e =? EventReservation.eventId er)
               (snd x)).

Definition used_space_type (x : space_use) : string :=
  MeetingRoom.spaceType (fst (fst (fst x))).

(** The values of [er.eventId] in a group, NULLs left out. *)
Definition event_ids (g : list space_use) : list Z :=
  flat_map (fun x : space_use =>
              match snd (fst x) with
              | Some er => [EventReservation.eventId er]
              | None => []
              end) g.

(** [COUNT(DISTINCT er.eventId)] *)
Definition count_distinct_events (g : list space_use) : Z :=
  count_star (distinct Z.eqb (event_ids g)).

Definition space_events_row (g : string * list space_use) : SpaceEvents.row :=
  {| SpaceEvents.spaceType := fst g;
     SpaceEvents.events_count := count_distinct_events (snd g) |}.

Definition by_space_type (x y : SpaceEvents.row) : bool :=
  text_leb (SpaceEvents.spaceType x) (SpaceEvents.spaceType y).

Definition sql_events_by_space_type (h : Hotel.t)
  : result (list SpaceEvents.row) :=
  _ <- table "meeting_space" (Hotel.meeting_space h) ;;;
  _ <- table "reservation_room" (Hotel.reservation_room h) ;;;
  _ <- table "event_reservation" (Hotel.event_reservation h) ;;;
  _ <- table "event" (Hotel.event h) ;;;
  Ok (order_by by_space_type
        (map space_events_row
           (group_by used_space_type String.eqb (space_uses h)))).

End Reports.

(** A database file that opens, with every statement of [app.py]
    evaluated on its tables. *)
Definition sqlite3_file (h : Hotel.t) : sqlite3 :=
  sqlite3_on (Hotel.core h)
    (fun q =>
       match q return Sql.result (list (row_of q)) with
       | revenue_by_customer => Reports.sql_revenue_by_customer h
       | available_sleeping_rooms => Reports.sql_available_sleeping_rooms h
       | meeting_spaces_with_amenities => Reports.sql_meeting_spaces h
       | room_types_for_booking => Reports.sql_room_types_for_booking h
       | space_types_for_booking => Reports.sql_space_types_for_booking h
       | staff_list => Reports.sql_staff_list h
       | staff_swipes_by_department => Reports.sql_staff_swipes h
       | open_requests_by_type => Reports.sql_open_requests h
       | events_by_space_type => Reports.sql_events_by_space_type h
       | reservations_per_day_limit_10 =>
           Statements.sql_reservations_per_day_limit_10 (Hotel.core h)
       | reservations_per_day =>
           Statements.sql_reservations_per_day (Hotel.core h)
       | room_counts_by_status =>
           Statements.sql_room_counts_by_status (Hotel.core h)
       | stay_length_by_room_type =>
           Statements.sql_stay_length_by_room_type (Hotel.core h)
       | monthly_revenue => Statements.sql_monthly_revenue (Hotel.core h)
       | rooms_never_reserved_rows =>
           Statements.sql_rooms_never_reserved (Hotel.core h)
       end).

(** ** A sample hotel *)

Module Grand.
Import Sql.

Definition detailed (id number b ty bed st : Z) (sqft bar : Z) : RoomDetail.row :=
  {| RoomDetail.roomId := id; RoomDetail.roomNumber := number;
     RoomDetail.buildingId := b; RoomDetail.roomTypeId := ty;
     RoomDetail.bedTypeId := bed; RoomDetail.roomStatusId := st;
     RoomDetail.squareFootage := Int sqft; RoomDetail.hasPaidBar := Int bar |}.

Definition employee (id : Z) (first last dept : string) (active : Z)
  : Staff.row :=
  {| Staff.staffId := id; Staff.firstName := first; Staff.lastName := last;
     Staff.email := EmptyString; Staff.phone := EmptyString; Staff.role := "clerk";
     Staff.department := dept; Staff.hireDate := "2020-01-01";
     Staff.isActive := Int active |}.

Definition hotel : Hotel.t :=
  {| Hotel.building :=
       [ {| Building.buildingId := 1; Building.buildingName := "Main" |};
         {| Building.buildingId := 2; Building.buildingName := "Annex" |} ];
     Hotel.room :=
       [ detailed 1 101 1 1 1 1 300 0; detailed 2 102 1 2 9 1 500 1;
         detailed 3 201 2 1 1 2 300 0; detailed 4 10 2 3 1 1 900 1;
         detailed 5 11 1 3 1 1 800 0 ];
     Hotel.room_status :=
       [ {| RoomStatus.roomStatusId := 1; RoomStatus.status := "available" |};
         {| RoomStatus.roomStatusId := 2; RoomStatus.status := "occupied" |} ];
     Hotel.room_type :=
       [ {| RoomType.roomTypeId := 1; RoomType.roomType := "Single" |};
         {| RoomType.roomTypeId := 2; RoomType.roomType := "Suite" |};
         {| RoomType.roomTypeId := 3; RoomType.roomType := "Hall" |} ];
     Hotel.bed_type :=
       [ {| BedType.bedTypeId := 1; BedType.bedType := "Queen" |} ];
     Hotel.meeting_space :=
       [ {| MeetingRoom.roomId := 4; MeetingRoom.spaceType := "Ballroom";
            MeetingRoom.capacity := Int 200; MeetingRoom.hasProjector := Int 1;
            MeetingRoom.hasWhiteboard := Int 0; MeetingRoom.hasPaidBar := Int 1 |};
         {| MeetingRoom.roomId := 5; MeetingRoom.spaceType := "Boardroom";
            MeetingRoom.capacity := Int 12; MeetingRoom.hasProjector := Int 1;
            MeetingRoom.hasWhiteboard := Int 1; MeetingRoom.hasPaidBar := Int 0 |} ];
     Hotel.reservation :=
       [ Sample.stay 1 2024 1 10 2024 1 12; Sample.stay 2 2024 1 11 2024 1 12 ];
     Hotel.reservation_room :=
       [ {| ReservationRoom.reservationId := 1; ReservationRoom.roomId := 4 |};
         {| ReservationRoom.reservationId := 2; ReservationRoom.roomId := 4 |};
         {| ReservationRoom.reservationId := 1; ReservationRoom.roomId := 1 |} ];
     Hotel.transaction := [];
     Hotel.customer :=
       [ {| Customer.customerId := 1; Customer.lastName := "Ng";
            Customer.firstName := "Ann" |};
         {| Customer.customerId := 2; Customer.lastName := "Roy";
            Customer.firstName := "Bo" |};
         {| Customer.customerId := 3; Customer.lastName := "Poe";
            Customer.firstName := "Cy" |} ];
     Hotel.billing :=
       [ {| Billing.customerId := 1; Billing.totalAmount := Some (Integer 100) |};
         {| Billing.customerId := 2; Billing.totalAmount := Some (Integer 40) |};
         {| Billing.customerId := 1; Billing.totalAmount := Some (Integer 25) |};
         {| Billing.customerId := 2; Billing.totalAmount := Some (Integer 300) |} ];
     Hotel.staff :=
       [ employee 1 "Al" "Zed" "Front" 1; employee 2 "Bea" "Young" "Kitchen" 0;
         employee 3 "Cal" "Abel" "Front" 1 ];
     Hotel.staff_card_assignment :=
       [ {| CardAssignment.staffcardId := 10; CardAssignment.staffId := 1 |};
         {| CardAssignment.staffcardId := 11; CardAssignment.staffId := 2 |};
         {| CardAssignment.staffcardId := 12; CardAssignment.staffId := 3 |} ];
     Hotel.readers :=
       [ {| Reader.readersId := 1; Reader.location := "Lobby" |};
         {| Reader.readersId := 2; Reader.location := "Pantry" |} ];
     Hotel.reading_info :=
       [ {| Reading.staffcardId := 10; Reading.readerID := 1 |};
         {| Reading.staffcardId := 10; Reading.readerID := 1 |};
         {| Reading.staffcardId := 11; Reading.readerID := 2 |};
         {| Reading.staffcardId := 12; Reading.readerID := 1 |};
         {| Reading.staffcardId := 11; Reading.readerID := 1 |} ];
     Hotel.customer_requests :=
       [ {| CustomerRequest.depositStatus := "paid"; CustomerRequest.resolved := "N" |};
         {| CustomerRequest.depositStatus := "paid"; CustomerRequest.resolved := "N" |};
         {| CustomerRequest.depositStatus := "none"; CustomerRequest.resolved := "N" |};
         {| CustomerRequest.depositStatus := "paid"; CustomerRequest.resolved := "Y" |};
         {| CustomerRequest.depositStatus := "none"; CustomerRequest.resolved := "n" |} ];
     Hotel.event :=
       [ {| Event.eventId := 7 |}; {| Event.eventId := 8 |} ];
     Hotel.event_reservation :=
       [ {| EventReservation.reservationId := 1; EventReservation.eventId := 7 |};
         {| EventReservation.reservationId := 2; EventReservation.eventId := 7 |};
         {| EventReservation.reservationId := 2; EventReservation.eventId := 8 |} ] |}.

End Grand.

(** ** Vocabulary of the further properties *)

Module Further.
Import Python.

(** The events of one [query_db] call on an open connection. *)
Definition query_events (lib : sqlite3) (q : query) : list event :=
  match execute_fetchall lib q with
  | Sql.Ok _ => [Opened; Closed]
  | Sql.Error m => [Opened; Printed ("Query error: " ++ m); Closed]
  end.

(** Replays a list of events from a state with ([true]) or without an
    open connection: [None] when a connection is opened while another is
    open, or closed while none is; otherwise the state at the end. *)
Fixpoint replay (open : bool) (t : list event) : option bool :=
  match t with
  | [] => Some open
  | Opened :: t' => if open then None else replay true t'
  | Closed :: t' => if open then replay false t' else None
  | Printed _ :: t' => replay open t'
  end.

(** Event [e] is held in a meeting space of type [ty]: an
    [event_reservation] row books it on a reservation that a
    [reservation_room] row places in a room of that space type. *)
Definition held_in (h : Hotel.t) (ty : string) (e : Z) : Prop :=
  exists ms rr er,
    In ms (Hotel.meeting_space h) /\ MeetingRoom.spaceType ms = ty
    /\ In rr (Hotel.reservation_room h)
    /\ ReservationRoom.roomId rr = MeetingRoom.roomId ms
    /\ In er (Hotel.event_reservation h)
    /\ EventReservation.reservationId er = ReservationRoom.reservationId rr
    /\ EventReservation.eventId er = e.

(** The bills of a customer. *)
Definition bills_of (h : Hotel.t) (c : Customer.row) : list Billing.row :=
  filter (fun b => Billing.customerId b =? Customer.customerId c)
         (Hotel.billing h).

(** The absolute values of the INTEGER amounts of a list of bills,
    added up: as long as this stays within 64 bits, no [SUM] over bills
    of the list overflows, in whatever order the bills arrive. *)
Definition integer_weight (bs : list Billing.row) : Z :=
  Spec.total_of (fun b => Z.abs (Spec.integer_in (Billing.totalAmount b))) bs.

(** Row [row] of the billing report stands for customer [c]: it carries
    the customer's id and name and the number of the customer's bills,
    and, when the amounts of these bills are all INTEGER, their sum. *)
Definition is_card_of (h : Hotel.t) (c : Customer.row)
    (row : CustomerBill.row) : Prop :=
  CustomerBill.customerId row = Customer.customerId c
  /\ CustomerBill.last_name row = Customer.lastName c
  /\ CustomerBill.first_name row = Customer.firstName c
  /\ CustomerBill.bills row = len (bills_of h c)
  /\ ((forall b, In b (bills_of h c) ->
                 Spec.is_integer (Billing.totalAmount b)) ->
      CustomerBill.total_billed row
      = Spec.whole (Spec.total_of
                      (fun b => Spec.integer_in (Billing.totalAmount b))
                      (bills_of h c))).

(** The values of a [SUM] column that a view adds up with [sum]. *)
Definition summed_fields (lib : sqlite3) (r : route)
  : list (option number) :=
  match r with
  | GET_employee_customer_cards =>
      map CustomerBill.total_billed (Spec.returned lib revenue_by_customer)
  | GET_employee_revenue =>
      map MonthRevenue.total_revenue (Spec.returned lib monthly_revenue)
  | _ => []
  end.

End Further.

(* ================================================================== *)
(** * Facts about the relational operators *)

Module SqlFacts.
Import Sql.

Section Ordering.
Context {A : Type} (leb : A -> A -> bool).

Lemma insert_row_perm (x : A) (l : list A) :
  Permutation (insert_row leb x l) (x :: l).
Proof.
  induction l as [|y r IH]; simpl.
  - apply Permutation_refl.
  - destruct (leb x y).
    + apply Permutation_refl.
    + apply perm_trans with (y :: x :: r).
      * now apply perm_skip.
      * apply perm_swap.
Qed.

Lemma order_by_perm (l : list A) : Permutation (order_by leb l) l.
Proof.
  induction l as [|x r IH]; simpl.
  - apply perm_nil.
  - apply perm_trans with (x :: order_by leb r).
    + apply insert_row_perm.
    + now apply perm_skip.
Qed.

Lemma order_by_In (x : A) (l : list A) : In x (order_by leb l) <-> In x l.
Proof.
  split; apply Permutation_in.
  - apply order_by_perm.
  - apply Permutation_sym, order_by_perm.
Qed.

Lemma order_by_length (l : list A) :
  List.length (order_by leb l) = List.length l.
Proof. apply Permutation_length, order_by_perm. Qed.

Lemma order_by_nil (l : list A) : order_by leb l = [] -> l = [].
Proof.
  intros H. apply (f_equal (@List.length A)) in H.
  rewrite order_by_length in H. now destruct l.
Qed.

Hypothesis leb_total : forall a b, leb a b = true \/ leb b a = true.
Hypothesis leb_trans :
  forall a b c, leb a b = true -> leb b c = true -> leb a c = true.

Lemma insert_row_sorted (x : A) (l : list A) :
  StronglySorted (sorted_by leb) l ->
  StronglySorted (sorted_by leb) (insert_row leb x l).
Proof.
  induction 1 as [|y r Hr IH Hy]; simpl.
  - constructor; constructor.
  - destruct (leb x y) eqn:E.
    + constructor.
      * now constructor.
      * constructor; [exact E|].
        rewrite Forall_forall in *. intros z Hz.
        apply leb_trans with y; [exact E | now apply Hy].
    + constructor; [exact IH|].
      rewrite Forall_forall in *. intros z Hz.
      apply (Permutation_in _ (insert_row_perm x r)) in Hz.
      destruct Hz as [<-|Hz].
      * destruct (leb_total x y) as [H|H]; [congruence | exact H].
      * now apply Hy.
Qed.

Lemma order_by_sorted (l : list A) :
  StronglySorted (sorted_by leb) (order_by leb l).
Proof.
  induction l as [|x r IH]; simpl.
  - constructor.
  - now apply insert_row_sorted.
Qed.

End Ordering.


Lemma filter_all {A} (l : list A) : filter (fun _ => true) l = l.
Proof. induction l; simpl; congruence. Qed.

Lemma filter_perm {A} (p : A -> bool) (l l' : list A) :
  Permutation l l' -> Permutation (filter p l) (filter p l').
Proof.
  induction 1 as [|x l l' _ IH|x y l|l l' l'' _ IH1 _ IH2]; simpl.
  - apply perm_nil.
  - destruct (p x); [now apply perm_skip | exact IH].
  - destruct (p x), (p y);
      try apply perm_swap; apply Permutation_refl.
  - now apply perm_trans with (filter p l').
Qed.

Lemma filter_map_swap {A B} (f : A -> B) (p : B -> bool) (l : list A) :
  filter p (map f l) = map f (filter (fun x => p (f x)) l).
Proof.
  induction l as [|x r IH]; simpl; [reflexivity|].
  destruct (p (f x)); simpl; now rewrite IH.
Qed.

Section Grouping.
Context {A K : Type} (key : A -> K) (eqb : K -> K -> bool).
Hypothesis eqb_eq : forall a b, eqb a b = true <-> a = b.

Lemma distinct_In (k : K) (l : list K) : In k (distinct eqb l) <-> In k l.
Proof.
  induction l as [|x r IH]; simpl; [tauto|].
  rewrite filter_In, IH.
  destruct (eqb k x) eqn:E; simpl.
  - apply eqb_eq in E. subst. intuition discriminate.
  - assert (x <> k) by (intros ->; rewrite (proj2 (eqb_eq k k) eq_refl) in E;
                        discriminate).
    intuition.
Qed.

Lemma distinct_NoDup (l : list K) : NoDup (distinct eqb l).
Proof.
  induction l as [|x r IH]; simpl; constructor.
  - rewrite filter_In. intros [_ H].
    rewrite (proj2 (eqb_eq x x) eq_refl) in H. discriminate.
  - now apply NoDup_filter.
Qed.

Lemma group_by_keys (l : list A) :
  map fst (group_by key eqb l) = distinct eqb (map key l).
Proof.
  unfold group_by. rewrite map_map. simpl. apply map_id.
Qed.

Lemma group_by_In (k : K) (g : list A) (l : list A) :
  In (k, g) (group_by key eqb l) <->
  In k (map key l) /\ g = filter (fun x => eqb (key x) k) l.
Proof.
  unfold group_by. rewrite in_map_iff. split.
  - intros (k' & E & Hk). inversion E; subst.
    rewrite distinct_In in Hk. now split.
  - intros [Hk ->]. exists k. split; [reflexivity|].
    now apply distinct_In.
Qed.

Lemma group_by_keys_NoDup (l : list A) :
  NoDup (map fst (group_by key eqb l)).
Proof. rewrite group_by_keys. apply distinct_NoDup. Qed.

Lemma key_group_nonempty (k : K) (l : list A) :
  In k (map key l) <-> filter (fun x => eqb (key x) k) l <> [].
Proof.
  rewrite in_map_iff. split.
  - intros (x & E & Hx) H.
    assert (Hin : In x (filter (fun x => eqb (key x) k) l)).
    { apply filter_In. split; [exact Hx|]. now apply eqb_eq. }
    rewrite H in Hin. contradiction.
  - intros H.
    destruct (filter (fun x => eqb (key x) k) l) as [|x r] eqn:E;
      [congruence|].
    assert (Hin : In x (filter (fun x => eqb (key x) k) l))
      by (rewrite E; now left).
    apply filter_In in Hin. destruct Hin as [Hx Hk].
    exists x. split; [now apply eqb_eq | exact Hx].
Qed.

(** The groups partition the rows: the sizes of the groups whose key
    satisfies [p] add up to the number of rows whose key does. *)
Lemma filter_length_disjoint (p q : A -> bool) (l : list A) :
  (forall x, In x l -> p x = true -> q x = true -> False) ->
  (List.length (filter p l) + List.length (filter q l))%nat
  = List.length (filter (fun x => p x || q x) l).
Proof.
  induction l as [|x r IH]; intros D; simpl; [reflexivity|].
  assert (IH' := IH (fun y Hy => D y (or_intror Hy))).
  specialize (D x (or_introl eq_refl)).
  destruct (p x), (q x); simpl; solve [lia | exfalso; now apply D].
Qed.

Lemma groups_sizes_of_keys (ks : list K) (l : list A) :
  NoDup ks ->
  fold_right (fun k acc => count_star (filter (fun x => eqb (key x) k) l) + acc)
             0 ks
  = count_star (filter (fun x => existsb (eqb (key x)) ks) l).
Proof.
  unfold count_star.
  induction 1 as [|k ks Hk Hnd IH]; simpl.
  - induction l as [|x r IHr]; simpl; [reflexivity | exact IHr].
  - rewrite IH, <- Nat2Z.inj_add. f_equal.
    apply filter_length_disjoint.
    intros x _ H1 H2. apply eqb_eq in H1. subst k.
    apply Hk. apply existsb_exists in H2.
    destruct H2 as (k' & Hk' & E). apply eqb_eq in E. now subst.
Qed.

Lemma groups_partition (p : K -> bool) (l : list A) :
  fold_right (fun g acc => count_star (snd g) + acc) 0
             (filter (fun g => p (fst g)) (group_by key eqb l))
  = count_star (filter (fun x => p (key x)) l).
Proof.
  unfold group_by.
  assert (E : forall ks,
             filter (fun g : K * list A => p (fst g))
               (map (fun k => (k, filter (fun x => eqb (key x) k) l)) ks)
             = map (fun k => (k, filter (fun x => eqb (key x) k) l))
                   (filter p ks)).
  { induction ks as [|k ks IH]; simpl; [reflexivity|].
    destruct (p k); simpl; now rewrite IH. }
  rewrite E. clear E.
  assert (F : forall ks,
             fold_right (fun (g : K * list A) acc => count_star (snd g) + acc) 0
               (map (fun k => (k, filter (fun x => eqb (key x) k) l)) ks)
             = fold_right
                 (fun k acc =>
                    count_star (filter (fun x => eqb (key x) k) l) + acc)
                 0 ks).
  { induction ks as [|k ks IH]; simpl; [reflexivity | now rewrite IH]. }
  rewrite F. clear F.
  rewrite groups_sizes_of_keys
    by (apply NoDup_filter, distinct_NoDup).
  f_equal. apply filter_ext_in. intros x Hx.
  destruct (p (key x)) eqn:P.
  - apply existsb_exists. exists (key x). split.
    + apply filter_In. split; [|exact P].
      apply distinct_In. now apply in_map.
    + now apply eqb_eq.
  - destruct (existsb _ _) eqn:X; [|reflexivity].
    apply existsb_exists in X. destruct X as (k & Hk & Ek).
    apply eqb_eq in Ek. subst k.
    apply filter_In in Hk. destruct Hk as [_ Hk]. congruence.
Qed.

Lemma groups_cover (l : list A) :
  fold_right (fun g acc => count_star (snd g) + acc) 0 (group_by key eqb l)
  = count_star l.
Proof.
  pose proof (groups_partition (fun _ => true) l) as P.
  now rewrite !filter_all in P.
Qed.

End Grouping.

(** Membership in joins. *)
Lemma inner_join_In {A B} (l : list A) (r : list B) (on : A -> B -> bool)
    (a : A) (b : B) :
  In (a, b) (inner_join l r on) <-> In a l /\ In b r /\ on a b = true.
Proof.
  unfold inner_join. rewrite in_flat_map. split.
  - intros (a' & Ha & H). apply in_map_iff in H.
    destruct H as (b' & E & Hb). inversion E; subst.
    apply filter_In in Hb. tauto.
  - intros (Ha & Hb & Hon). exists a. split; [exact Ha|].
    apply in_map, filter_In. tauto.
Qed.

Lemma left_join_In_unmatched {A B} (l : list A) (r : list B)
    (on : A -> B -> bool) (a : A) :
  In (a, None) (left_join l r on) <->
  In a l /\ forall b, In b r -> on a b = false.
Proof.
  unfold left_join. rewrite in_flat_map. split.
  - intros (a' & Ha & H).
    destruct (filter (on a') r) as [|b0 m] eqn:E.
    + destruct H as [H|[]]. inversion H; subst. split; [exact Ha|].
      intros b Hb. destruct (on a b) eqn:O; [|reflexivity].
      assert (Hin : In b (filter (on a) r)) by (apply filter_In; tauto).
      rewrite E in Hin. contradiction.
    + apply in_map_iff in H. destruct H as (b' & H & _). discriminate.
  - intros [Ha Hno]. exists a. split; [exact Ha|].
    destruct (filter (on a) r) as [|b0 m] eqn:E; [now left|].
    assert (Hin : In b0 (filter (on a) r)) by (rewrite E; now left).
    apply filter_In in Hin. destruct Hin as [Hb Hon].
    rewrite (Hno b0 Hb) in Hon. discriminate.
Qed.

Lemma left_join_In_matched {A B} (l : list A) (r : list B)
    (on : A -> B -> bool) (a : A) (b : B) :
  In (a, Some b) (left_join l r on) <->
  In a l /\ In b r /\ on a b = true.
Proof.
  unfold left_join. rewrite in_flat_map. split.
  - intros (a' & Ha & H).
    destruct (filter (on a') r) as [|b0 m] eqn:E.
    + destruct H as [H|[]]. discriminate.
    + apply in_map_iff in H. destruct H as (b' & H & Hb).
      inversion H; subst. rewrite <- E in Hb.
      apply filter_In in Hb. tauto.
  - intros (Ha & Hb & Hon). exists a. split; [exact Ha|].
    assert (Hin : In b (filter (on a) r)) by (apply filter_In; tauto).
    destruct (filter (on a) r) as [|b0 m]; [contradiction|].
    now apply (in_map (fun b => (a, Some b))).
Qed.

End SqlFacts.

(* ================================================================== *)
(** * Facts about the Python layer *)

Module PythonFacts.
Import Python App Spec.

Lemma sum_shift (xs : list Z) (a : Z) :
  fold_left Z.add xs a = a + fold_right Z.add 0 xs.
Proof.
  revert a. induction xs as [|x r IH]; intros a; simpl.
  - lia.
  - rewrite IH. lia.
Qed.

Lemma sum_map {A} (f : A -> Z) (rows : list A) :
  sum (map f rows) = total_of f rows.
Proof.
  unfold sum, total_of. rewrite sum_shift. simpl.
  induction rows as [|x r IH]; simpl; [reflexivity | now rewrite IH].
Qed.

(** An exception raised while summing ends the sum. *)
Lemma sum_raised (e : exception) (t : list event) (vs : list (option number)) :
  fold_left (fun acc v => bind acc (fun a => plus a v)) vs (Raise e, t)
  = (Raise e, t).
Proof. induction vs as [|v vs IH]; [reflexivity | exact IH]. Qed.

(** Summing prints nothing and touches no connection. *)
Lemma plus_silent (a : number) (v : option number) : snd (plus a v) = [].
Proof.
  destruct v as [[y|y]|]; destruct a as [x|x]; simpl; try reflexivity;
    unfold float_of_int; destruct (PrimFloat.is_infinity _); reflexivity.
Qed.

Lemma sum_silent (vs : list (option number)) : snd (sum_numbers vs) = [].
Proof.
  unfold sum_numbers.
  assert (G : forall acc : Py number,
             snd acc = [] ->
             snd (fold_left (fun acc v => bind acc (fun a => plus a v)) vs acc)
             = []).
  { induction vs as [|v vs IH]; intros acc Hacc; [exact Hacc|].
    simpl. apply IH. destruct acc as [[a|e] t]; simpl in *; [|exact Hacc].
    subst t. pose proof (plus_silent a v) as P.
    destruct (plus a v) as [o t']. simpl in *. now subst. }
  now apply G.
Qed.

(** The sum of integer fields is exact. *)
Lemma sum_of_integers (zs : list Z) :
  sum_numbers (map whole zs) = ret (Integer (fold_right Z.add 0 zs)).
Proof.
  unfold sum_numbers, ret.
  assert (G : forall a,
             fold_left (fun acc v => bind acc (fun a => plus a v))
                       (map whole zs) (Return (Integer a), [])
             = (Return (Integer (a + fold_right Z.add 0 zs)), [])).
  { induction zs as [|z zs IH]; intros a; simpl.
    - now rewrite Z.add_0_r.
    - rewrite IH. now rewrite Z.add_assoc. }
  apply (G 0).
Qed.

(** The sum of REAL fields is their rounded sum: the integer 0 from
    which [sum] starts is converted on the first addition. *)
Lemma sum_of_doubles (f : float) (fs : list float) :
  sum_numbers (map fraction (f :: fs)) = ret (Float (rounded_sum (f :: fs))).
Proof.
  unfold sum_numbers, ret, rounded_sum.
  change (fold_left (fun acc v => bind acc (fun a => plus a v))
                    (map fraction (f :: fs)) (Return (Integer 0), []))
    with (fold_left (fun acc v => bind acc (fun a => plus a v))
                    (map fraction fs)
                    (Return (Float (PrimFloat.add PrimFloat.zero f)), [])).
  cbn [fold_left].
  generalize (PrimFloat.add PrimFloat.zero f). clear f.
  induction fs as [|x fs IH]; intros a; [reflexivity|].
  simpl. apply IH.
Qed.

(** A field that is [None] ends the sum with an exception. *)
Lemma sum_with_null (vs : list (option number)) :
  In None vs -> exists e, sum_numbers vs = (Raise e, []).
Proof.
  intros H. pose proof (sum_silent vs) as S.
  unfold sum_numbers in *.
  assert (G : forall acc : Py number,
             exists e,
               fst (fold_left (fun acc v => bind acc (fun a => plus a v))
                              vs acc) = Raise e).
  { clear S. induction vs as [|v vs IH]; intros acc; [contradiction|].
    simpl. destruct H as [->|H]; [|now apply IH].
    destruct acc as [[a|e] t]; simpl; rewrite sum_raised; now eexists. }
  destruct (G (Return (Integer 0), [])) as [e He].
  exists e. destruct (fold_left _ vs _) as [o t]. simpl in *. now subst.
Qed.

Lemma guarded_sum_silent {A} (rows : list A) (vs : list (option number)) :
  snd (if truthy rows then sum_numbers vs else ret (Integer 0)) = [].
Proof. destruct (truthy rows); [apply sum_silent | reflexivity]. Qed.

(** [sum(...) if rows else 0] is the sum in both cases. *)
Lemma guarded_sum {A} (f : A -> Z) (rows : list A) :
  (if truthy rows then sum (map f rows) else 0) = total_of f rows.
Proof. destruct rows; [reflexivity | apply sum_map]. Qed.

(** [sum(... for r in rows if p(r)) if rows else 0] *)
Lemma guarded_filtered_sum {A} (f : A -> Z) (p : A -> bool) (rows : list A) :
  (if truthy rows then sum (map f (filter p rows)) else 0)
  = total_of f (filter p rows).
Proof. destruct rows; [reflexivity | apply sum_map]. Qed.

Lemma guarded_filtered_len {A} (p : A -> bool) (rows : list A) :
  (if truthy rows then len (filter p rows) else 0) = len (filter p rows).
Proof. now destruct rows. Qed.

Lemma guarded_len {A} (rows : list A) :
  (if truthy rows then len rows else 0) = len rows.
Proof. now destruct rows. Qed.

Lemma total_of_perm {A} (f : A -> Z) (l l' : list A) :
  Permutation l l' -> total_of f l = total_of f l'.
Proof.
  unfold total_of. induction 1; simpl; lia.
Qed.

Lemma total_of_filter_le {A} (f : A -> Z) (p : A -> bool) (l : list A) :
  (forall x, In x l -> 0 <= f x) ->
  total_of f (filter p l) <= total_of f l.
Proof.
  unfold total_of. induction l as [|x r IH]; intros H; simpl; [lia|].
  assert (0 <= f x) by (apply H; now left).
  assert (IH' := IH (fun y Hy => H y (or_intror Hy))).
  destruct (p x); simpl; lia.
Qed.

(** What [query_db] does once the connection is open. *)
Lemma query_db_connected (lib : sqlite3) (q : query) :
  connect_error lib = None ->
  query_db lib q false
  = (Return (returned lib q),
     Opened :: match execute_fetchall lib q with
               | Sql.Ok _ => [Closed]
               | Sql.Error m => [Printed ("Query error: " ++ m); Closed]
               end).
Proof.
  intros H. unfold query_db, get_db_connection, sqlite3_connect,
    cursor_fetchall, returned.
  rewrite H. simpl.
  destruct (execute_fetchall lib q); reflexivity.
Qed.

(** A statement that fails is caught inside [query_db]: the caller
    gets the empty result, the message is printed and the connection is
    closed. *)
Lemma query_db_swallows_statement_errors (lib : sqlite3) (q : query)
    (one : bool) (m : string) :
  connect_error lib = None ->
  execute_fetchall lib q = Sql.Error m ->
  query_db lib q one
  = (Return (nothing one), [Opened; Printed ("Query error: " ++ m); Closed]).
Proof.
  intros H E. unfold query_db, get_db_connection, sqlite3_connect,
    cursor_fetchall.
  rewrite H. simpl. rewrite E. reflexivity.
Qed.

Lemma query_db_returns_rows (lib : sqlite3) (q : query) (one : bool)
    (rows : list (row_of q)) :
  connect_error lib = None ->
  execute_fetchall lib q = Sql.Ok rows ->
  query_db lib q one = (Return (selected one rows), [Opened; Closed]).
Proof.
  intros H E. unfold query_db, get_db_connection, sqlite3_connect,
    cursor_fetchall.
  rewrite H. simpl. rewrite E. reflexivity.
Qed.

(** [sqlite3.connect] never yields [None]: the guard [if conn is None]
    of [query_db] is never taken. *)
Lemma get_db_connection_not_None (lib : sqlite3) :
  fst (get_db_connection lib) <> Return None.
Proof.
  unfold get_db_connection, sqlite3_connect.
  destruct (connect_error lib); simpl; discriminate.
Qed.

End PythonFacts.

(* ================================================================== *)
(** * Properties of the routes *)

Import Python App Spec.

Ltac run_queries H :=
  repeat (rewrite (PythonFacts.query_db_connected _ _ H); cbn [bind]).

(** ** Error handling *)

(** With an open connection, a view whose statements return nothing
    renders its own template without data. *)
Lemma no_rows_blank_page (lib : sqlite3) (r : route) :
  connect_error lib = None ->
  (forall q, In q (statements_of r) -> returned lib q = []) ->
  exists c,
    served lib r = Some {| template := page_of r; variables := c |}
    /\ blank c.
Proof.
  intros H E.
  destruct r;
    unfold served, dispatch_request, view,
      home, signup, account, profile, guest_rooms, meeting_spaces_page,
      my_reservations, book, confirmation, management_login, staff_roster,
      card_management, employee_login, employee_rooms,
      employee_customer_cards, employee_room_list,
      employee_reservations_page, employee_revenue, rooms_never_reserved;
    run_queries H; cbn [render_template ret fst];
    rewrite ?E by (simpl; tauto);
    eexists; (split; [reflexivity | simpl; repeat split; reflexivity]).
Qed.

(** When every statement of a view fails, the view still renders its own
    template, with empty collections and zero statistics. *)
Lemma failing_statements_render_blank_pages (lib : sqlite3) (r : route) :
  connect_error lib = None ->
  (forall q, In q (statements_of r) ->
             exists m, execute_fetchall lib q = Sql.Error m) ->
  exists c,
    served lib r = Some {| template := page_of r; variables := c |}
    /\ blank c.
Proof.
  intros H E. apply no_rows_blank_page; [exact H|].
  intros q Hq. destruct (E q Hq) as [m Hm].
  unfold returned. now rewrite Hm.
Qed.

(** C2 (the code departs from the claim).  When the database file cannot
    be opened, [sqlite3.connect] raises before [query_db] enters its
    [try] block; the exception leaves the view and every route that
    queries the database answers with the generic [error.html] instead of
    its own template.  Only the routes that never touch the database
    still render their page. *)
Theorem C2_unreachable_database_renders_error_page :
  forall (m : string) (answers : forall q, Sql.result (list (row_of q)))
         (r : route),
    served (unreachable m answers) r
    = Some (if uses_database r
            then error_page (sqlite3_Error m)
            else {| template := page_of r; variables := no_context |}).
Proof.
  intros m answers r. destruct r; reflexivity.
Qed.

(** C3 (the code departs from the claim).  An error raised while opening
    the connection is not caught by [query_db]: it is raised to the
    caller, nothing is printed and no result is returned. *)
Theorem C3_connect_error_is_raised_by_query_db :
  forall (m : string) (answers : forall q, Sql.result (list (row_of q)))
         (q : query) (one : bool),
    query_db (unreachable m answers) q one = (Raise (sqlite3_Error m), []).
Proof.
  intros m answers q one. reflexivity.
Qed.

(** ** Totals *)

Module TotalFacts.
Import Python App Spec.

Lemma all_integers {A} (f : A -> option number) (rows : list A) :
  (forall row, In row rows -> is_integer (f row)) ->
  map f rows = map whole (map (fun row => integer_in (f row)) rows).
Proof.
  intros H. rewrite map_map. apply map_ext_in. intros row Hrow.
  now apply H.
Qed.

Lemma all_reals {A} (f : A -> option number) (rows : list A) :
  (forall row, In row rows -> is_real (f row)) ->
  map f rows = map fraction (map (fun row => double_in (f row)) rows).
Proof.
  intros H. rewrite map_map. apply map_ext_in. intros row Hrow.
  now apply H.
Qed.

Lemma total_of_map {A} (f : A -> Z) (rows : list A) :
  fold_right Z.add 0 (map f rows) = total_of f rows.
Proof.
  unfold total_of. induction rows as [|x r IH]; simpl; [reflexivity|].
  now rewrite IH.
Qed.

(** [sum(...) if rows else 0] on integer fields. *)
Lemma guarded_sum_of_integers {A} (f : A -> option number) (rows : list A) :
  (forall row, In row rows -> is_integer (f row)) ->
  (if truthy rows then sum_numbers (map f rows) else ret (Integer 0))
  = ret (Integer (total_of (fun row => integer_in (f row)) rows)).
Proof.
  intros H. destruct rows as [|x r] eqn:E; [reflexivity|].
  cbn [truthy]. rewrite (all_integers f _ H), PythonFacts.sum_of_integers.
  now rewrite total_of_map.
Qed.

(** [sum(...) if rows else 0] on REAL fields, when there are rows. *)
Lemma guarded_sum_of_doubles {A} (f : A -> option number) (rows : list A) :
  rows <> [] ->
  (forall row, In row rows -> is_real (f row)) ->
  (if truthy rows then sum_numbers (map f rows) else ret (Integer 0))
  = ret (Float (rounded_sum (map (fun row => double_in (f row)) rows))).
Proof.
  intros Hne H. destruct rows as [|x r] eqn:E; [congruence|].
  cbn [truthy]. rewrite (all_reals f _ H).
  apply PythonFacts.sum_of_doubles.
Qed.

End TotalFacts.



(** C7.  With an open connection, a view whose statements all return
    zero rows renders its own template, and every collection and every
    statistic on it is empty or zero: counts, sums and [avg_per_day]
    alike.  No exception leaves the view. *)
Theorem C7_no_rows_give_zero_totals :
  forall (lib : sqlite3) (r : route),
    connect_error lib = None ->
    (forall q, In q (statements_of r) -> execute_fetchall lib q = Sql.Ok []) ->
    exists c,
      fst (view lib r) = Return {| template := page_of r; variables := c |}
      /\ served lib r = Some {| template := page_of r; variables := c |}
      /\ blank c.
Proof.
  intros lib r H E.
  destruct (no_rows_blank_page lib r H) as (c & Hc & Hb).
  - intros q Hq. unfold returned. now rewrite (E q Hq).
  - exists c. split; [|now split].
    unfold served, dispatch_request in Hc.
    destruct (view lib r) as [[resp|e] t]; simpl in *.
    + now inversion Hc.
    + unfold handle_error in Hc. simpl in Hc. inversion Hc; subst.
      contradiction.
Qed.

Lemma C7_witness :
  exists c,
    fst (view (connected (fun _ => Sql.Ok [])) GET_employee_reservations)
    = Return {| template := page_of GET_employee_reservations; variables := c |}
    /\ served (connected (fun _ => Sql.Ok [])) GET_employee_reservations
       = Some {| template := page_of GET_employee_reservations; variables := c |}
    /\ blank c.
Proof.
  apply (C7_no_rows_give_zero_totals
           (connected (fun _ => Sql.Ok [])) GET_employee_reservations).
  - reflexivity.
  - intros q _. reflexivity.
Defined.

(** The page of [/employee/reservations] on no rows, spelled out:
    [avg_per_day] is 0, there is no division. *)
Example reservations_page_on_no_rows :
  served (connected (fun _ => Sql.Ok [])) GET_employee_reservations
  = Some {| template := "employee_reservations.html";
            variables := employee_reservations_context [] 0 0 (Q2Qc 0) |}.
Proof. reflexivity. Qed.

(** ** Monthly revenue *)

(** C1 (the code departs from the claim).  The statement names its table
    [transaction] without quotes.  SQLite reads a keyword there and
    rejects the text, [query_db] swallows the error, and the revenue
    report is empty whatever the table holds: no month gets a row. *)
Theorem C1_revenue_report_is_empty_for_every_database :
  forall (db : database) (others : forall q, Sql.result (list (row_of q))),
    dispatch_request (sqlite3_on db others) GET_employee_revenue
    = (Return {| template := "employee_revenue.html";
                 variables := employee_revenue_context [] (Integer 0) 0 0 |},
       [Opened;
        Printed ("Query error: near " ++ Sql.double_quote ++ "transaction"
                   ++ Sql.double_quote ++ ": syntax error");
        Closed]).
Proof.
  intros db others. reflexivity.
Qed.

(** Even on the rows of the table, the statement would not separate
    months: [%%Y] and [%%m] format to the constant texts [%Y] and [%m],
    so all transactions with a timestamp that SQLite reads fall into one
    group labelled year 0, month 0. *)
Example two_months_collapse_into_one_group :
  Statements.monthly_revenue_of (transaction Sample.two_months)
  = Sql.Ok [ {| MonthRevenue.yr := Some 0;
                MonthRevenue.mo := Some 0;
                MonthRevenue.total_revenue := Some (Integer 150);
                MonthRevenue.num_tx := 2 |} ].
Proof. vm_compute. reflexivity. Qed.

Lemma month_key_is_constant (t : Transaction.row) :
  Sql.readable (Transaction.transactionDate t) = true ->
  Statements.month_key t = (Some "%Y"%string, Some "%m"%string).
Proof.
  intros R. unfold Statements.month_key, Sql.strftime. now rewrite R.
Qed.

(** ** Room counts by status *)

Module RoomListFacts.
Import Sql Statements.

Lemma text_pair_eqb_eq (a b : string * string) :
  text_pair_eqb a b = true <-> a = b.
Proof.
  unfold text_pair_eqb. destruct a as [a1 a2], b as [b1 b2]. simpl.
  rewrite andb_true_iff, !String.eqb_eq. split.
  - now intros [-> ->].
  - intros E. inversion E. now split.
Qed.

Lemma returned_room_counts (db : database)
    (others : forall q, Sql.result (list (row_of q))) :
  returned (sqlite3_on db others) room_counts_by_status
  = order_by room_count_leb
      (map room_count_of
         (group_by place_and_status text_pair_eqb (housed_rooms db))).
Proof. reflexivity. Qed.

Lemma total_of_groups {K A} (mk : K * list A -> RoomCount.row)
    (G : list (K * list A)) :
  (forall g, RoomCount.num_rooms (mk g) = count_star (snd g)) ->
  total_of RoomCount.num_rooms (map mk G)
  = fold_right (fun g acc => count_star (snd g) + acc) 0 G.
Proof.
  intros E. unfold total_of.
  induction G as [|g G IH]; simpl; [reflexivity | now rewrite IH, E].
Qed.

(** Both statistics of the room list, read off the joined rows: the
    total counts all of them, the subtotal those whose status is
    [available]. *)
Lemma room_list_statistics (db : database)
    (others : forall q, Sql.result (list (row_of q))) :
  exists rooms,
    served (sqlite3_on db others) GET_employee_room_list
    = Some {| template := "employee_room_list.html";
              variables :=
                employee_room_list_context rooms
                  (count_star (housed_rooms db))
                  (count_star (filter is_available (housed_rooms db))) |}.
Proof.
  assert (H : connect_error (sqlite3_on db others) = None) by reflexivity.
  unfold served, dispatch_request, view, employee_room_list.
  run_queries H. cbn [render_template ret fst].
  rewrite PythonFacts.guarded_sum, PythonFacts.guarded_filtered_sum.
  rewrite (returned_room_counts db others).
  eexists. do 3 f_equal.
  - rewrite (PythonFacts.total_of_perm _ _ _ (SqlFacts.order_by_perm _ _)).
    rewrite <- (SqlFacts.groups_cover place_and_status _ text_pair_eqb_eq
                  (housed_rooms db)).
    now apply total_of_groups.
  - rewrite (PythonFacts.total_of_perm _ _ _
               (SqlFacts.filter_perm _ _ _ (SqlFacts.order_by_perm _ _))).
    rewrite SqlFacts.filter_map_swap.
    rewrite total_of_groups by reflexivity.
    exact (SqlFacts.groups_partition place_and_status _ text_pair_eqb_eq
             (fun k => (snd k =? "available")%string) (housed_rooms db)).
Qed.

(** The size of a join, counted from its right operand. *)
Lemma inner_join_length {A B} (l : list A) (r : list B) (on : A -> B -> bool) :
  List.length (inner_join l r on)
  = fold_right (fun a acc => (List.length (filter (on a) r) + acc)%nat) 0%nat l.
Proof.
  unfold inner_join. induction l as [|a l IH]; simpl; [reflexivity|].
  now rewrite length_app, length_map, IH.
Qed.

Lemma inner_join_length_cons {A B} (l : list A) (b : B) (r : list B)
    (on : A -> B -> bool) :
  List.length (inner_join l (b :: r) on)
  = (List.length (filter (fun a => on a b) l)
     + List.length (inner_join l r on))%nat.
Proof.
  rewrite !inner_join_length.
  induction l as [|a l IH]; [reflexivity|].
  change (fold_right (fun a acc => (List.length (filter (on a) (b :: r)) + acc)%nat)
            0%nat (a :: l))
    with (List.length (filter (on a) (b :: r))
          + fold_right (fun a acc => (List.length (filter (on a) (b :: r)) + acc)%nat)
              0%nat l)%nat.
  rewrite IH. simpl. destruct (on a b); simpl; lia.
Qed.

Lemma inner_join_length_nil {A B} (l : list A) (on : A -> B -> bool) :
  List.length (inner_join l [] on) = 0%nat.
Proof.
  rewrite inner_join_length. induction l; simpl; auto.
Qed.

Lemma inner_join_single {A B} (l : list A) (b : B) (on : A -> B -> bool) :
  (forall a, In a l -> on a b = true) ->
  inner_join l [b] on = map (fun a => (a, b)) l.
Proof.
  induction l as [|a l IH]; intros H; [reflexivity|].
  change (inner_join (a :: l) [b] on)
    with (map (pair a) (filter (on a) [b]) ++ inner_join l [b] on)%list.
  rewrite IH by (intros y Hy; apply H; now right).
  simpl. now rewrite (H a (or_introl eq_refl)).
Qed.

Lemma filter_keeps_all {A} (p : A -> bool) (l : list A) :
  (forall x, In x l -> p x = true) -> filter p l = l.
Proof.
  induction l as [|x l IH]; intros H; simpl; [reflexivity|].
  rewrite (H x (or_introl eq_refl)), IH; [reflexivity|].
  intros y Hy. apply H. now right.
Qed.

(** A key value that occurs in a duplicate-free key column selects one
    row. *)
Lemma unique_match {A} (f : A -> Z) (v : Z) (l : list A) :
  NoDup (map f l) -> In v (map f l) ->
  List.length (filter (fun x => v =? f x) l) = 1%nat.
Proof.
  induction l as [|x l IH]; simpl; intros Hnd Hin; [contradiction|].
  inversion Hnd as [|? ? Hx Hl]; subst.
  destruct (Z.eqb_spec v (f x)) as [->|Hne]; simpl.
  - f_equal.
    destruct (filter (fun y => f x =? f y) l) as [|y ys] eqn:E;
      [reflexivity|].
    exfalso. apply Hx.
    assert (Hy : In y (filter (fun y => f x =? f y) l))
      by (rewrite E; now left).
    apply filter_In in Hy. destruct Hy as [Hy Ey].
    apply Z.eqb_eq in Ey. rewrite Ey. now apply in_map.
  - destruct Hin as [E|Hin]; [congruence | now apply IH].
Qed.

(** A condition on the right-hand rows of a join may be applied before
    the join. *)
Lemma filter_inner_join_right {A B} (p : B -> bool) (l : list A) (r : list B)
    (on : A -> B -> bool) :
  filter (fun x => p (snd x)) (inner_join l r on)
  = inner_join l (filter p r) on.
Proof.
  unfold inner_join. induction l as [|a l IH]; [reflexivity|].
  cbn [flat_map]. rewrite filter_app, IH. f_equal.
  clear IH. induction r as [|b r IHr]; [reflexivity|].
  cbn [filter]. destruct (on a b) eqn:O, (p b) eqn:P; cbn [map filter snd];
    rewrite ?O, ?P; cbn [map]; now rewrite IHr.
Qed.

End RoomListFacts.

(** C10.  The subtotal of a page never exceeds its total.  On
    [/employee/room_list], for the rows that Query 2 returns on any
    database, [available_rooms <= total_rooms]; on [/staff_roster], for
    any rows, [active_staff <= total_staff]. *)
Theorem C10_subtotals_do_not_exceed_totals :
  (forall (db : database) (others : forall q, Sql.result (list (row_of q))),
      exists rooms total_rooms available_rooms,
        served (sqlite3_on db others) GET_employee_room_list
        = Some {| template := "employee_room_list.html";
                  variables := employee_room_list_context
                                 rooms total_rooms available_rooms |}
        /\ available_rooms <= total_rooms)
  /\ (forall answers : (forall q, Sql.result (list (row_of q))),
        exists staff total_staff active_staff,
          served (connected answers) GET_staff_roster
          = Some {| template := "staff_roster.html";
                    variables := staff_roster_context
                                   staff total_staff active_staff |}
          /\ active_staff <= total_staff).
Proof.
  split.
  - intros db others.
    destruct (RoomListFacts.room_list_statistics db others) as [rooms E].
    exists rooms. do 2 eexists. split; [exact E|].
    unfold Sql.count_star. apply Nat2Z.inj_le, filter_length_le.
  - intros answers.
    assert (H : connect_error (connected answers) = None) by reflexivity.
    unfold served, dispatch_request, view, staff_roster.
    run_queries H. cbn [render_template ret fst].
    rewrite PythonFacts.guarded_len, PythonFacts.guarded_filtered_len.
    do 3 eexists. split; [reflexivity|].
    unfold len. apply Nat2Z.inj_le, filter_length_le.
Qed.

(** The same bound for any rows with non-negative counts, whatever
    produced them. *)
Lemma room_list_subtotal_le_total (rooms : list RoomCount.row) :
  (forall r, In r rooms -> 0 <= RoomCount.num_rooms r) ->
  total_of RoomCount.num_rooms
    (filter (fun r => (RoomCount.room_status r =? "available")%string) rooms)
  <= total_of RoomCount.num_rooms rooms.
Proof. apply PythonFacts.total_of_filter_le. Qed.

(** C8.  A [room_status] table in which one row has the status
    [available], and a [room] table in which exactly two rooms reference
    that row, each in a building (its [buildingId] is the key of one
    [building] row), give [available_rooms = 2] on [/employee/room_list],
    whatever other statuses and rooms the tables hold. *)
Theorem C8_two_available_rooms :
  forall (db : database) (others : forall q, Sql.result (list (row_of q)))
         (rs : RoomStatus.row) (r1 r2 : Room.row),
    filter (fun s => (RoomStatus.status s =? "available")%string)
           (room_status db) = [rs] ->
    filter (fun rm => Room.roomStatusId rm =? RoomStatus.roomStatusId rs)
           (room db) = [r1; r2] ->
    NoDup (map Building.buildingId (building db)) ->
    In (Room.buildingId r1) (map Building.buildingId (building db)) ->
    In (Room.buildingId r2) (map Building.buildingId (building db)) ->
    exists rooms total_rooms,
      served (sqlite3_on db others) GET_employee_room_list
      = Some {| template := "employee_room_list.html";
                variables := employee_room_list_context rooms total_rooms 2 |}.
Proof.
  intros db others rs r1 r2 Hrs Hrm Hnd Hb1 Hb2.
  destruct (RoomListFacts.room_list_statistics db others) as [rooms E].
  exists rooms. eexists. rewrite E. do 3 f_equal.
  unfold housed_rooms, is_available.
  rewrite (RoomListFacts.filter_inner_join_right
             (fun s => (RoomStatus.status s =? "available")%string)).
  rewrite Hrs.
  unfold Sql.count_star. rewrite RoomListFacts.inner_join_length_cons,
    RoomListFacts.inner_join_length_nil, Nat.add_0_r.
  rewrite (filter_ext
             (fun a : Building.row * Room.row =>
                RoomStatus.roomStatusId rs =? Room.roomStatusId (snd a))
             (fun a => Room.roomStatusId (snd a)
                       =? RoomStatus.roomStatusId rs))
    by (intros a; apply Z.eqb_sym).
  rewrite (RoomListFacts.filter_inner_join_right
             (fun rm => Room.roomStatusId rm =? RoomStatus.roomStatusId rs)).
  rewrite Hrm.
  rewrite !RoomListFacts.inner_join_length_cons,
    RoomListFacts.inner_join_length_nil.
  rewrite (RoomListFacts.unique_match Building.buildingId _ _ Hnd Hb1).
  rewrite (RoomListFacts.unique_match Building.buildingId _ _ Hnd Hb2).
  reflexivity.
Qed.

Lemma C8_witness :
  exists rooms total_rooms,
    served (sqlite3_on Sample.mixed_hotel Sample.no_answer)
      GET_employee_room_list
    = Some {| template := "employee_room_list.html";
              variables := employee_room_list_context rooms total_rooms 2 |}.
Proof.
  apply (C8_two_available_rooms Sample.mixed_hotel Sample.no_answer
           Sample.available Sample.room_101 Sample.room_102);
    try reflexivity.
  - repeat constructor. simpl. tauto.
  - simpl. tauto.
  - simpl. tauto.
Defined.

(** On that sample the page counts three rooms, two of them
    available. *)
Example room_list_of_the_mixed_hotel :
  exists rooms,
    served (sqlite3_on Sample.mixed_hotel Sample.no_answer)
      GET_employee_room_list
    = Some {| template := "employee_room_list.html";
              variables := employee_room_list_context rooms 3 2 |}.
Proof. eexists. reflexivity. Qed.

(** ** Rooms never reserved *)

Module NeverReservedFacts.
Import Sql Statements.

(** The rows of Query 9: one for every pair of a building and a room of
    that building which no [reservation_room] row references. *)
Lemma returned_unused_rooms_In (db : database)
    (others : forall q, Sql.result (list (row_of q))) (row : UnusedRoom.row) :
  In row (returned (sqlite3_on db others) rooms_never_reserved_rows) <->
  exists b rm,
    In b (building db) /\ In rm (room db)
    /\ housed_in rm b /\ never_reserved db rm
    /\ row = listing b rm.
Proof.
  change (returned (sqlite3_on db others) rooms_never_reserved_rows)
    with (order_by unused_room_leb
            (map (fun x : Building.row * Room.row * option ReservationRoom.row =>
                    listing (fst (fst x)) (snd (fst x)))
               (filter (fun x => is_null
                                   (option_map ReservationRoom.roomId (snd x)))
                  (left_join
                     (inner_join (building db) (room db)
                        (fun b rm => Room.buildingId rm =? Building.buildingId b))
                     (reservation_room db)
                     (fun x rr => ReservationRoom.roomId rr
                                  =? Room.roomId (snd x)))))).
  rewrite SqlFacts.order_by_In, in_map_iff. split.
  - intros ([[b rm] [rr|]] & <- & Hx); apply filter_In in Hx;
      destruct Hx as [Hx Hnull]; simpl in Hnull; [discriminate|].
    apply SqlFacts.left_join_In_unmatched in Hx. destruct Hx as [Hj Hno].
    apply SqlFacts.inner_join_In in Hj. destruct Hj as (Hb & Hrm & Hon).
    exists b, rm. repeat split; try assumption.
    + now apply Z.eqb_eq.
    + intros rr Hrr E. specialize (Hno rr Hrr). simpl in Hno.
      apply Z.eqb_neq in Hno. contradiction.
  - intros (b & rm & Hb & Hrm & Hh & Hn & ->).
    exists ((b, rm), None). split; [reflexivity|].
    apply filter_In. split; [|reflexivity].
    apply SqlFacts.left_join_In_unmatched. split.
    + apply SqlFacts.inner_join_In. repeat split; try assumption.
      now apply Z.eqb_eq.
    + intros rr Hrr. simpl. apply Z.eqb_neq. now apply Hn.
Qed.

Lemma never_reserved_page (db : database)
    (others : forall q, Sql.result (list (row_of q))) :
  served (sqlite3_on db others) GET_employee_rooms_never_reserved
  = Some {| template := "rooms_never_reserved.html";
            variables :=
              rooms_never_reserved_context
                (returned (sqlite3_on db others) rooms_never_reserved_rows)
                (len (returned (sqlite3_on db others)
                               rooms_never_reserved_rows)) |}.
Proof.
  assert (H : connect_error (sqlite3_on db others) = None) by reflexivity.
  unfold served, dispatch_request, view, rooms_never_reserved.
  run_queries H. cbn [render_template ret fst].
  now rewrite PythonFacts.guarded_len.
Qed.

End NeverReservedFacts.

(** C5, as the code has it.  The report lists exactly the rooms that are
    in a building of the [building] table and that no [reservation_room]
    row references: a row is in the result if and only if it stands for
    such a room.  The inner join with [building] is part of the
    statement, so a room whose [buildingId] matches no building is left
    out even when it was never reserved. *)
Theorem C5_never_reserved_rooms_of_buildings :
  forall (db : database) (others : forall q, Sql.result (list (row_of q))),
    exists rooms,
      served (sqlite3_on db others) GET_employee_rooms_never_reserved
      = Some {| template := "rooms_never_reserved.html";
                variables := rooms_never_reserved_context rooms (len rooms) |}
      /\ forall row,
          In row rooms <->
          exists b rm,
            In b (building db) /\ In rm (room db)
            /\ housed_in rm b /\ never_reserved db rm
            /\ row = listing b rm.
Proof.
  intros db others.
  exists (returned (sqlite3_on db others) rooms_never_reserved_rows).
  split.
  - apply NeverReservedFacts.never_reserved_page.
  - intros row. apply NeverReservedFacts.returned_unused_rooms_In.
Qed.

(** C5, as the claim words it, fails: a never-reserved room whose
    [buildingId] matches no building is not in the report. *)
Lemma C5_room_without_building_is_not_listed :
  exists rooms total_unused,
    served (sqlite3_on Sample.unhoused Sample.no_answer)
      GET_employee_rooms_never_reserved
    = Some {| template := "rooms_never_reserved.html";
              variables := rooms_never_reserved_context rooms total_unused |}
    /\ ~ is_set_difference Sample.unhoused rooms.
Proof.
  exists [], 0. split; [reflexivity|].
  intros C. destruct (C Sample.orphan_room) as [_ C'].
  - now left.
  - destruct C' as (row & [] & _). intros rr [].
Qed.

(** Where every room is in exactly one building, the report is the set
    difference of the claim. *)
Lemma never_reserved_rooms_with_referential_integrity
    (db : database) (others : forall q, Sql.result (list (row_of q))) :
  (forall rm, In rm (room db) ->
              exists b, In b (building db) /\ housed_in rm b) ->
  NoDup (map Room.roomNumber (room db)) ->
  forall rooms total_unused,
    served (sqlite3_on db others) GET_employee_rooms_never_reserved
    = Some {| template := "rooms_never_reserved.html";
              variables := rooms_never_reserved_context rooms total_unused |} ->
    is_set_difference db rooms.
Proof.
  intros Hfk Hnd rooms n E.
  rewrite NeverReservedFacts.never_reserved_page in E.
  inversion E; subst rooms n. clear E.
  pose proof (NeverReservedFacts.returned_unused_rooms_In db others) as Hiff.
  intros rm Hrm. split.
  - intros (row & Hrow & Enum). apply Hiff in Hrow.
    destruct Hrow as (b & rm' & _ & Hrm' & _ & Hn & ->). simpl in Enum.
    assert (rm' = rm); [|now subst].
    clear - Hnd Hrm Hrm' Enum.
    induction (room db) as [|x l IH]; [contradiction|].
    simpl in Hnd. inversion Hnd as [|? ? Hx Hl]; subst.
    destruct Hrm as [->|Hrm], Hrm' as [->|Hrm']; auto.
    + exfalso. apply Hx. rewrite <- Enum. now apply in_map.
    + exfalso. apply Hx. rewrite Enum. now apply in_map.
  - intros Hn. destruct (Hfk rm Hrm) as (b & Hb & Hh).
    exists (listing b rm). split; [|reflexivity].
    apply Hiff. exists b, rm. repeat split; assumption.
Qed.

(** ** The calendar *)

Module CalendarFacts.
Import Sql Spec.

(** The days before year [n]: 365 for each year, one more for each leap
    year, which are the years divisible by 4 but not by 100, or by
    400. *)
Lemma days_before_year_closed (n : nat) :
  days_before_year n
  = 365 * Z.of_nat n + (Z.of_nat n + 3) / 4 - (Z.of_nat n + 99) / 100
    + (Z.of_nat n + 399) / 400.
Proof.
  induction n as [|k IH]; [reflexivity|].
  cbn [days_before_year]. rewrite IH, Nat2Z.inj_succ.
  set (y := Z.of_nat k). assert (0 <= y) by apply Nat2Z.is_nonneg.
  unfold leap_year.
  destruct (Z.eqb_spec (y mod 4) 0), (Z.eqb_spec (y mod 100) 0),
    (Z.eqb_spec (y mod 400) 0); cbn [andb orb negb];
    Z.div_mod_to_equations; lia.
Qed.

Lemma month_cases (m : Z) :
  1 <= m <= 12 ->
  m = 1 \/ m = 2 \/ m = 3 \/ m = 4 \/ m = 5 \/ m = 6 \/ m = 7 \/ m = 8
  \/ m = 9 \/ m = 10 \/ m = 11 \/ m = 12.
Proof. lia. Qed.

(** The days of a year before each of its months. *)
Lemma days_before_month_closed (y m : Z) :
  1 <= m <= 12 ->
  days_before_month y m
  = nth (Z.to_nat (m - 1))
        [0; 31; 59; 90; 120; 151; 181; 212; 243; 273; 304; 334] 0
    + (if leap_year y && (2 <? m) then 1 else 0).
Proof.
  intros Hm. unfold days_before_month, days_in_month.
  generalize (leap_year y). intros leap.
  destruct (month_cases m Hm) as
    [->|[->|[->|[->|[->|[->|[->|[->|[->|[->|[->| ->]]]]]]]]]]];
    destruct leap; reflexivity.
Qed.

(** A year is a leap year exactly when the count of leap years steps. *)
Lemma leap_year_step (y : Z) :
  0 <= y ->
  y / 4 - y / 100 + y / 400
  = (y + 3) / 4 - (y + 99) / 100 + (y + 399) / 400
    + (if leap_year y then 0 else -1).
Proof.
  intros Hy. unfold leap_year.
  destruct (Z.eqb_spec (y mod 4) 0), (Z.eqb_spec (y mod 100) 0),
    (Z.eqb_spec (y mod 400) 0); cbn [andb orb negb];
    Z.div_mod_to_equations; lia.
Qed.

(** The year part of [computeJD], for a year that is not negative. *)
Lemma year_part (Y : Z) :
  0 <= Y ->
  (36525 * (Y + 4716)) ÷ 100 + (2 - Y ÷ 100 + (Y ÷ 100) ÷ 4)
  = 365 * Y + Y / 4 - Y / 100 + Y / 400 + 1722521.
Proof.
  intros HY.
  rewrite !Z.quot_div_nonneg by (try apply Z.div_pos; lia).
  Z.div_mod_to_equations. lia.
Qed.

Lemma previous_year (y : Z) :
  1 <= y ->
  (y - 1) / 4 - (y - 1) / 100 + (y - 1) / 400
  = (y + 3) / 4 - (y + 99) / 100 + (y + 399) / 400 - 1.
Proof. intros Hy. Z.div_mod_to_equations. lia. Qed.

Lemma computed_day_counts (y m : Z) :
  0 <= y -> 1 <= m <= 12 ->
  computed_day y m
  = days_before_year (Z.to_nat y) + days_before_month y m + 1722583.
Proof.
  intros Hy Hm. unfold computed_day.
  rewrite days_before_year_closed, (days_before_month_closed _ _ Hm).
  rewrite Z2Nat.id by lia.
  destruct (Z.leb_spec m 2) as [Hle|Hgt].
  - replace (2 <? m) with false by (symmetry; apply Z.ltb_ge; lia).
    rewrite andb_false_r.
    destruct (Z.eq_dec y 0) as [->|Hy0].
    + assert (Em : m = 1 \/ m = 2) by lia.
      destruct Em as [-> | ->]; reflexivity.
    + rewrite <- Z.add_assoc, (Z.add_comm (_ ÷ 10000)), Z.add_assoc.
      rewrite (year_part (y - 1)) by lia.
      pose proof (previous_year y ltac:(lia)) as P.
      assert (Em : m = 1 \/ m = 2) by lia.
      destruct Em as [-> | ->].
      * change ((306001 * (1 + 12 + 1)) ÷ 10000) with 428.
        change (nth (Z.to_nat (1 - 1)) _ 0) with 0. lia.
      * change ((306001 * (2 + 12 + 1)) ÷ 10000) with 459.
        change (nth (Z.to_nat (2 - 1)) _ 0) with 31. lia.
  - replace (2 <? m) with true by (symmetry; apply Z.ltb_lt; lia).
    rewrite andb_true_r.
    rewrite <- Z.add_assoc, (Z.add_comm (_ ÷ 10000)), Z.add_assoc.
    rewrite (year_part y) by lia.
    pose proof (leap_year_step y Hy) as L.
    assert (Em : m = 3 \/ m = 4 \/ m = 5 \/ m = 6 \/ m = 7 \/ m = 8
                 \/ m = 9 \/ m = 10 \/ m = 11 \/ m = 12) by lia.
    set (X2 := fun m => (306001 * (m + 1)) ÷ 10000).
    change ((306001 * (m + 1)) ÷ 10000) with (X2 m).
    assert (T : X2 m + 1722521
                = nth (Z.to_nat (m - 1))
                      [0; 31; 59; 90; 120; 151; 181; 212; 243; 273; 304; 334] 0
                  + 1722584).
    { destruct Em as [->|[->|[->|[->|[->|[->|[->|[->|[->| ->]]]]]]]]];
        reflexivity. }
    clearbody X2. destruct (leap_year y); lia.
Qed.

(** SQLite's [computeJD] counts the milliseconds of the calendar: for
    a year from 0 to 9999 and a month from 1 to 12, whatever the other
    fields hold. *)
Lemma julianday_ms_instant (t : datetime) :
  0 <= year t -> 1 <= month t <= 12 ->
  julianday_ms t = julian_epoch + instant t.
Proof.
  intros Hy Hm.
  pose proof (computed_day_counts (year t) (month t) Hy Hm) as C.
  unfold computed_day in C.
  unfold julianday_ms, instant, julian_epoch.
  destruct (month t <=? 2); lia.
Qed.

Lemma days_before_year_bounds (y : Z) :
  0 <= y <= 9999 ->
  0 <= days_before_year (Z.to_nat y)
  /\ days_before_year (Z.to_nat y) + 365 + (if leap_year y then 1 else 0)
     <= 3652425.
Proof.
  intros Hy. rewrite days_before_year_closed, Z2Nat.id by lia.
  pose proof (leap_year_step y ltac:(lia)) as L.
  destruct (leap_year y); Z.div_mod_to_equations; lia.
Qed.

Lemma days_before_month_bounds (y m : Z) :
  1 <= m <= 12 ->
  0 <= days_before_month y m
  /\ days_before_month y m + days_in_month y m
     <= 365 + (if leap_year y then 1 else 0).
Proof.
  intros Hm. rewrite (days_before_month_closed _ _ Hm).
  unfold days_in_month. generalize (leap_year y). intros leap.
  destruct (month_cases m Hm) as
    [->|[->|[->|[->|[->|[->|[->|[->|[->|[->|[->| ->]]]]]]]]]]];
    destruct leap; split; apply Z.leb_le; reflexivity.
Qed.

(** The timestamps that SQLite reads are those that have a Julian day
    number. *)
Lemma readable_legible (t : datetime) : readable t = legible t.
Proof.
  apply Bool.eq_true_iff_eq. unfold readable, legible, within.
  rewrite !andb_true_iff, !Z.leb_le. split.
  - intros ((((((Hy & Hm) & Hd) & Hh) & Hmi) & Hs) & Hj).
    rewrite julianday_ms_instant in Hj by lia.
    unfold julian_epoch, last_instant in *. repeat split; lia.
  - intros ((((((((((((Hy & Hy') & Hm) & Hm') & Hd) & Hd') & Hh) & Hh')
                & Hmi) & Hmi') & Hs) & Hs') & Hi).
    rewrite julianday_ms_instant by lia.
    destruct (days_before_year_bounds (year t) ltac:(lia)) as [B1 _].
    destruct (days_before_month_bounds (year t) (month t) ltac:(lia))
      as [B2 _].
    unfold julian_epoch, last_instant, instant in *. repeat split; lia.
Qed.

(** A well-formed timestamp has a Julian day number. *)
Lemma well_formed_legible (t : datetime) :
  well_formed t -> legible t = true.
Proof.
  intros (Hy & Hm & Hd & Hh & Hmi & Hs).
  destruct (days_before_year_bounds (year t) Hy) as [_ B1].
  destruct (days_before_month_bounds (year t) (month t) Hm) as [_ B2].
  assert (D31 : days_in_month (year t) (month t) <= 31).
  { unfold days_in_month.
    destruct (month t =? 2); [destruct (leap_year (year t)); lia|].
    destruct ((month t =? 4) || (month t =? 6) || (month t =? 9)
              || (month t =? 11)); lia. }
  unfold legible. rewrite !andb_true_iff, !Z.leb_le.
  unfold last_instant, instant. repeat split; lia.
Qed.

Lemma well_formed_readable (t : datetime) :
  well_formed t -> readable t = true.
Proof. intros H. rewrite readable_legible. now apply well_formed_legible. Qed.

(** [julianday] is the Julian day number in doubles. *)
Lemma julianday_julian_day (t : datetime) :
  julianday t = if legible t then Some (julian_day t) else None.
Proof.
  unfold julianday, julian_day. rewrite readable_legible.
  destruct (legible t) eqn:L; [|reflexivity].
  unfold legible in L. rewrite !andb_true_iff, !Z.leb_le in L.
  rewrite julianday_ms_instant by lia. reflexivity.
Qed.

End CalendarFacts.
(** ** Calendar days as text *)

Module TextFacts.
Import Sql.

Lemma text_leb_total (a b : string) :
  text_leb a b = true \/ text_leb b a = true.
Proof. apply String.leb_total. Qed.

Lemma text_leb_trans (a b c : string) :
  text_leb a b = true -> text_leb b c = true -> text_leb a c = true.
Proof.
  unfold text_leb, String.leb. intros Hab Hbc.
  destruct (a ?= b)%string eqn:Eab; try discriminate.
  - apply String.compare_eq_iff in Eab. now subst.
  - destruct (b ?= c)%string eqn:Ebc; try discriminate.
    + apply String.compare_eq_iff in Ebc. subst. now rewrite Eab.
    + apply String_as_OT.cmp_lt in Eab, Ebc.
      assert (L := String_as_OT.lt_trans _ _ _ Eab Ebc).
      apply String_as_OT.cmp_lt in L. unfold String_as_OT.cmp in L.
      now rewrite L.
Qed.


Lemma text_lt_of_leb (a b : string) :
  text_leb a b = true -> a <> b -> (a ?= b)%string = Lt.
Proof.
  unfold text_leb, String.leb. intros L N.
  destruct (a ?= b)%string eqn:E; try discriminate; [|reflexivity].
  apply String.compare_eq_iff in E. contradiction.
Qed.

(** The order of nullable texts, NULL first. *)
Lemma nullable_leb_total (a b : option string) :
  option_leb text_leb a b = true \/ option_leb text_leb b a = true.
Proof.
  destruct a, b; simpl; auto. apply text_leb_total.
Qed.

Lemma nullable_leb_trans (a b c : option string) :
  option_leb text_leb a b = true -> option_leb text_leb b c = true ->
  option_leb text_leb a c = true.
Proof.
  destruct a, b, c; simpl; try discriminate; auto. apply text_leb_trans.
Qed.

Lemma nullable_eqb_eq (a b : option string) :
  option_eqb String.eqb a b = true <-> a = b.
Proof.
  destruct a, b; simpl; try (split; discriminate); [|tauto].
  rewrite String.eqb_eq. split; [now intros -> | now intros [= ->]].
Qed.

Lemma digit_compare (x y : Z) :
  Ascii.compare (digit x) (digit y) = (x mod 10 ?= y mod 10).
Proof.
  unfold Ascii.compare, digit.
  assert (Hx : 0 <= x mod 10 < 10) by (apply Z.mod_pos_bound; lia).
  assert (Hy : 0 <= y mod 10 < 10) by (apply Z.mod_pos_bound; lia).
  rewrite !N_ascii_embedding by lia.
  rewrite <- N2Z.inj_compare, !N2Z.inj_add, !Z2N.id by lia.
  apply Z.add_compare_mono_l.
Qed.

Lemma two_digits (n : Z) :
  0 <= n <= 99 -> n = 10 * ((n / 10) mod 10) + n mod 10.
Proof. intros H. Z.div_mod_to_equations. lia. Qed.

Lemma four_digits (n : Z) :
  0 <= n <= 9999 ->
  n = 1000 * ((n / 1000) mod 10) + 100 * ((n / 100) mod 10)
      + 10 * ((n / 10) mod 10) + n mod 10.
Proof. intros H. Z.div_mod_to_equations. lia. Qed.

Lemma days_in_month_le (y m : Z) : Spec.days_in_month y m <= 31.
Proof.
  unfold Spec.days_in_month.
  destruct (m =? 2); [destruct (Spec.leap_year y); lia|].
  destruct ((m =? 4) || (m =? 6) || (m =? 9) || (m =? 11)); lia.
Qed.

(** The digits that the statement writes are the decimal digits. *)
Lemma numeral_digit (n : Z) :
  Spec.numeral (n mod 10) = String (digit n) EmptyString.
Proof.
  unfold digit.
  pose proof (Z.mod_pos_bound n 10 eq_refl) as B.
  assert (C : n mod 10 = 0 \/ n mod 10 = 1 \/ n mod 10 = 2 \/ n mod 10 = 3
              \/ n mod 10 = 4 \/ n mod 10 = 5 \/ n mod 10 = 6
              \/ n mod 10 = 7 \/ n mod 10 = 8 \/ n mod 10 = 9) by lia.
  destruct C as [->|[->|[->|[->|[->|[->|[->|[->|[->| ->]]]]]]]]];
    reflexivity.
Qed.

Lemma decimal_pad2 (n : Z) : Spec.decimal 2 n = pad2 n.
Proof.
  unfold pad2. cbn [Spec.decimal]. now rewrite !numeral_digit.
Qed.

Lemma decimal_pad4 (n : Z) : Spec.decimal 4 n = pad4 n.
Proof.
  unfold pad4, pad2. cbn [Spec.decimal]. rewrite !numeral_digit.
  rewrite !Z.div_div by lia. reflexivity.
Qed.

(** [date] writes the calendar day of a well-formed timestamp. *)
Lemma date_of_well_formed (t : datetime) :
  Spec.well_formed t -> date t = Some (Spec.iso_date (Spec.day_of t)).
Proof.
  intros W. unfold date, Spec.iso_date, Spec.day_of.
  rewrite (CalendarFacts.well_formed_readable t W).
  cbn [fst snd]. now rewrite decimal_pad4, !decimal_pad2.
Qed.

(** On well-formed timestamps the byte order of the written days is the
    order of the calendar. *)
Lemma date_compare (a b : datetime) :
  Spec.well_formed a -> Spec.well_formed b ->
  (Spec.iso_date (Spec.day_of a) ?= Spec.iso_date (Spec.day_of b))%string
  = Spec.calendar_compare a b.
Proof.
  intros (Ya & Ma & Da & _) (Yb & Mb & Db & _).
  pose proof (days_in_month_le (year a) (month a)).
  pose proof (days_in_month_le (year b) (month b)).
  unfold Spec.iso_date, Spec.day_of. cbn [fst snd].
  rewrite !decimal_pad4, !decimal_pad2.
  unfold pad4, pad2, Spec.calendar_compare.
  cbn [append String.compare].
  rewrite !digit_compare.
  change (Ascii.compare "-" "-") with Eq. cbv iota.
  pose proof (four_digits (year a) Ya) as EYa.
  pose proof (four_digits (year b) Yb) as EYb.
  pose proof (two_digits (month a)) as EMa.
  pose proof (two_digits (month b)) as EMb.
  pose proof (two_digits (day_of_month a)) as EDa.
  pose proof (two_digits (day_of_month b)) as EDb.
  specialize (EMa ltac:(lia)). specialize (EMb ltac:(lia)).
  specialize (EDa ltac:(lia)). specialize (EDb ltac:(lia)).
  repeat match goal with
         | |- context [?x mod 10] =>
             let d := fresh "d" in
             pose proof (Z.mod_pos_bound x 10 eq_refl);
             set (d := x mod 10) in *; clearbody d
         end.
  repeat match goal with
         | |- context [?x ?= ?y] => destruct (Z.compare_spec x y)
         end; try reflexivity; exfalso; lia.
Qed.


End TextFacts.

(** ** Reservations per day *)

Module ReservationFacts.
Import Sql Statements Spec.


Lemma day_counts_days (rs : list Reservation.row) :
  NoDup (map DayCount.day (day_counts rs)).
Proof.
  unfold day_counts. rewrite map_map. cbn [DayCount.day].
  apply (SqlFacts.group_by_keys_NoDup _ _ TextFacts.nullable_eqb_eq).
Qed.

Lemma latest_first_total (a b : DayCount.row) :
  latest_first a b = true \/ latest_first b a = true.
Proof. apply TextFacts.nullable_leb_total. Qed.

Lemma latest_first_trans (a b c : DayCount.row) :
  latest_first a b = true -> latest_first b c = true ->
  latest_first a c = true.
Proof.
  unfold latest_first. intros H1 H2.
  now apply TextFacts.nullable_leb_trans with (DayCount.day b).
Qed.



End ReservationFacts.



(** With twelve check-in days the window drops the two earliest. *)
Example window_on_twelve_days :
  let lib := sqlite3_on Sample.twelve_days Sample.no_answer in
  served lib GET_my_reservations
  = Some {| template := "my_reservations.html";
            variables :=
              my_reservations_context
                (map (fun d => {| DayCount.day := Some d;
                                  DayCount.num_reservations :=
                                    if (d =? "2024-03-05")%string then 2 else 1 |})
                     [ "2024-03-12"; "2024-03-11"; "2024-03-10"; "2024-03-09";
                       "2024-03-08"; "2024-03-07"; "2024-03-06"; "2024-03-05";
                       "2024-03-04"; "2024-03-03" ]%string)
                10 |}
  /\ map DayCount.day (returned lib reservations_per_day)
     = map Some
         [ "2024-03-01"; "2024-03-02"; "2024-03-03"; "2024-03-04";
           "2024-03-05"; "2024-03-06"; "2024-03-07"; "2024-03-08";
           "2024-03-09"; "2024-03-10"; "2024-03-11"; "2024-03-12" ]%string.
Proof. split; vm_compute; reflexivity. Qed.

(** ** Average stay length *)

Module StayFacts.
Import Sql Statements Spec.

Lemma when_flat_map {A B} (c : bool) (f : A -> list B) (l : list A) :
  when c (flat_map f l) = flat_map (fun x => when c (f x)) l.
Proof.
  destruct c; simpl.
  - apply flat_map_ext. reflexivity.
  - induction l; simpl; auto.
Qed.

Lemma flat_map_filter {A B} (f : A -> list B) (p : A -> bool) (l : list A) :
  flat_map f (filter p l) = flat_map (fun x => when (p x) (f x)) l.
Proof.
  induction l as [|x l IH]; simpl; [reflexivity|].
  destruct (p x); simpl; now rewrite IH.
Qed.

Lemma map_filter_when {A B} (g : A -> B) (p : A -> bool) (l : list A) :
  map g (filter p l) = flat_map (fun x => when (p x) [g x]) l.
Proof.
  induction l as [|x l IH]; simpl; [reflexivity|].
  destruct (p x); simpl; now rewrite IH.
Qed.

Lemma flat_map_inner_join {A B C} (G : A * B -> list C)
    (l : list A) (r : list B) (on : A -> B -> bool) :
  flat_map G (inner_join l r on)
  = flat_map (fun a => flat_map (fun b => when (on a b) (G (a, b))) r) l.
Proof.
  unfold inner_join. induction l as [|a l IH]; simpl; [reflexivity|].
  rewrite flat_map_app, IH. f_equal.
  rewrite flat_map_concat_map, map_map, <- flat_map_concat_map.
  apply flat_map_filter.
Qed.

Lemma flat_map_perm {A B} (f g : A -> list B) (l : list A) :
  (forall x, Permutation (f x) (g x)) ->
  Permutation (flat_map f l) (flat_map g l).
Proof.
  intros H. induction l as [|x l IH]; simpl.
  - apply perm_nil.
  - now apply Permutation_app.
Qed.

Lemma flat_map_nil {A B} (l : list A) :
  flat_map (fun _ : A => @nil B) l = [].
Proof. induction l; simpl; auto. Qed.

Lemma flat_map_app_pointwise {A B} (f g : A -> list B) (l : list A) :
  Permutation (flat_map (fun x => f x ++ g x) l)
              (flat_map f l ++ flat_map g l).
Proof.
  induction l as [|x l IH]; simpl.
  - apply perm_nil.
  - rewrite <- !app_assoc. apply Permutation_app_head.
    apply perm_trans with (g x ++ flat_map f l ++ flat_map g l).
    + now apply Permutation_app_head.
    + rewrite !app_assoc. apply Permutation_app_tail, Permutation_app_comm.
Qed.

(** Two nested iterations may be exchanged, up to the order of the
    result. *)
Lemma flat_map_swap {A B C} (f : A -> B -> list C)
    (la : list A) (lb : list B) :
  Permutation (flat_map (fun a => flat_map (fun b => f a b) lb) la)
              (flat_map (fun b => flat_map (fun a => f a b) la) lb).
Proof.
  induction la as [|a la IH]; simpl.
  - now rewrite flat_map_nil.
  - apply perm_trans
      with (flat_map (fun b => f a b) lb
            ++ flat_map (fun b => flat_map (fun a => f a b) la) lb).
    + now apply Permutation_app_head.
    + apply Permutation_sym, flat_map_app_pointwise.
Qed.

Section Bookings.
Variable db : database.
Variable ty : string.

(** The reservations that Query 3 averages for the type named [ty]. *)
Lemma grouped_stays :
  map snd
      (filter (fun x => (room_type_name x =? ty)%string)
              (booked_rooms (room_type db) (room db)
                            (reservation_room db) (reservation db)))
  = flat_map (fun rt =>
      flat_map (fun rm =>
        flat_map (fun rr =>
          flat_map (stay_of_booking ty rt rm rr) (reservation db))
        (reservation_room db))
      (room db))
    (room_type db).
Proof.
  unfold booked_rooms. rewrite map_filter_when.
  rewrite !flat_map_inner_join.
  apply flat_map_ext. intros rt.
  apply flat_map_ext. intros rm.
  rewrite when_flat_map. apply flat_map_ext. intros rr.
  rewrite !when_flat_map. apply flat_map_ext. intros r.
  unfold stay_of_booking, is_booking, room_type_name, when. simpl.
  destruct (Room.roomTypeId rm =? RoomType.roomTypeId rt),
    (ReservationRoom.roomId rr =? Room.roomId rm),
    (Reservation.reservationId r =? ReservationRoom.reservationId rr),
    (RoomType.roomType rt =? ty)%string; reflexivity.
Qed.

Lemma filter_when {A} (p : A -> bool) (l : list A) :
  filter p l = flat_map (fun x => when (p x) [x]) l.
Proof.
  induction l as [|x l IH]; simpl; [reflexivity|].
  destruct (p x); simpl; now rewrite IH.
Qed.

Lemma specified_stays :
  stays_of_room_type db ty
  = flat_map (fun rr =>
      flat_map (fun rm =>
        flat_map (fun rt =>
          flat_map (stay_of_booking ty rt rm rr) (reservation db))
        (room_type db))
      (room db))
    (reservation_room db).
Proof.
  unfold stays_of_room_type.
  apply flat_map_ext. intros rr.
  rewrite flat_map_filter. apply flat_map_ext. intros rm.
  rewrite flat_map_filter, when_flat_map. apply flat_map_ext. intros rt.
  rewrite filter_when, !when_flat_map. apply flat_map_ext. intros r.
  unfold stay_of_booking, is_booking, when.
  rewrite (Z.eqb_sym (RoomType.roomTypeId rt)),
    (Z.eqb_sym (Room.roomId rm)).
  destruct (Room.roomTypeId rm =? RoomType.roomTypeId rt),
    (ReservationRoom.roomId rr =? Room.roomId rm),
    (Reservation.reservationId r =? ReservationRoom.reservationId rr),
    (RoomType.roomType rt =? ty)%string; reflexivity.
Qed.

(** Query 3 averages, for each type name, the stays of the
    [reservation_room] rows of that type. *)
Lemma grouped_stays_are_the_specified_stays :
  Permutation
    (map snd
         (filter (fun x => (room_type_name x =? ty)%string)
                 (booked_rooms (room_type db) (room db)
                               (reservation_room db) (reservation db))))
    (stays_of_room_type db ty).
Proof.
  rewrite grouped_stays, specified_stays.
  (* rt, rm, rr  ~>  rm, rt, rr *)
  eapply perm_trans; [apply flat_map_swap|].
  (* ~>  rm, rr, rt *)
  eapply perm_trans.
  { apply flat_map_perm. intros rm. apply flat_map_swap. }
  (* ~>  rr, rm, rt *)
  apply (flat_map_swap
           (fun rm rr =>
              flat_map (fun rt =>
                flat_map (stay_of_booking ty rt rm rr) (reservation db))
                (room_type db))).
Qed.

End Bookings.

Lemma flat_map_map {A B C} (g : B -> list C) (f : A -> B) (l : list A) :
  flat_map g (map f l) = flat_map (fun x => g (f x)) l.
Proof.
  induction l as [|x l IH]; simpl; [reflexivity | now rewrite IH].
Qed.

(** The accumulator of [SUM] and [AVG] after a run over REAL values and
    NULLs. *)
Lemma sum_steps_over_reals (vs : list (option float)) (p : accumulator) :
  rSum (fold_left sum_step (map (option_map Float) vs) p)
  = fold_left PrimFloat.add (flat_map added vs) (rSum p)
  /\ cnt (fold_left sum_step (map (option_map Float) vs) p)
     = cnt p + Z.of_nat (List.length (flat_map added vs)).
Proof.
  revert p. induction vs as [|[d|] vs IH]; intros p.
  - cbn. split; [reflexivity | lia].
  - cbn [map option_map fold_left flat_map added app].
    destruct (IH (sum_step p (Some (Float d)))) as [-> ->].
    cbn [sum_step rSum cnt List.length]. split; [reflexivity | lia].
  - cbn [map option_map fold_left flat_map added app sum_step].
    apply IH.
Qed.

(** [AVG] over REAL values and NULLs is the rounded mean of the
    values. *)
Lemma sql_avg_rounded_mean {A} (f : A -> option float) (l : list A) :
  sql_avg (fun x => option_map Float (f x)) l
  = rounded_mean (flat_map (fun x => added (f x)) l).
Proof.
  unfold sql_avg, avg_final.
  rewrite <- (map_map f (option_map Float)).
  destruct (sum_steps_over_reals (map f l) sum_start) as [-> ->].
  rewrite flat_map_map.
  set (ds := flat_map (fun x => added (f x)) l).
  unfold rounded_mean, rounded_sum. cbn [cnt rSum sum_start].
  destruct ds as [|d ds']; [reflexivity|].
  replace (0 + Z.of_nat (List.length (d :: ds')) =? 0) with false
    by (symmetry; apply Z.eqb_neq; cbn [List.length]; lia).
  reflexivity.
Qed.

(** The stay length that the statement computes is the difference of the
    Julian day numbers. *)
Lemma nights_in_doubles (r : Reservation.row) :
  added (nights r) = days_in_doubles r.
Proof.
  unfold nights, days_in_doubles, minus.
  rewrite !CalendarFacts.julianday_julian_day.
  destruct (legible (Reservation.startDateTime r)),
    (legible (Reservation.endDateTime r)); reflexivity.
Qed.

Lemma returned_stay_lengths (db : database)
    (others : forall q, Sql.result (list (row_of q))) :
  returned (sqlite3_on db others) stay_length_by_room_type
  = order_by longest_first
      (map stay_length_of
         (group_by room_type_name String.eqb
            (booked_rooms (room_type db) (room db)
                          (reservation_room db) (reservation db)))).
Proof. reflexivity. Qed.

End StayFacts.

(** C4, as the code has it.  On [/employee/rooms], a room type that has
    at least one booking gets exactly one row, whose [num_room_bookings]
    is the number of [reservation_room] join rows of that type and whose
    [avg_nights] is the mean of (end - start), in days, computed in
    double arithmetic: every timestamp is taken as its Julian day
    number in a double, the differences are added in some order with a
    rounding after every addition, and the sum is divided by their
    number.  A join row with a timestamp that has no Julian day number
    is left out of the mean.  A room type without bookings gets no
    row.  Room types are told apart by their name, as the statement
    groups them. *)
Theorem C4_average_stay_length_in_double_arithmetic :
  forall (db : database) (others : forall q, Sql.result (list (row_of q)))
         (ty : string),
    let lib := sqlite3_on db others in
    let stays := stays_of_room_type db ty in
    exists forum_posts room_types events total_requests total_bookings
           total_events,
      served lib GET_employee_rooms
      = Some {| template := "employee_rooms.html";
                variables :=
                  employee_rooms_context forum_posts room_types events
                    total_requests total_bookings total_events |}
      /\ (stays <> [] ->
          exists row lengths,
            In row room_types
            /\ StayLength.roomType row = ty
            /\ Permutation lengths (flat_map days_in_doubles stays)
            /\ StayLength.avg_nights row = rounded_mean lengths
            /\ StayLength.num_room_bookings row = len stays
            /\ forall row', In row' room_types ->
                            StayLength.roomType row' = ty -> row' = row)
      /\ (stays = [] ->
          forall row, In row room_types -> StayLength.roomType row <> ty).
Proof.
  intros db others ty lib stays.
  assert (H : connect_error lib = None) by reflexivity.
  unfold served, dispatch_request, view, employee_rooms.
  run_queries H. cbn [render_template ret fst].
  do 6 eexists. split; [reflexivity|].
  unfold lib. rewrite StayFacts.returned_stay_lengths.
  set (booked := Statements.booked_rooms _ _ _ _).
  set (g := filter (fun x => (room_type_name x =? ty)%string) booked).
  assert (P : Permutation (map snd g) stays)
    by apply StayFacts.grouped_stays_are_the_specified_stays.
  assert (Hlen : List.length g = List.length stays)
    by (rewrite <- (Permutation_length P); now rewrite length_map).
  assert (Hgroup : forall row,
             In row (Sql.order_by longest_first
                       (map stay_length_of
                          (Sql.group_by room_type_name String.eqb booked))) ->
             StayLength.roomType row = ty ->
             g <> [] /\ row = stay_length_of (ty, g)).
  { intros row Hin Ety. apply SqlFacts.order_by_In, in_map_iff in Hin.
    destruct Hin as ([k g'] & <- & Hg). simpl in Ety. subst k.
    apply (SqlFacts.group_by_In _ _ String.eqb_eq) in Hg.
    destruct Hg as [Hk ->]. split; [|reflexivity].
    now apply (SqlFacts.key_group_nonempty _ _ String.eqb_eq). }
  split.
  - intros Hne.
    assert (Hg : g <> []).
    { intros E. rewrite E in Hlen. destruct stays; [congruence|discriminate]. }
    exists (stay_length_of (ty, g)).
    exists (flat_map days_in_doubles (map snd g)).
    split; [|split; [|split; [|split; [|split]]]].
    + apply SqlFacts.order_by_In, in_map.
      apply (SqlFacts.group_by_In _ _ String.eqb_eq). split; [|reflexivity].
      now apply (SqlFacts.key_group_nonempty _ _ String.eqb_eq).
    + reflexivity.
    + now apply Permutation_flat_map.
    + cbn [stay_length_of StayLength.avg_nights snd]. unfold nights_of.
      rewrite (StayFacts.sql_avg_rounded_mean
                 (fun x => Statements.nights (snd x))).
      f_equal. rewrite StayFacts.flat_map_map.
      apply flat_map_ext. intros x. apply StayFacts.nights_in_doubles.
    + cbn [stay_length_of StayLength.num_room_bookings snd].
      unfold Sql.count_star, len. now rewrite Hlen.
    + intros row' Hin Ety. now apply Hgroup.
  - intros Hnil row Hin Ety.
    destruct (Hgroup row Hin Ety) as [Hg _].
    apply Hg. rewrite Hnil in Hlen. now destruct g.
Qed.

(** C4, as the claim words it, fails: for guests who arrive at 15:00 and
    leave at 11:00 after 2, 5 and 3 nights, the mean of end minus start
    is 19/6 of a day, and the reported average is another number. *)
Lemma C4_average_is_not_the_mean :
  exists forum_posts room_types events total_requests total_bookings
         total_events row avg,
    served (sqlite3_on Sample.afternoon_arrivals Sample.no_answer)
      GET_employee_rooms
    = Some {| template := "employee_rooms.html";
              variables :=
                employee_rooms_context forum_posts room_types events
                  total_requests total_bookings total_events |}
    /\ In row room_types
    /\ StayLength.roomType row = "Single"%string
    /\ StayLength.avg_nights row = Some avg
    /\ Double.exact avg
       <> Some (mean (map days_between
                         (stays_of_room_type Sample.afternoon_arrivals
                                             "Single"))).
Proof.
  do 6 eexists.
  exists {| StayLength.roomType := "Single";
            StayLength.avg_nights := Some 0x1.95555555aaaabp+1%float;
            StayLength.num_room_bookings := 3 |}.
  eexists.
  split; [vm_compute; reflexivity|].
  split; [now left|]. split; [reflexivity|]. split; [reflexivity|].
  intros E. apply (f_equal (option_map this)) in E.
  vm_compute in E. discriminate.
Qed.

(** The two numbers of that sample: the report shows
    3.1666666668218872, the double nearest to 19/6 is
    3.1666666666666665. *)
Example average_stay_of_afternoon_arrivals :
  map StayLength.avg_nights
      (returned (sqlite3_on Sample.afternoon_arrivals Sample.no_answer)
                stay_length_by_room_type)
  = [Some 0x1.95555555aaaabp+1%float]
  /\ mean (map days_between
              (stays_of_room_type Sample.afternoon_arrivals "Single"))
     = Q2Qc (19 # 6)
  /\ PrimFloat.div 19 6 = 0x1.9555555555555p+1%float.
Proof.
  split; [vm_compute; reflexivity|]. split; [|vm_compute; reflexivity].
  apply Qc_is_canon. vm_compute. reflexivity.
Qed.

(** On the sample hotel, whose guests arrive and leave at noon, the
    three stays of the single room last 2, 5 and 3 days; all Julian day
    numbers are whole and the report shows the double nearest to
    10/3. *)
Example average_stay_in_the_small_hotel :
  map (fun row => (StayLength.roomType row, StayLength.avg_nights row,
                   StayLength.num_room_bookings row))
      (returned (sqlite3_on Sample.small_hotel Sample.no_answer)
                stay_length_by_room_type)
  = [("Single"%string, Some (PrimFloat.div 10 3), 3)].
Proof. vm_compute. reflexivity. Qed.

(* ================================================================== *)
(** * Further properties: connections, results and pages *)

Module RequestFacts.
Import Further.

Lemma query_db_unreachable (lib : sqlite3) (q : query) (one : bool)
    (m : string) :
  connect_error lib = Some m ->
  query_db lib q one = (Raise (sqlite3_Error m), []).
Proof.
  intros H. unfold query_db, get_db_connection, sqlite3_connect.
  now rewrite H.
Qed.

Lemma query_db_events (lib : sqlite3) (q : query) :
  connect_error lib = None ->
  query_db lib q false = (Return (returned lib q), query_events lib q).
Proof.
  intros H. rewrite (PythonFacts.query_db_connected lib q H).
  unfold query_events. now destruct (execute_fetchall lib q).
Qed.

Lemma replay_query (lib : sqlite3) (q : query) (t : list event) :
  replay false (query_events lib q ++ t) = replay false t.
Proof.
  unfold query_events. now destruct (execute_fetchall lib q).
Qed.

Lemma page_is_not_the_error_page (r : route) : page_of r <> "error.html"%string.
Proof. destruct r; discriminate. Qed.

End RequestFacts.

Ltac unfold_views :=
  unfold served, dispatch_request, view,
    home, signup, account, profile, guest_rooms, meeting_spaces_page,
    my_reservations, book, confirmation, management_login, staff_roster,
    card_management, employee_login, employee_rooms,
    employee_customer_cards, employee_room_list,
    employee_reservations_page, employee_revenue, rooms_never_reserved.

Ltac run_unreachable H :=
  repeat (rewrite (RequestFacts.query_db_unreachable _ _ _ _ H); cbn [bind]).

Ltac run_events H :=
  repeat (rewrite (RequestFacts.query_db_events _ _ H); cbn [bind]).

(** Splits on the outcome of [sum(...) if rows else 0], which emits no
    event. *)
Ltac run_sum :=
  try match goal with
      | |- context [if truthy ?rows then sum_numbers ?vs else ret (Integer 0)] =>
          let S := fresh "S" in
          let E := fresh "E" in
          let m := fresh "m" in
          let total := fresh "total" in
          let e := fresh "e" in
          let t := fresh "t" in
          remember (if truthy rows then sum_numbers vs else ret (Integer 0))
            as m eqn:E;
          assert (S : snd m = [])
            by (rewrite E; apply PythonFacts.guarded_sum_silent);
          clear E; destruct m as [[total|e] t];
          cbn [snd] in S; subst t
      end.

(** X1.  The events of a request, for every route and every state of the
    library: nothing when the connection cannot be opened; otherwise one
    connection per statement of the view, opened and closed in the order
    of the statements, with the line [Query error: ...] printed inside it
    exactly when that statement failed. *)
Theorem request_events_follow_the_statements :
  forall (lib : sqlite3) (r : route),
    snd (dispatch_request lib r)
    = match connect_error lib with
      | Some _ => []
      | None => flat_map (Further.query_events lib) (statements_of r)
      end.
Proof.
  intros lib r. destruct (connect_error lib) as [m|] eqn:H.
  - destruct r; unfold_views; run_unreachable H; reflexivity.
  - destruct r; unfold_views; run_events H; run_sum;
      cbn [bind render_template handle_error ret snd statements_of flat_map
           app];
      rewrite ?app_nil_r, <- ?app_assoc; reflexivity.
Qed.

(** X2.  A request never holds two connections at once and never leaves
    one open: replaying its events from the closed state succeeds and
    ends in the closed state, whatever the statements answer and whether
    or not the connection opens. *)
Theorem every_connection_is_closed :
  forall (lib : sqlite3) (r : route),
    Further.replay false (snd (dispatch_request lib r)) = Some false.
Proof.
  intros lib r. destruct (connect_error lib) as [m|] eqn:H.
  - destruct r; unfold_views; run_unreachable H; reflexivity.
  - destruct r; unfold_views; run_events H; run_sum;
      cbn [bind render_template handle_error ret snd app];
      rewrite ?app_nil_r, <- ?app_assoc, ?RequestFacts.replay_query;
      try reflexivity;
      rewrite <- (app_nil_r (Further.query_events _ _));
      now rewrite RequestFacts.replay_query.
Qed.

(** X3.  [query_db] with [one=True] returns the first row of what it
    returns with [one=False], or [None] when that is empty (no rows, or a
    statement that failed); it raises the same exception and emits the
    same events. *)
Theorem query_db_one_is_the_first_row :
  forall (lib : sqlite3) (q : query),
    query_db lib q true
    = (match fst (query_db lib q false) with
       | Return rows => Return (hd_error rows)
       | Raise e => Raise e
       end,
       snd (query_db lib q false)).
Proof.
  intros lib q.
  unfold query_db, get_db_connection, sqlite3_connect, cursor_fetchall.
  destruct (connect_error lib); [reflexivity|]. simpl.
  destruct (execute_fetchall lib q); reflexivity.
Qed.

(** X4.  No request ends in an exception.  When the connection cannot
    be opened, the generic error page is sent exactly for the views that
    query the database.  When it opens, a failing statement never leads
    to the error page; only the two views that add up a [SUM] column
    with [sum] can send it: they send it when a field of that column is
    [None], and they render their own template, like every other view,
    when the fields are all integers or all floats. *)
Theorem error_page_needs_an_exception :
  forall (lib : sqlite3) (r : route),
    exists resp,
      fst (dispatch_request lib r) = Return resp
      /\ (connect_error lib <> None ->
          (template resp = "error.html"%string <-> uses_database r = true)
          /\ (template resp <> "error.html"%string ->
              template resp = page_of r))
      /\ (connect_error lib = None ->
          (In None (Further.summed_fields lib r) ->
           template resp = "error.html"%string)
          /\ (Forall is_integer (Further.summed_fields lib r)
              \/ Forall is_real (Further.summed_fields lib r) ->
              template resp = page_of r)).
Proof.
  intros lib r. destruct (connect_error lib) as [m|] eqn:H.
  - destruct r; unfold_views; run_unreachable H;
      eexists; (split; [reflexivity|]); (split; [|intros; congruence]);
      intros _; cbv [uses_database statements_of truthy];
      simpl; repeat split; intros;
      solve [reflexivity | congruence | intuition congruence].
  - assert (Hsum : forall (A : Type) (f : A -> option number) (rows : list A),
               (In None (map f rows) ->
                exists e, (if truthy rows then sum_numbers (map f rows)
                           else ret (Integer 0)) = (Raise e, []))
               /\ (Forall is_integer (map f rows)
                   \/ Forall is_real (map f rows) ->
                   exists total,
                     (if truthy rows then sum_numbers (map f rows)
                      else ret (Integer 0)) = (Return total, []))).
    { intros A f rows. split.
      - intros Hin. destruct rows as [|x rows]; [contradiction|].
        cbn [truthy]. now apply PythonFacts.sum_with_null.
      - intros [Hall|Hall]; rewrite Forall_forall in Hall.
        + rewrite TotalFacts.guarded_sum_of_integers
            by (intros row Hrow; apply Hall; now apply in_map).
          now eexists.
        + destruct rows as [|x rest] eqn:E; [now eexists|]. rewrite <- E in *.
          rewrite TotalFacts.guarded_sum_of_doubles;
            [now eexists | congruence
            | intros row Hrow; apply Hall; now apply in_map]. }
    destruct r; unfold_views; run_events H;
      try (eexists; (split; [reflexivity|]); (split; [congruence|]);
           intros _; split; [intros [] | reflexivity]).
    + destruct (Hsum _ CustomerBill.total_billed
                  (returned lib revenue_by_customer)) as [Hnull Hnum].
      cbn [Further.summed_fields].
      destruct (if truthy (returned lib revenue_by_customer) then _ else _)
        as [[total|e] t] eqn:E.
      * eexists. split; [reflexivity|]. split; [congruence|].
        intros _. split; [|reflexivity].
        intros Hin. destruct (Hnull Hin) as [e He]. discriminate.
      * eexists. split; [reflexivity|]. split; [congruence|].
        intros _. split; [reflexivity|].
        intros Hall. destruct (Hnum Hall) as [total Htotal]. discriminate.
    + destruct (Hsum _ MonthRevenue.total_revenue
                  (returned lib monthly_revenue)) as [Hnull Hnum].
      cbn [Further.summed_fields].
      destruct (if truthy (returned lib monthly_revenue) then _ else _)
        as [[total|e] t] eqn:E.
      * eexists. split; [reflexivity|]. split; [congruence|].
        intros _. split; [|reflexivity].
        intros Hin. destruct (Hnull Hin) as [e He]. discriminate.
      * eexists. split; [reflexivity|]. split; [congruence|].
        intros _. split; [reflexivity|].
        intros Hall. destruct (Hnum Hall) as [total Htotal]. discriminate.
Qed.

(* ================================================================== *)
(** * Further facts about grouping, sorting and joins *)

Module GroupFacts.
Import Sql.

Lemma filter_or_perm {A} (p q : A -> bool) (l : list A) :
  (forall x, In x l -> p x = true -> q x = true -> False) ->
  Permutation (filter (fun x => p x || q x) l) (filter p l ++ filter q l).
Proof.
  induction l as [|x l IH]; intros D; simpl; [apply perm_nil|].
  assert (IH' := IH (fun y Hy => D y (or_intror Hy))).
  specialize (D x (or_introl eq_refl)).
  destruct (p x) eqn:P, (q x) eqn:Q; simpl.
  - exfalso. now apply D.
  - now apply perm_skip.
  - apply Permutation_cons_app. exact IH'.
  - exact IH'.
Qed.

Section Groups.
Context {A K : Type} (key : A -> K) (eqb : K -> K -> bool).
Hypothesis eqb_eq : forall a b, eqb a b = true <-> a = b.

Lemma groups_of_keys_perm (ks : list K) (l : list A) :
  NoDup ks ->
  Permutation (flat_map (fun k => filter (fun x => eqb (key x) k) l) ks)
              (filter (fun x => existsb (eqb (key x)) ks) l).
Proof.
  induction 1 as [|k ks Hk Hnd IH]; simpl.
  - induction l as [|x l IHl]; simpl; [apply perm_nil | exact IHl].
  - apply Permutation_sym.
    apply perm_trans
      with (filter (fun x => eqb (key x) k) l
            ++ filter (fun x => existsb (eqb (key x)) ks) l).
    + apply filter_or_perm. intros x _ H1 H2.
      apply eqb_eq in H1. subst k. apply Hk.
      apply existsb_exists in H2. destruct H2 as (k' & Hk' & E).
      apply eqb_eq in E. now subst.
    + apply Permutation_app_head, Permutation_sym, IH.
Qed.

(** The groups of [GROUP BY] hold every row once. *)
Lemma groups_concat_perm (l : list A) :
  Permutation (flat_map snd (group_by key eqb l)) l.
Proof.
  unfold group_by. rewrite flat_map_concat_map, map_map. simpl.
  rewrite <- flat_map_concat_map.
  apply perm_trans
    with (filter (fun x => existsb (eqb (key x)) (distinct eqb (map key l))) l).
  - apply groups_of_keys_perm, (SqlFacts.distinct_NoDup eqb eqb_eq).
  - rewrite (RoomListFacts.filter_keeps_all _ l); [apply Permutation_refl|].
    intros x Hx. apply existsb_exists. exists (key x). split.
    + apply (SqlFacts.distinct_In eqb eqb_eq). now apply in_map.
    + now apply eqb_eq.
Qed.

Lemma group_rows (k : K) (g : list A) (l : list A) :
  In (k, g) (group_by key eqb l) ->
  g <> [] /\ forall x, In x g <-> In x l /\ key x = k.
Proof.
  intros H. apply (SqlFacts.group_by_In key eqb eqb_eq) in H.
  destruct H as [Hk ->]. split.
  - now apply (SqlFacts.key_group_nonempty key eqb eqb_eq).
  - intros x. rewrite filter_In, eqb_eq. reflexivity.
Qed.

End Groups.

Lemma distinct_length {K} (eqb : K -> K -> bool) (l : list K) :
  (List.length (distinct eqb l) <= List.length l)%nat.
Proof.
  induction l as [|k l IH]; simpl; [lia|].
  pose proof (filter_length_le (fun k' => negb (eqb k' k)) (distinct eqb l)).
  lia.
Qed.

(** Every left row survives a [LEFT JOIN], and nothing else appears on
    the left. *)
Lemma left_join_left {A B} (l : list A) (r : list B) (on : A -> B -> bool)
    (a : A) :
  In a l <-> exists o, In (a, o) (left_join l r on).
Proof.
  unfold left_join. split.
  - intros Ha. destruct (filter (on a) r) as [|b m] eqn:E.
    + exists None. apply in_flat_map. exists a. split; [exact Ha|].
      rewrite E. now left.
    + exists (Some b). apply in_flat_map. exists a. split; [exact Ha|].
      rewrite E. now left.
  - intros [o H]. apply in_flat_map in H. destruct H as (a' & Ha & H).
    destruct (filter (on a') r) as [|b m].
    + destruct H as [H|[]]. now inversion H; subst.
    + apply in_map_iff in H. destruct H as (b' & H & _).
      now inversion H; subst.
Qed.

(** Rows sorted by a key that no two of them share are strictly
    sorted. *)
Lemma sorted_refine {A K} (R S : A -> A -> Prop) (f : A -> K) (l : list A) :
  StronglySorted R l ->
  NoDup (map f l) ->
  (forall a b, R a b -> f a <> f b -> S a b) ->
  StronglySorted S l.
Proof.
  intros Hs Hnd HRS. induction Hs as [|x l Hl IH Hx]; constructor.
  - apply IH. now inversion Hnd.
  - simpl in Hnd. inversion Hnd as [|? ? Hnin _]; subst.
    rewrite Forall_forall in *. intros y Hy. apply HRS; [now apply Hx|].
    intros E. apply Hnin. rewrite E. now apply in_map.
Qed.

Lemma StronglySorted_map {A B} (f : A -> B) (R : B -> B -> Prop) (l : list A) :
  StronglySorted (fun a b => R (f a) (f b)) l -> StronglySorted R (map f l).
Proof.
  induction 1 as [|x l Hl IH Hx]; simpl; constructor; [exact IH|].
  rewrite Forall_forall in *. intros y Hy.
  apply in_map_iff in Hy. destruct Hy as (z & <- & Hz). now apply Hx.
Qed.

Lemma StronglySorted_firstn {A} (R : A -> A -> Prop) (n : nat) (l : list A) :
  StronglySorted R l -> StronglySorted R (firstn n l).
Proof.
  intros Hs. revert n. induction Hs as [|x l Hl IH Hx]; intros [|n]; simpl;
    try constructor.
  - apply IH.
  - rewrite Forall_forall in *. intros y Hy. apply Hx.
    rewrite <- (firstn_skipn n l). apply in_or_app. now left.
Qed.

End GroupFacts.

(* ================================================================== *)
(** * Further properties: the reservation reports *)

Module DayFacts.
Import Sql Statements.

Lemma total_of_day_counts (rs : list Reservation.row) :
  total_of DayCount.num_reservations (day_counts rs) = count_star rs.
Proof.
  unfold day_counts.
  rewrite <- (SqlFacts.groups_cover
                (fun r => date (Reservation.startDateTime r))
                (option_eqb String.eqb) TextFacts.nullable_eqb_eq rs).
  unfold total_of.
  induction (group_by _ _ rs) as [|g G IH]; simpl; [reflexivity|].
  now rewrite IH.
Qed.

Lemma day_counts_length (rs : list Reservation.row) :
  (List.length (day_counts rs) <= List.length rs)%nat.
Proof.
  unfold day_counts, group_by. rewrite !length_map.
  eapply Nat.le_trans; [apply GroupFacts.distinct_length|].
  now rewrite length_map.
Qed.

Lemma day_counts_nil (rs : list Reservation.row) :
  day_counts rs = [] -> rs = [].
Proof.
  destruct rs as [|r rs]; [reflexivity|]. discriminate.
Qed.

Lemma one_le_true_div (a b : Z) : 0 < b <= a -> (1 <= true_div a b)%Qc.
Proof.
  intros H. unfold true_div, Qcle.
  unfold Qcdiv, Qcmult, Qcinv.
  change (this 1%Qc) with 1%Q.
  cbn [this Q2Qc].
  repeat (rewrite Qred_correct).
  apply Qle_shift_div_l.
  - unfold Qlt. simpl. lia.
  - rewrite Qmult_1_l, <- Zle_Qle. lia.
Qed.

Lemma below_of_leb (a b : option string) :
  option_leb text_leb a b = true -> a <> b -> day_below a b.
Proof.
  destruct a as [x|], b as [y|]; cbn [option_leb day_below]; intros L N;
    try discriminate; try congruence; [|exact I].
  apply TextFacts.text_lt_of_leb; [exact L | congruence].
Qed.

End DayFacts.

(** X5.  On [/employee/reservations], [total_reservations] is the number
    of rows of the [reservation] table and [total_days] the number of
    rows shown; there are never more days than reservations, and as soon
    as the table holds a reservation [avg_per_day] is at least 1. *)
Theorem reservation_totals_count_the_table :
  forall (db : database) (others : forall q, Sql.result (list (row_of q))),
    exists rows avg_per_day,
      served (sqlite3_on db others) GET_employee_reservations
      = Some {| template := "employee_reservations.html";
                variables :=
                  employee_reservations_context rows
                    (len (reservation db)) (len rows) avg_per_day |}
      /\ len rows <= len (reservation db)
      /\ (reservation db <> [] -> (1 <= avg_per_day)%Qc).
Proof.
  intros db others.
  assert (H : connect_error (sqlite3_on db others) = None) by reflexivity.
  unfold served, dispatch_request, view, employee_reservations_page.
  run_queries H. cbn [render_template ret fst].
  rewrite PythonFacts.guarded_sum, PythonFacts.guarded_len.
  change (returned (sqlite3_on db others) reservations_per_day)
    with (Sql.order_by Statements.earliest_first
            (Statements.day_counts (reservation db))).
  cbn [row_of].
  set (rows := Sql.order_by _ _).
  assert (Etotal : total_of DayCount.num_reservations rows
                   = len (reservation db)).
  { unfold rows.
    rewrite (PythonFacts.total_of_perm _ _ _ (SqlFacts.order_by_perm _ _)).
    apply DayFacts.total_of_day_counts. }
  assert (Hlen : len rows <= len (reservation db)).
  { unfold len, rows. rewrite SqlFacts.order_by_length.
    apply Nat2Z.inj_le, DayFacts.day_counts_length. }
  rewrite Etotal. do 2 eexists. split; [reflexivity|]. split; [exact Hlen|].
  intros Hne.
  assert (Hpos : 0 < len rows).
  { unfold len. destruct rows as [|x l] eqn:E; [|simpl; lia].
    exfalso. apply Hne. apply DayFacts.day_counts_nil.
    now apply (SqlFacts.order_by_nil _ _ E). }
  destruct (0 <? len rows) eqn:P; [|apply Z.ltb_ge in P; lia].
  apply DayFacts.one_le_true_div. lia.
Qed.

(** X6.  The rows of [/employee/reservations] are in strictly ascending
    order of their day, those of [/my_reservations] in strictly
    descending order: the order of the texts [YYYY-MM-DD], which on
    well-formed timestamps is the order of the calendar, with the day
    [None] of unreadable timestamps below every text. *)
Theorem reservation_reports_are_sorted_by_day :
  forall (db : database) (others : forall q, Sql.result (list (row_of q))),
    exists full total_reservations total_days avg_per_day window shown,
      served (sqlite3_on db others) GET_employee_reservations
      = Some {| template := "employee_reservations.html";
                variables :=
                  employee_reservations_context full
                    total_reservations total_days avg_per_day |}
      /\ served (sqlite3_on db others) GET_my_reservations
         = Some {| template := "my_reservations.html";
                   variables := my_reservations_context window shown |}
      /\ StronglySorted day_below (map DayCount.day full)
      /\ StronglySorted (fun a b => day_below b a)
                        (map DayCount.day window).
Proof.
  intros db others.
  assert (H : connect_error (sqlite3_on db others) = None) by reflexivity.
  unfold served, dispatch_request, view, employee_reservations_page,
    my_reservations.
  run_queries H. cbn [render_template ret fst].
  do 6 eexists. split; [reflexivity|]. split; [reflexivity|].
  change (returned (sqlite3_on db others) reservations_per_day)
    with (Sql.order_by Statements.earliest_first
            (Statements.day_counts (reservation db))).
  change (returned (sqlite3_on db others) reservations_per_day_limit_10)
    with (Sql.limit 10
            (Sql.order_by Statements.latest_first
               (Statements.day_counts (reservation db)))).
  split.
  - apply GroupFacts.StronglySorted_map.
    eapply (GroupFacts.sorted_refine _ _ DayCount.day).
    + apply SqlFacts.order_by_sorted.
      * intros a b. apply TextFacts.nullable_leb_total.
      * intros a b c. apply TextFacts.nullable_leb_trans.
    + apply (Permutation_NoDup
               (Permutation_map DayCount.day
                  (Permutation_sym (SqlFacts.order_by_perm _ _)))).
      apply ReservationFacts.day_counts_days.
    + intros a b L N. now apply DayFacts.below_of_leb.
  - apply GroupFacts.StronglySorted_map.
    unfold Sql.limit. apply GroupFacts.StronglySorted_firstn.
    eapply (GroupFacts.sorted_refine _ _ DayCount.day).
    + apply SqlFacts.order_by_sorted.
      * intros a b. apply ReservationFacts.latest_first_total.
      * intros a b c. apply ReservationFacts.latest_first_trans.
    + apply (Permutation_NoDup
               (Permutation_map DayCount.day
                  (Permutation_sym (SqlFacts.order_by_perm _ _)))).
      apply ReservationFacts.day_counts_days.
    + intros a b L N. apply DayFacts.below_of_leb; [exact L|].
      intros E. now apply N.
Qed.

(** On well-formed timestamps the order of the days is the order of the
    calendar. *)
Lemma day_below_is_the_calendar_order (a b : Sql.datetime) :
  well_formed a -> well_formed b ->
  (day_below (Sql.date a) (Sql.date b) <-> calendar_compare a b = Lt).
Proof.
  intros Wa Wb.
  rewrite (TextFacts.date_of_well_formed a Wa),
    (TextFacts.date_of_well_formed b Wb).
  cbn [day_below]. now rewrite TextFacts.date_compare.
Qed.

(* ================================================================== *)
(** * Further properties: the room reports *)

Module JoinFacts.
Import Sql.

Lemma inner_join_length_right {A B} (l : list A) (r : list B)
    (on : A -> B -> bool) :
  (forall b, In b r -> List.length (filter (fun a => on a b) l) = 1%nat) ->
  List.length (inner_join l r on) = List.length r.
Proof.
  induction r as [|b r IH]; intros H.
  - apply RoomListFacts.inner_join_length_nil.
  - rewrite RoomListFacts.inner_join_length_cons, (H b (or_introl eq_refl)).
    rewrite IH; [reflexivity|]. intros b' Hb'. apply H. now right.
Qed.

Lemma inner_join_length_left {A B} (l : list A) (r : list B)
    (on : A -> B -> bool) :
  (forall a, In a l -> List.length (filter (on a) r) = 1%nat) ->
  List.length (inner_join l r on) = List.length l.
Proof.
  rewrite RoomListFacts.inner_join_length.
  induction l as [|a l IH]; intros H; simpl; [reflexivity|].
  rewrite (H a (or_introl eq_refl)), IH; [reflexivity|].
  intros a' Ha'. apply H. now right.
Qed.

(** [unique_match] with the comparison written the other way round. *)
Lemma unique_match_sym {A} (f : A -> Z) (v : Z) (l : list A) :
  NoDup (map f l) -> In v (map f l) ->
  List.length (filter (fun x => f x =? v) l) = 1%nat.
Proof.
  intros Hnd Hin.
  rewrite <- (RoomListFacts.unique_match f v l Hnd Hin).
  f_equal. apply filter_ext. intros x. apply Z.eqb_sym.
Qed.

End JoinFacts.

(** X7.  On [/employee/room_list] no pair of building name and status is
    listed twice, every listed pair counts at least one room, and every
    pair that some room of a building has is listed. *)
Theorem room_list_rows_are_distinct_and_positive :
  forall (db : database) (others : forall q, Sql.result (list (row_of q))),
    exists rooms total_rooms available_rooms,
      served (sqlite3_on db others) GET_employee_room_list
      = Some {| template := "employee_room_list.html";
                variables := employee_room_list_context
                               rooms total_rooms available_rooms |}
      /\ NoDup (map (fun r => (RoomCount.buildingName r,
                               RoomCount.room_status r)) rooms)
      /\ (forall r, In r rooms -> 1 <= RoomCount.num_rooms r)
      /\ (forall b rm rs,
             In b (building db) -> In rm (room db) ->
             In rs (room_status db) ->
             Room.buildingId rm = Building.buildingId b ->
             Room.roomStatusId rm = RoomStatus.roomStatusId rs ->
             exists r, In r rooms
                       /\ RoomCount.buildingName r = Building.buildingName b
                       /\ RoomCount.room_status r = RoomStatus.status rs).
Proof.
  intros db others.
  assert (H : connect_error (sqlite3_on db others) = None) by reflexivity.
  unfold served, dispatch_request, view, employee_room_list.
  run_queries H. cbn [render_template ret fst].
  do 3 eexists. split; [reflexivity|].
  rewrite (RoomListFacts.returned_room_counts db others).
  set (G := Sql.group_by place_and_status Statements.text_pair_eqb
              (housed_rooms db)).
  split; [|split].
  - apply (Permutation_NoDup
             (Permutation_map _ (Permutation_sym (SqlFacts.order_by_perm _ _)))).
    rewrite map_map.
    replace (map _ G) with (map fst G)
      by (apply map_ext; intros [[? ?] ?]; reflexivity).
    apply (SqlFacts.group_by_keys_NoDup _ _ RoomListFacts.text_pair_eqb_eq).
  - intros r Hr. apply SqlFacts.order_by_In, in_map_iff in Hr.
    destruct Hr as ([k g] & <- & Hg).
    apply (GroupFacts.group_rows _ _ RoomListFacts.text_pair_eqb_eq) in Hg.
    destruct Hg as [Hne _]. unfold room_count_of, Sql.count_star. simpl.
    destruct g; [congruence | simpl; lia].
  - intros b rm rs Hb Hrm Hrs E1 E2.
    exists (room_count_of
              ((Building.buildingName b, RoomStatus.status rs),
               filter (fun x => Statements.text_pair_eqb (place_and_status x)
                                  (Building.buildingName b, RoomStatus.status rs))
                      (housed_rooms db))).
    split; [|split; reflexivity].
    apply SqlFacts.order_by_In, in_map.
    apply (SqlFacts.group_by_In _ _ RoomListFacts.text_pair_eqb_eq).
    split; [|reflexivity].
    apply in_map_iff. exists ((b, rm), rs). split; [reflexivity|].
    apply SqlFacts.inner_join_In. split; [|split].
    + apply SqlFacts.inner_join_In. repeat split; try assumption.
      now apply Z.eqb_eq.
    + exact Hrs.
    + simpl. apply Z.eqb_eq. now symmetry.
Qed.

(** X8.  Where building and status keys are unique and every room
    references a building and a status that exist, [total_rooms] on
    [/employee/room_list] is the number of rows of the [room] table:
    every room is counted once. *)
Theorem total_rooms_counts_every_room_once :
  forall (db : database) (others : forall q, Sql.result (list (row_of q))),
    NoDup (map Building.buildingId (building db)) ->
    NoDup (map RoomStatus.roomStatusId (room_status db)) ->
    (forall rm, In rm (room db) ->
       In (Room.buildingId rm) (map Building.buildingId (building db))
       /\ In (Room.roomStatusId rm)
             (map RoomStatus.roomStatusId (room_status db))) ->
    exists rooms available_rooms,
      served (sqlite3_on db others) GET_employee_room_list
      = Some {| template := "employee_room_list.html";
                variables := employee_room_list_context
                               rooms (len (room db)) available_rooms |}.
Proof.
  intros db others Hb Hs Href.
  destruct (RoomListFacts.room_list_statistics db others) as [rooms E].
  exists rooms. eexists. rewrite E. do 3 f_equal.
  unfold Sql.count_star, len, housed_rooms. f_equal.
  rewrite JoinFacts.inner_join_length_left.
  - apply JoinFacts.inner_join_length_right.
    intros rm Hrm. apply RoomListFacts.unique_match; [exact Hb|].
    now apply Href.
  - intros [b rm] Hx. apply SqlFacts.inner_join_In in Hx.
    destruct Hx as (_ & Hrm & _). simpl.
    apply JoinFacts.unique_match_sym; [exact Hs|]. now apply Href.
Qed.

Lemma total_rooms_counts_every_room_once_witness :
  exists rooms available_rooms,
    served (sqlite3_on Sample.small_hotel Sample.no_answer)
      GET_employee_room_list
    = Some {| template := "employee_room_list.html";
              variables := employee_room_list_context
                             rooms (len (room Sample.small_hotel))
                             available_rooms |}.
Proof.
  apply (total_rooms_counts_every_room_once
           Sample.small_hotel Sample.no_answer).
  - repeat constructor. simpl. tauto.
  - repeat constructor. simpl. tauto.
  - simpl. intros rm [<-|[<-|[]]]; simpl; tauto.
Defined.

(* ================================================================== *)
(** * Further properties: requests and bookings *)

Module EmployeeRoomsFacts.
Import Sql Statements Reports.

Lemma returned_open_requests (h : Hotel.t) :
  returned (sqlite3_file h) open_requests_by_type
  = order_by most_requests_first
      (map open_requests_row
         (group_by CustomerRequest.depositStatus String.eqb
            (filter is_open (Hotel.customer_requests h)))).
Proof. reflexivity. Qed.

Lemma returned_stay_lengths_of_file (h : Hotel.t) :
  returned (sqlite3_file h) stay_length_by_room_type
  = order_by longest_first
      (map stay_length_of
         (group_by room_type_name String.eqb
            (booked_rooms (Hotel.room_type h)
               (map RoomDetail.columns (Hotel.room h))
               (Hotel.reservation_room h) (Hotel.reservation h)))).
Proof. reflexivity. Qed.

Lemma total_of_open_requests (G : list (string * list CustomerRequest.row)) :
  total_of OpenRequests.open_requests (map open_requests_row G)
  = fold_right (fun g acc => count_star (snd g) + acc) 0 G.
Proof.
  unfold total_of. induction G as [|g G IH]; simpl; [reflexivity|].
  now rewrite IH.
Qed.

Lemma total_of_stay_lengths
    (G : list (string * list (RoomType.row * Room.row * ReservationRoom.row
                              * Reservation.row))) :
  total_of StayLength.num_room_bookings (map stay_length_of G)
  = fold_right (fun g acc => count_star (snd g) + acc) 0 G.
Proof.
  unfold total_of. induction G as [|g G IH]; simpl; [reflexivity|].
  now rewrite IH.
Qed.

End EmployeeRoomsFacts.

(** X10.  On [/employee/rooms], [total_requests] is the number of
    customer requests whose [resolved] flag is exactly [N], and
    [total_bookings] is the number of rows of the join of room types,
    rooms, [reservation_room] and reservations.  No deposit status is
    listed twice and every listed status has at least one open
    request. *)
Theorem employee_rooms_totals_count_the_rows :
  forall h : Hotel.t,
    exists forum_posts room_types events total_events,
      served (sqlite3_file h) GET_employee_rooms
      = Some {| template := "employee_rooms.html";
                variables :=
                  employee_rooms_context forum_posts room_types events
                    (len (filter Reports.is_open (Hotel.customer_requests h)))
                    (len (Statements.booked_rooms (Hotel.room_type h)
                            (map RoomDetail.columns (Hotel.room h))
                            (Hotel.reservation_room h) (Hotel.reservation h)))
                    total_events |}
      /\ NoDup (map OpenRequests.depositStatus forum_posts)
      /\ (forall row, In row forum_posts ->
                      1 <= OpenRequests.open_requests row).
Proof.
  intros h.
  assert (H : connect_error (sqlite3_file h) = None) by reflexivity.
  unfold served, dispatch_request, view, employee_rooms.
  run_queries H. cbn [render_template ret fst].
  rewrite !PythonFacts.guarded_sum.
  rewrite EmployeeRoomsFacts.returned_open_requests,
    EmployeeRoomsFacts.returned_stay_lengths_of_file.
  rewrite (PythonFacts.total_of_perm OpenRequests.open_requests _ _
             (SqlFacts.order_by_perm _ _)),
    EmployeeRoomsFacts.total_of_open_requests,
    (SqlFacts.groups_cover _ _ String.eqb_eq).
  rewrite (PythonFacts.total_of_perm StayLength.num_room_bookings _ _
             (SqlFacts.order_by_perm _ _)),
    EmployeeRoomsFacts.total_of_stay_lengths,
    (SqlFacts.groups_cover _ _ String.eqb_eq).
  do 4 eexists. split; [reflexivity|]. split.
  - apply (Permutation_NoDup
             (Permutation_map _ (Permutation_sym (SqlFacts.order_by_perm _ _)))).
    rewrite map_map.
    replace (map _ (Sql.group_by _ _ _))
      with (map fst (Sql.group_by CustomerRequest.depositStatus String.eqb
                       (filter Reports.is_open (Hotel.customer_requests h))))
      by (apply map_ext; intros [? ?]; reflexivity).
    apply (SqlFacts.group_by_keys_NoDup _ _ String.eqb_eq).
  - intros row Hr. apply SqlFacts.order_by_In, in_map_iff in Hr.
    destruct Hr as ([k g] & <- & Hg).
    apply (GroupFacts.group_rows _ _ String.eqb_eq) in Hg.
    destruct Hg as [Hne _].
    unfold Reports.open_requests_row, Sql.count_star. simpl.
    destruct g; [congruence | simpl; lia].
Qed.

(* ================================================================== *)
(** * Further properties: meeting-space events *)

Module EventFacts.
Import Sql Reports Further.

Lemma returned_events (h : Hotel.t) :
  returned (sqlite3_file h) events_by_space_type
  = order_by by_space_type
      (map space_events_row
         (group_by used_space_type String.eqb (space_uses h))).
Proof. reflexivity. Qed.

(** The space types of the joined rows are those of [meeting_space]. *)
Lemma used_space_types (h : Hotel.t) (ty : string) :
  In ty (map used_space_type (space_uses h)) <->
  In ty (map MeetingRoom.spaceType (Hotel.meeting_space h)).
Proof.
  unfold space_uses. rewrite !in_map_iff. split.
  - intros ([[[ms orr] oer] oe] & <- & Hx).
    exists ms. split; [reflexivity|].
    eapply (proj2 (GroupFacts.left_join_left _ _ _ _)). exists orr.
    eapply (proj2 (GroupFacts.left_join_left _ _ _ _)). exists oer.
    eapply (proj2 (GroupFacts.left_join_left _ _ _ _)). exists oe. exact Hx.
  - intros (ms & <- & Hms).
    unfold space_uses.
    set (on1 := fun (ms : MeetingRoom.row) (rr : ReservationRoom.row) => _).
    set (on2 := fun (x : MeetingRoom.row * option ReservationRoom.row)
                    (er : EventReservation.row) => _).
    set (on3 := fun (x : MeetingRoom.row * option ReservationRoom.row
                         * option EventReservation.row) (e : Event.row) => _).
    destruct (proj1 (GroupFacts.left_join_left _ (Hotel.reservation_room h)
                       on1 ms) Hms) as [orr H1].
    destruct (proj1 (GroupFacts.left_join_left _ (Hotel.event_reservation h)
                       on2 _) H1) as [oer H2].
    destruct (proj1 (GroupFacts.left_join_left _ (Hotel.event h) on3 _) H2)
      as [oe H3].
    exists (ms, orr, oer, oe). split; [reflexivity | exact H3].
Qed.

(** The event ids that [COUNT(DISTINCT er.eventId)] sees in the group of
    a space type. *)
Lemma event_ids_of_type (h : Hotel.t) (ty : string) (e : Z) :
  In e (event_ids (filter (fun x => (used_space_type x =? ty)%string)
                          (space_uses h)))
  <-> held_in h ty e.
Proof.
  unfold event_ids, held_in, space_uses. rewrite in_flat_map. split.
  - intros ([[[ms orr] oer] oe] & Hx & He).
    apply filter_In in Hx. destruct Hx as [Hx Hty].
    apply String.eqb_eq in Hty. simpl in He.
    destruct oer as [er|]; [|contradiction].
    destruct He as [<-|[]].
    assert (Hx' : In (ms, orr, Some er)
                     (left_join
                        (left_join (Hotel.meeting_space h)
                           (Hotel.reservation_room h)
                           (fun ms rr => ReservationRoom.roomId rr
                                         =? MeetingRoom.roomId ms))
                        (Hotel.event_reservation h)
                        (fun x er =>
                           matches (fun rr => EventReservation.reservationId er
                                              =? ReservationRoom.reservationId rr)
                                   (snd x))))
      by (eapply (proj2 (GroupFacts.left_join_left _ _ _ _)); exists oe;
          exact Hx).
    apply SqlFacts.left_join_In_matched in Hx'.
    destruct Hx' as (Hms & Her & Hon). simpl in Hon.
    destruct orr as [rr|]; [|discriminate].
    apply SqlFacts.left_join_In_matched in Hms.
    destruct Hms as (Hms & Hrr & Hon').
    exists ms, rr, er. repeat split; try assumption.
    + now apply Z.eqb_eq.
    + now apply Z.eqb_eq.
  - intros (ms & rr & er & Hms & Hty & Hrr & E1 & Her & E2 & <-).
    assert (Hx : In (ms, Some rr, Some er)
                    (left_join
                       (left_join (Hotel.meeting_space h)
                          (Hotel.reservation_room h)
                          (fun ms rr => ReservationRoom.roomId rr
                                        =? MeetingRoom.roomId ms))
                       (Hotel.event_reservation h)
                       (fun x er =>
                          matches (fun rr => EventReservation.reservationId er
                                             =? ReservationRoom.reservationId rr)
                                  (snd x)))).
    { apply SqlFacts.left_join_In_matched. split; [|split].
      - apply SqlFacts.left_join_In_matched. repeat split; try assumption.
        now apply Z.eqb_eq.
      - exact Her.
      - simpl. now apply Z.eqb_eq. }
    destruct (proj1 (GroupFacts.left_join_left _ (Hotel.event h)
                       (fun x e =>
                          matches (fun er => Event.eventId e
                                             =? EventReservation.eventId er)
                                  (snd x)) _) Hx) as [oe Hx'].
    exists (ms, Some rr, Some er, oe). split; [|simpl; now left].
    apply filter_In. split; [exact Hx'|].
    unfold used_space_type. simpl. now apply String.eqb_eq.
Qed.

End EventFacts.

(** X11.  On [/employee/rooms], every space type of [meeting_space] has
    exactly one row in [meeting_spaces_events], also when it has no
    event, and there are no other rows.  Its [events_count] is the
    number of different events held in spaces of that type, as
    [event_reservation] and [reservation_room] record it; whether the
    [event] table knows the event plays no part. *)
Theorem every_space_type_is_listed_with_its_events :
  forall h : Hotel.t,
    exists forum_posts room_types events total_requests total_bookings
           total_events,
      served (sqlite3_file h) GET_employee_rooms
      = Some {| template := "employee_rooms.html";
                variables :=
                  employee_rooms_context forum_posts room_types events
                    total_requests total_bookings total_events |}
      /\ NoDup (map SpaceEvents.spaceType events)
      /\ (forall ty,
             In ty (map SpaceEvents.spaceType events) <->
             In ty (map MeetingRoom.spaceType (Hotel.meeting_space h)))
      /\ (forall row, In row events ->
            exists ids,
              NoDup ids
              /\ SpaceEvents.events_count row = len ids
              /\ forall e, In e ids
                           <-> Further.held_in h (SpaceEvents.spaceType row) e).
Proof.
  intros h.
  assert (H : connect_error (sqlite3_file h) = None) by reflexivity.
  unfold served, dispatch_request, view, employee_rooms.
  run_queries H. cbn [render_template ret fst].
  do 6 eexists. split; [reflexivity|].
  rewrite EventFacts.returned_events.
  set (G := Sql.group_by Reports.used_space_type String.eqb
              (Reports.space_uses h)).
  assert (Ekeys : map SpaceEvents.spaceType (map Reports.space_events_row G)
                  = map fst G).
  { rewrite map_map. apply map_ext. intros [? ?]. reflexivity. }
  split; [|split].
  - apply (Permutation_NoDup
             (Permutation_map _ (Permutation_sym (SqlFacts.order_by_perm _ _)))).
    rewrite Ekeys.
    apply (SqlFacts.group_by_keys_NoDup _ _ String.eqb_eq).
  - intros ty.
    rewrite <- EventFacts.used_space_types.
    rewrite <- (SqlFacts.distinct_In String.eqb String.eqb_eq ty
                  (map Reports.used_space_type (Reports.space_uses h))).
    rewrite <- (SqlFacts.group_by_keys Reports.used_space_type String.eqb).
    fold G. rewrite <- Ekeys.
    split; apply Permutation_in, Permutation_map.
    + apply SqlFacts.order_by_perm.
    + apply Permutation_sym, SqlFacts.order_by_perm.
  - intros row Hr. apply SqlFacts.order_by_In, in_map_iff in Hr.
    destruct Hr as ([ty g] & <- & Hg).
    apply (SqlFacts.group_by_In _ _ String.eqb_eq) in Hg.
    destruct Hg as [_ ->].
    exists (Sql.distinct Z.eqb
              (Reports.event_ids
                 (filter (fun x => (Reports.used_space_type x =? ty)%string)
                         (Reports.space_uses h)))).
    split; [|split].
    + apply (SqlFacts.distinct_NoDup Z.eqb Z.eqb_eq).
    + reflexivity.
    + intros e. rewrite (SqlFacts.distinct_In Z.eqb Z.eqb_eq).
      apply EventFacts.event_ids_of_type.
Qed.

(* ================================================================== *)
(** * Further properties: billing *)

Module BillingFacts.
Import Sql Reports Further.

(** ** Statements whose result columns may fail *)

Lemma collect_rows {A} (rows : list A) : collect (map Ok rows) = Ok rows.
Proof.
  induction rows as [|x rows IH]; [reflexivity|].
  cbn [map collect]. now rewrite IH.
Qed.

Lemma collect_succeeds {A} (l : list (result A)) :
  (forall r, In r l -> exists a, r = Ok a) ->
  exists rows, l = map Ok rows.
Proof.
  induction l as [|r l IH]; intros H; [now exists []|].
  destruct (H r (or_introl eq_refl)) as [a ->].
  destruct IH as [rows ->]; [intros r Hr; apply H; now right|].
  now exists (a :: rows).
Qed.

Lemma Ok_In {A} (a : A) (rows : list A) :
  In (Ok a) (map Ok rows) <-> In a rows.
Proof.
  rewrite in_map_iff. split.
  - now intros (x & [= ->] & Hx).
  - intros Ha. now exists a.
Qed.

(** A column of the answers, read off the groups they come from. *)
Lemma answered_column {G Row Col} (answer : G -> result Row)
    (of_row : Row -> Col) (of_group : G -> Col)
    (groups : list G) (rows : list Row) :
  map answer groups = map Ok rows ->
  (forall g row, In g groups -> answer g = Ok row ->
                 of_row row = of_group g) ->
  map of_row rows = map of_group groups.
Proof.
  revert rows. induction groups as [|g groups IH]; intros [|row rows] E H;
    try discriminate; [reflexivity|].
  cbn [map] in *. injection E as Eg Erest. f_equal.
  - apply H; [now left | exact Eg].
  - apply IH; [exact Erest|]. intros g' row' Hg'. apply H. now right.
Qed.

Lemma returned_bills (h : Hotel.t) (rows : list CustomerBill.row) :
  map customer_bill
      (group_by billed_customer customer_eqb
         (bills_of_customers (Hotel.billing h) (Hotel.customer h)))
  = map Ok rows ->
  returned (sqlite3_file h) revenue_by_customer
  = order_by highest_billed_first rows.
Proof.
  intros E. unfold returned.
  change (execute_fetchall (sqlite3_file h) revenue_by_customer)
    with (and_then
            (collect
               (map customer_bill
                  (group_by billed_customer customer_eqb
                     (bills_of_customers (Hotel.billing h)
                                         (Hotel.customer h)))))
            (fun rows => Ok (order_by highest_billed_first rows))).
  now rewrite E, collect_rows.
Qed.

(** ** [SUM] without overflow *)

Lemma int64_bound : 2 ^ 63 - 1 = 9223372036854775807.
Proof. reflexivity. Qed.

Lemma fits_int64_bound (z : Z) :
  Z.abs z <= 9223372036854775807 -> fits_int64 z = true.
Proof.
  intros H. unfold fits_int64. apply andb_true_iff.
  change (2 ^ 63) with 9223372036854775808.
  split; apply Z.leb_le; lia.
Qed.

Lemma weight_nonneg {A} (f : A -> option number) (l : list A) :
  0 <= total_of (fun x => Z.abs (integer_in (f x))) l.
Proof.
  unfold total_of. induction l as [|x l IH]; simpl; lia.
Qed.

Lemma sum_steps_within {A} (f : A -> option number) (l : list A)
    (p : accumulator) :
  overflow p = false ->
  Z.abs (iSum p) + total_of (fun x => Z.abs (integer_in (f x))) l
  <= 2 ^ 63 - 1 ->
  overflow (fold_left sum_step (map f l) p) = false.
Proof.
  rewrite int64_bound.
  revert p. induction l as [|x l IH]; intros p Ho Hb; [exact Ho|].
  pose proof (weight_nonneg f l) as Hl.
  cbn [map fold_left]. unfold total_of in Hb. cbn [fold_right] in Hb.
  fold (total_of (fun x => Z.abs (integer_in (f x))) l) in Hb.
  destruct (f x) as [[i|r]|]; cbn [integer_in] in Hb.
  - apply IH; cbn [sum_step overflow iSum]; rewrite Ho.
    + destruct (approx p); [reflexivity|]. cbn [orb negb andb].
      now rewrite fits_int64_bound by lia.
    + destruct (negb (approx p || false) && fits_int64 (iSum p + i)); lia.
  - apply IH; cbn [sum_step overflow iSum]; [exact Ho | lia].
  - apply IH; cbn [sum_step]; [exact Ho | lia].
Qed.

Lemma sum_steps_of_integers {A} (f : A -> option number) (l : list A)
    (p : accumulator) :
  (forall x, In x l -> is_integer (f x)) ->
  overflow p = false -> approx p = false ->
  Z.abs (iSum p) + total_of (fun x => Z.abs (integer_in (f x))) l
  <= 2 ^ 63 - 1 ->
  let q := fold_left sum_step (map f l) p in
  iSum q = iSum p + total_of (fun x => integer_in (f x)) l
  /\ cnt q = cnt p + len l
  /\ overflow q = false /\ approx q = false.
Proof.
  rewrite int64_bound.
  revert p. induction l as [|x l IH]; intros p Hi Ho Ha Hb.
  - cbn. repeat split; try assumption; unfold len; simpl; lia.
  - pose proof (weight_nonneg f l) as Hl.
    pose proof (Hi x (or_introl eq_refl)) as Hx. unfold is_integer in Hx.
    cbn [map fold_left]. unfold total_of in *. cbn [fold_right] in *.
    destruct (f x) as [[i|r]|]; try discriminate. clear Hx.
    cbn [integer_in] in *.
    assert (F : fits_int64 (iSum p + i) = true).
    { apply fits_int64_bound. lia. }
    destruct (IH (sum_step p (Some (Integer i)))) as (I & C & O & P).
    + intros y Hy. apply Hi. now right.
    + cbn [sum_step overflow]. now rewrite Ho, Ha, F.
    + cbn [sum_step approx]. now rewrite Ho, Ha, F.
    + cbn [sum_step iSum]. rewrite Ho, Ha, F. cbn [orb negb andb]. lia.
    + cbn zeta. rewrite I, C, O, P. cbn [sum_step iSum cnt].
      rewrite Ho, Ha, F. cbn [orb negb andb].
      unfold len. cbn [List.length]. repeat split; lia.
Qed.

Lemma sql_sum_answers {A} (f : A -> option number) (l : list A) :
  total_of (fun x => Z.abs (integer_in (f x))) l <= 2 ^ 63 - 1 ->
  exists v, sql_sum f l = Ok v.
Proof.
  intros Hb. unfold sql_sum, sum_final.
  rewrite (sum_steps_within f l sum_start eq_refl Hb).
  destruct (cnt _ =? 0); [now eexists|].
  destruct (approx _); now eexists.
Qed.

Lemma sql_sum_of_integers {A} (f : A -> option number) (l : list A) :
  l <> [] ->
  (forall x, In x l -> is_integer (f x)) ->
  total_of (fun x => Z.abs (integer_in (f x))) l <= 2 ^ 63 - 1 ->
  sql_sum f l = Ok (whole (total_of (fun x => integer_in (f x)) l)).
Proof.
  intros Hne Hi Hb.
  destruct (sum_steps_of_integers f l sum_start Hi eq_refl eq_refl Hb)
    as (I & C & O & P).
  unfold sql_sum, sum_final. rewrite I, C, O, P.
  cbn [sum_start cnt iSum].
  destruct l as [|x l]; [congruence|].
  unfold len. cbn [List.length].
  destruct (Z.eqb_spec (0 + Z.of_nat (S (List.length l))) 0); [lia|].
  reflexivity.
Qed.

Lemma sql_sum_map {A B} (f : B -> option number) (g : A -> B) (l : list A) :
  sql_sum f (map g l) = sql_sum (fun x => f (g x)) l.
Proof. unfold sql_sum. now rewrite map_map. Qed.

Lemma total_of_column {A B} (f : B -> Z) (g : A -> B) (l : list A) :
  total_of f (map g l) = total_of (fun x => f (g x)) l.
Proof.
  unfold total_of. induction l as [|x l IH]; simpl; [reflexivity|].
  now rewrite IH.
Qed.

Lemma total_of_chunks {A B} (f : B -> Z) (chunk : A -> list B) (l : list A) :
  total_of f (flat_map chunk l) = total_of (fun x => total_of f (chunk x)) l.
Proof.
  unfold total_of. induction l as [|x l IH]; simpl; [reflexivity|].
  rewrite fold_right_app, <- IH.
  induction (chunk x) as [|y ys IHy]; simpl; [reflexivity|]. lia.
Qed.

Lemma weight_of_selection {A} (f : A -> Z) (keep : A -> bool) (l : list A) :
  (forall x, 0 <= f x) -> total_of f (filter keep l) <= total_of f l.
Proof.
  intros Hf. unfold total_of.
  induction l as [|x l IH]; simpl; [lia|].
  specialize (Hf x). destruct (keep x); simpl; lia.
Qed.

(** ** The groups of Query 5 *)

Lemma customer_eqb_eq (a b : Z * string * string) :
  customer_eqb a b = true <-> a = b.
Proof.
  destruct a as [[a1 a2] a3], b as [[b1 b2] b3]. unfold customer_eqb. simpl.
  rewrite !andb_true_iff, Z.eqb_eq, !String.eqb_eq. split.
  - now intros [[-> ->] ->].
  - intros E. inversion E. now repeat split.
Qed.

Lemma same_customer (c c' : Customer.row) :
  (Customer.customerId c', Customer.lastName c', Customer.firstName c')
  = (Customer.customerId c, Customer.lastName c, Customer.firstName c) ->
  c' = c.
Proof. destruct c, c'. simpl. intros E. now inversion E. Qed.

Lemma filter_twice {A} (p q : A -> bool) (l : list A) :
  filter p (filter q l) = filter (fun x => q x && p x) l.
Proof.
  induction l as [|x l IH]; simpl; [reflexivity|].
  destruct (q x); simpl; [destruct (p x)|]; now rewrite IH.
Qed.

Lemma filter_none {A} (p : A -> bool) (l : list A) :
  (forall x, In x l -> p x = false) -> filter p l = [].
Proof.
  induction l as [|x l IH]; intros H; simpl; [reflexivity|].
  rewrite (H x (or_introl eq_refl)). apply IH.
  intros y Hy. apply H. now right.
Qed.

Lemma filter_unique {A} (f : A -> Z) (p : A -> bool) (c : A) (l : list A) :
  NoDup (map f l) -> In c l ->
  (forall x, p x = true <-> x = c) ->
  filter p l = [c].
Proof.
  intros Hnd Hc Hp. induction l as [|x l IH]; [contradiction|].
  simpl in Hnd. inversion Hnd as [|? ? Hx Hl]; subst. simpl.
  destruct (p x) eqn:P.
  - apply Hp in P. subst x. f_equal.
    apply filter_none. intros y Hy.
    destruct (p y) eqn:Py; [|reflexivity].
    apply Hp in Py. subst y. exfalso. apply Hx. now apply in_map.
  - destruct Hc as [->|Hc].
    + rewrite (proj2 (Hp c) eq_refl) in P. discriminate.
    + now apply IH.
Qed.

(** The group of a customer holds that customer's bills, in the order of
    the [billing] table. *)
Lemma group_of_customer (B : list Billing.row) (C : list Customer.row)
    (c : Customer.row) :
  NoDup (map Customer.customerId C) -> In c C ->
  filter (fun x => customer_eqb (billed_customer x)
                     (Customer.customerId c, Customer.lastName c,
                      Customer.firstName c))
         (bills_of_customers B C)
  = map (fun b => (b, c))
        (filter (fun b => Billing.customerId b =? Customer.customerId c) B).
Proof.
  intros Hnd Hc. unfold bills_of_customers, inner_join.
  induction B as [|b B IH]; [reflexivity|].
  cbn [flat_map]. rewrite filter_app, IH. cbn [filter].
  rewrite SqlFacts.filter_map_swap, filter_twice.
  destruct (Z.eqb_spec (Billing.customerId b) (Customer.customerId c)) as [E|N].
  - rewrite (filter_unique Customer.customerId _ c C Hnd Hc); [reflexivity|].
    intros c'. unfold billed_customer. cbn [snd].
    rewrite andb_true_iff, Z.eqb_eq, customer_eqb_eq. split.
    + intros [_ K]. now apply same_customer.
    + intros ->. now split.
  - rewrite filter_none; [reflexivity|].
    intros c' _. unfold billed_customer. cbn [snd].
    destruct (customer_eqb _ _) eqn:K; [|apply andb_false_r].
    apply customer_eqb_eq, same_customer in K. subst c'.
    apply andb_false_intro1, Z.eqb_neq. congruence.
Qed.

(** Where every left row has one partner, the join keeps the left rows
    as they are. *)
Lemma inner_join_keeps_left {A B} (l : list A) (r : list B)
    (on : A -> B -> bool) :
  (forall a, In a l -> List.length (filter (on a) r) = 1%nat) ->
  map fst (inner_join l r on) = l.
Proof.
  unfold inner_join. induction l as [|a l IH]; intros H; [reflexivity|].
  cbn [flat_map]. rewrite map_app, IH by (intros a' Ha'; apply H; now right).
  specialize (H a (or_introl eq_refl)).
  destruct (filter (on a) r) as [|b [|b' m]]; try discriminate.
  reflexivity.
Qed.

(** The customers behind the keys of the groups. *)
Lemma billed_keys (h : Hotel.t)
    (k : Z * string * string) (g : list (Billing.row * Customer.row)) :
  In (k, g) (group_by billed_customer customer_eqb
               (bills_of_customers (Hotel.billing h) (Hotel.customer h))) ->
  exists b c,
    In b (Hotel.billing h) /\ In c (Hotel.customer h)
    /\ Billing.customerId b = Customer.customerId c
    /\ k = (Customer.customerId c, Customer.lastName c, Customer.firstName c)
    /\ g = filter (fun x => customer_eqb (billed_customer x) k)
                  (bills_of_customers (Hotel.billing h) (Hotel.customer h)).
Proof.
  intros Hg. apply (SqlFacts.group_by_In _ _ customer_eqb_eq) in Hg.
  destruct Hg as [Hk ->].
  apply in_map_iff in Hk. destruct Hk as ([b c] & <- & Hbc).
  apply SqlFacts.inner_join_In in Hbc. destruct Hbc as (Hb & Hc & Hon).
  exists b, c. repeat split; try assumption.
  apply Z.eqb_eq in Hon. now symmetry.
Qed.

Lemma unique_customer (l : list Customer.row) (c c' : Customer.row) :
  NoDup (map Customer.customerId l) -> In c l -> In c' l ->
  Customer.customerId c = Customer.customerId c' -> c = c'.
Proof.
  intros Hnd Hc Hc' E. induction l as [|x l IH]; [contradiction|].
  simpl in Hnd. inversion Hnd as [|? ? Hx Hl]; subst.
  destruct Hc as [->|Hc], Hc' as [->|Hc'].
  - reflexivity.
  - exfalso. apply Hx. rewrite E. now apply in_map.
  - exfalso. apply Hx. rewrite <- E. now apply in_map.
  - now apply IH.
Qed.

(** What Query 5 answers for the group of customer [c]. *)
Lemma bill_of_customer (h : Hotel.t) (c : Customer.row) :
  NoDup (map Customer.customerId (Hotel.customer h)) ->
  In c (Hotel.customer h) ->
  bills_of h c <> [] ->
  integer_weight (bills_of h c) <= 2 ^ 63 - 1 ->
  let g := (Customer.customerId c, Customer.lastName c, Customer.firstName c,
            filter (fun x => customer_eqb (billed_customer x)
                               (Customer.customerId c, Customer.lastName c,
                                Customer.firstName c))
                   (bills_of_customers (Hotel.billing h) (Hotel.customer h)))
  in
  (exists row, customer_bill g = Ok row)
  /\ (forall row, customer_bill g = Ok row -> is_card_of h c row).
Proof.
  intros Hnd Hc Hne Hw g. subst g.
  rewrite (group_of_customer _ _ c Hnd Hc).
  fold (bills_of h c).
  unfold customer_bill. cbn [fst snd].
  replace (sql_sum billed_amount (map (fun b => (b, c)) (bills_of h c)))
    with (sql_sum Billing.totalAmount (bills_of h c))
    by (unfold sql_sum; now rewrite map_map).
  destruct (sql_sum_answers Billing.totalAmount (bills_of h c) Hw)
    as [v Hv].
  split.
  - rewrite Hv. now eexists.
  - intros row Hrow. rewrite Hv in Hrow. cbn [and_then] in Hrow.
    injection Hrow as <-. unfold is_card_of. cbn.
    repeat split.
    + unfold count_star, len. now rewrite length_map.
    + intros Hi.
      rewrite (sql_sum_of_integers Billing.totalAmount (bills_of h c)
                 Hne Hi Hw) in Hv.
      now injection Hv as <-.
Qed.

End BillingFacts.

(** X12.  With unique customer ids, and as long as no customer's
    integer amounts can overflow 64 bits, [/account] lists exactly the
    customers that have at least one bill, each once, with their id and
    name, the number of their bills and, when the amounts of these bills
    are integers, their sum; a customer without bills is not listed.
    These are the billing totals of all customers, whoever asks, and
    [/employee/customer_cards] shows the same rows whenever it renders
    its own template. *)
Theorem customers_are_listed_with_their_bills :
  forall h : Hotel.t,
    NoDup (map Customer.customerId (Hotel.customer h)) ->
    (forall c, In c (Hotel.customer h) ->
               Further.integer_weight (Further.bills_of h c) <= 2 ^ 63 - 1) ->
    exists rows,
      served (sqlite3_file h) GET_account
      = Some {| template := "account.html";
                variables := account_context rows |}
      /\ (forall resp,
             served (sqlite3_file h) GET_employee_customer_cards = Some resp ->
             template resp = "employee_customer_cards.html"%string ->
             exists total_customers total_revenue,
               variables resp
               = employee_customer_cards_context
                   rows total_customers total_revenue)
      /\ NoDup (map CustomerBill.customerId rows)
      /\ (forall row,
             In row rows ->
             exists c, In c (Hotel.customer h)
                       /\ Further.bills_of h c <> []
                       /\ Further.is_card_of h c row)
      /\ (forall c,
             In c (Hotel.customer h) -> Further.bills_of h c <> [] ->
             exists row, In row rows /\ Further.is_card_of h c row).
Proof.
  intros h Hnd Hw.
  assert (H : connect_error (sqlite3_file h) = None) by reflexivity.
  set (groups := Sql.group_by Reports.billed_customer Reports.customer_eqb
                   (Reports.bills_of_customers (Hotel.billing h)
                                               (Hotel.customer h))).
  assert (Hgroup : forall k g,
             In (k, g) groups ->
             exists c,
               In c (Hotel.customer h) /\ Further.bills_of h c <> []
               /\ (k, g)
                  = (Customer.customerId c, Customer.lastName c,
                     Customer.firstName c,
                     filter (fun x => Reports.customer_eqb
                                        (Reports.billed_customer x)
                                        (Customer.customerId c,
                                         Customer.lastName c,
                                         Customer.firstName c))
                            (Reports.bills_of_customers
                               (Hotel.billing h) (Hotel.customer h)))).
  { intros k g Hg.
    destruct (BillingFacts.billed_keys h k g Hg)
      as (b & c & Hb & Hc & Hid & -> & ->).
    exists c. split; [exact Hc|]. split; [|reflexivity].
    intros E.
    assert (Hin : In b (Further.bills_of h c)).
    { apply filter_In. split; [exact Hb|]. now apply Z.eqb_eq. }
    rewrite E in Hin. contradiction. }
  destruct (BillingFacts.collect_succeeds (map Reports.customer_bill groups))
    as [rows Hrows].
  { intros r Hr. apply in_map_iff in Hr. destruct Hr as ([k g] & <- & Hg).
    destruct (Hgroup k g Hg) as (c & Hc & Hne & ->).
    exact (proj1 (BillingFacts.bill_of_customer h c Hnd Hc Hne (Hw c Hc))). }
  pose proof (BillingFacts.returned_bills h rows Hrows) as Hret.
  assert (Hin : forall row,
             In row rows <->
             exists g, In g groups /\ Reports.customer_bill g = Sql.Ok row).
  { intros row. rewrite <- BillingFacts.Ok_In, <- Hrows, in_map_iff.
    split; intros (g & A & B); exists g; now split. }
  exists (Sql.order_by Reports.highest_billed_first rows).
  split; [|split; [|split; [|split]]].
  - unfold served, dispatch_request, view, account.
    run_queries H. cbn [row_of] in *. rewrite Hret. reflexivity.
  - intros resp. unfold served, dispatch_request, view, employee_customer_cards.
    run_queries H. cbn [row_of] in *. rewrite !Hret.
    destruct (if truthy _ then _ else _) as [[total|e] t];
      cbn [bind render_template handle_error ret fst].
    + intros [= <-] _. now do 2 eexists.
    + intros [= <-]. discriminate.
  - apply (Permutation_NoDup
             (Permutation_map _
                (Permutation_sym (SqlFacts.order_by_perm _ _)))).
    rewrite (BillingFacts.answered_column Reports.customer_bill
               CustomerBill.customerId (fun g => fst (fst (fst g)))
               groups rows Hrows)
      by (intros g row _ E; unfold Reports.customer_bill in E;
          destruct (Sql.sql_sum _ _); [|discriminate];
          now injection E as <-).
    rewrite <- (map_map fst (fun k : Z * string * string => fst (fst k))).
    apply NoDup_map_NoDup_ForallPairs;
      [|apply (SqlFacts.group_by_keys_NoDup _ _ BillingFacts.customer_eqb_eq)].
    intros k k' Hk Hk' E.
    apply in_map_iff in Hk, Hk'.
    destruct Hk as ([k0 g] & <- & Hg), Hk' as ([k0' g'] & <- & Hg').
    destruct (Hgroup _ _ Hg) as (c & Hc & _ & [= -> _]).
    destruct (Hgroup _ _ Hg') as (c' & Hc' & _ & [= -> _]).
    cbn [fst] in *.
    now rewrite (BillingFacts.unique_customer _ c c' Hnd Hc Hc' E).
  - intros row Hrow. apply SqlFacts.order_by_In, Hin in Hrow.
    destruct Hrow as ([k g] & Hg & Hbill).
    destruct (Hgroup k g Hg) as (c & Hc & Hne & E).
    exists c. split; [exact Hc|]. split; [exact Hne|].
    rewrite E in Hbill.
    exact (proj2 (BillingFacts.bill_of_customer h c Hnd Hc Hne (Hw c Hc))
             row Hbill).
  - intros c Hc Hne.
    destruct (BillingFacts.bill_of_customer h c Hnd Hc Hne (Hw c Hc))
      as [[row Hrow] Hcard].
    exists row. split; [|now apply Hcard].
    apply SqlFacts.order_by_In, Hin. eexists. split; [|exact Hrow].
    apply (SqlFacts.group_by_In _ _ BillingFacts.customer_eqb_eq).
    split; [|reflexivity].
    destruct (Further.bills_of h c) as [|b bs] eqn:E; [congruence|].
    assert (Hb : In b (Further.bills_of h c)) by (rewrite E; now left).
    apply filter_In in Hb. destruct Hb as [Hb Hon].
    apply in_map_iff. exists (b, c). split; [reflexivity|].
    apply SqlFacts.inner_join_In. repeat split; try assumption.
    apply Z.eqb_eq. apply Z.eqb_eq in Hon. now symmetry.
Qed.

Lemma customers_are_listed_with_their_bills_witness :
  exists rows,
    served (sqlite3_file Grand.hotel) GET_account
    = Some {| template := "account.html";
              variables := account_context rows |}
    /\ (forall resp,
           served (sqlite3_file Grand.hotel) GET_employee_customer_cards
           = Some resp ->
           template resp = "employee_customer_cards.html"%string ->
           exists total_customers total_revenue,
             variables resp
             = employee_customer_cards_context
                 rows total_customers total_revenue)
    /\ NoDup (map CustomerBill.customerId rows)
    /\ (forall row,
           In row rows ->
           exists c, In c (Hotel.customer Grand.hotel)
                     /\ Further.bills_of Grand.hotel c <> []
                     /\ Further.is_card_of Grand.hotel c row)
    /\ (forall c,
           In c (Hotel.customer Grand.hotel) ->
           Further.bills_of Grand.hotel c <> [] ->
           exists row, In row rows /\ Further.is_card_of Grand.hotel c row).
Proof.
  apply (customers_are_listed_with_their_bills Grand.hotel).
  - repeat constructor; simpl; intuition discriminate.
  - simpl. intros c [<-|[<-|[<-|[]]]]; vm_compute; discriminate.
Defined.

(** X13.  With unique customer ids, every bill referencing a customer
    that exists, and INTEGER amounts whose absolute values add up to
    less than 2^63, [total_revenue] on [/employee/customer_cards] is the
    sum of [totalAmount] over the whole [billing] table. *)
Theorem total_revenue_is_the_sum_of_all_bills :
  forall h : Hotel.t,
    NoDup (map Customer.customerId (Hotel.customer h)) ->
    (forall b, In b (Hotel.billing h) ->
               In (Billing.customerId b)
                  (map Customer.customerId (Hotel.customer h))) ->
    (forall b, In b (Hotel.billing h) ->
               is_integer (Billing.totalAmount b)) ->
    Further.integer_weight (Hotel.billing h) <= 2 ^ 63 - 1 ->
    exists rows,
      served (sqlite3_file h) GET_employee_customer_cards
      = Some {| template := "employee_customer_cards.html";
                variables :=
                  employee_customer_cards_context rows (len rows)
                    (Integer
                       (total_of
                          (fun b => integer_in (Billing.totalAmount b))
                          (Hotel.billing h))) |}.
Proof.
  intros h Hnd Href Hint Hw.
  assert (H : connect_error (sqlite3_file h) = None) by reflexivity.
  set (joined := Reports.bills_of_customers (Hotel.billing h)
                                            (Hotel.customer h)).
  set (groups := Sql.group_by Reports.billed_customer Reports.customer_eqb
                              joined).
  assert (Hfst : map fst joined = Hotel.billing h).
  { apply BillingFacts.inner_join_keeps_left.
    intros b Hb. apply JoinFacts.unique_match_sym; [exact Hnd|].
    now apply Href. }
  set (card := fun g : Z * string * string
                       * list (Billing.row * Customer.row) =>
                 {| CustomerBill.customerId := fst (fst (fst g));
                    CustomerBill.last_name := snd (fst (fst g));
                    CustomerBill.first_name := snd (fst g);
                    CustomerBill.bills := Sql.count_star (snd g);
                    CustomerBill.total_billed :=
                      whole (total_of
                               (fun x => integer_in (Reports.billed_amount x))
                               (snd g)) |}).
  assert (Hcards : map Reports.customer_bill groups
                   = map Sql.Ok (map card groups)).
  { rewrite map_map. apply map_ext_in. intros [k g] Hg.
    pose proof (GroupFacts.group_rows _ _ BillingFacts.customer_eqb_eq
                  k g joined Hg) as [Hne Hmem].
    apply (SqlFacts.group_by_In _ _ BillingFacts.customer_eqb_eq) in Hg.
    destruct Hg as [_ Eg].
    unfold Reports.customer_bill, card. cbn [fst snd].
    rewrite (BillingFacts.sql_sum_of_integers Reports.billed_amount g Hne);
      [reflexivity | |].
    - intros x Hx. apply Hmem in Hx. destruct Hx as [Hx _].
      apply Hint. rewrite <- Hfst. now apply in_map.
    - rewrite Eg.
      eapply Z.le_trans;
        [apply BillingFacts.weight_of_selection; intros x; apply Z.abs_nonneg|].
      unfold Further.integer_weight in Hw. rewrite <- Hfst in Hw.
      rewrite BillingFacts.total_of_column in Hw. exact Hw. }
  pose proof (BillingFacts.returned_bills h _ Hcards) as Hret.
  unfold served, dispatch_request, view, employee_customer_cards.
  run_queries H. cbn [row_of] in *. rewrite !Hret.
  rewrite PythonFacts.guarded_len.
  rewrite (TotalFacts.guarded_sum_of_integers CustomerBill.total_billed).
  2:{ intros row Hrow. apply SqlFacts.order_by_In, in_map_iff in Hrow.
      destruct Hrow as (g & <- & _). reflexivity. }
  cbn [bind ret render_template fst].
  rewrite (PythonFacts.total_of_perm _ _ _ (SqlFacts.order_by_perm _ _)).
  rewrite BillingFacts.total_of_column.
  cbn [card CustomerBill.total_billed whole integer_in].
  rewrite <- (BillingFacts.total_of_chunks
                (fun x => integer_in (Reports.billed_amount x)) snd groups).
  unfold groups.
  rewrite (PythonFacts.total_of_perm _ _ _
             (GroupFacts.groups_concat_perm _ _
                BillingFacts.customer_eqb_eq joined)).
  rewrite <- Hfst, (BillingFacts.total_of_column _ fst joined).
  eexists. reflexivity.
Qed.

Lemma total_revenue_is_the_sum_of_all_bills_witness :
  exists rows,
    served (sqlite3_file Grand.hotel) GET_employee_customer_cards
    = Some {| template := "employee_customer_cards.html";
              variables :=
                employee_customer_cards_context rows (len rows)
                  (Integer
                     (total_of
                        (fun b => integer_in (Billing.totalAmount b))
                        (Hotel.billing Grand.hotel))) |}.
Proof.
  apply (total_revenue_is_the_sum_of_all_bills Grand.hotel).
  - repeat constructor; simpl; intuition discriminate.
  - simpl. intros b [<-|[<-|[<-|[<-|[]]]]]; simpl; tauto.
  - simpl. intros b [<-|[<-|[<-|[<-|[]]]]]; reflexivity.
  - vm_compute. discriminate.
Defined.

(* ================================================================== *)
(** * Further properties: booking, rooms, staff and cards *)

Module PageFacts.
Import Sql Reports.

Lemma booking_type_eqb_eq (x y : BookingType.row) :
  booking_type_eqb x y = true <-> x = y.
Proof.
  destruct x, y. unfold booking_type_eqb. simpl.
  rewrite andb_true_iff, !String.eqb_eq. split.
  - now intros [-> ->].
  - intros E. inversion E. now split.
Qed.

Lemma returned_room_types (h : Hotel.t) :
  returned (sqlite3_file h) room_types_for_booking
  = order_by by_type_name
      (distinct booking_type_eqb
         (map (fun rt => booking_type "room" (RoomType.roomType rt))
              (Hotel.room_type h))).
Proof. reflexivity. Qed.

Lemma returned_space_types (h : Hotel.t) :
  returned (sqlite3_file h) space_types_for_booking
  = order_by by_type_name
      (distinct booking_type_eqb
         (map (fun ms => booking_type "meeting" (MeetingRoom.spaceType ms))
              (Hotel.meeting_space h))).
Proof. reflexivity. Qed.

(** [SELECT DISTINCT ... ORDER BY]: the different values, each once. *)
Lemma sorted_distinct {A} (f : A -> BookingType.row) (l : list A) :
  NoDup (order_by by_type_name (distinct booking_type_eqb (map f l)))
  /\ forall row,
       In row (order_by by_type_name (distinct booking_type_eqb (map f l)))
       <-> exists x, In x l /\ row = f x.
Proof.
  split.
  - apply (Permutation_NoDup (Permutation_sym (SqlFacts.order_by_perm _ _))).
    apply (SqlFacts.distinct_NoDup _ booking_type_eqb_eq).
  - intros row.
    rewrite SqlFacts.order_by_In,
      (SqlFacts.distinct_In _ booking_type_eqb_eq), in_map_iff.
    split; intros (x & E & Hx); exists x; now split.
Qed.

Lemma returned_sleeping_rooms (h : Hotel.t) :
  returned (sqlite3_file h) available_sleeping_rooms
  = order_by by_building_and_number
      (map sleeping_room (filter is_available_bedroom (described_rooms h))).
Proof. reflexivity. Qed.

Lemma returned_meeting_spaces (h : Hotel.t) :
  returned (sqlite3_file h) meeting_spaces_with_amenities
  = order_by by_space_type_and_number
      (map meeting_space_row (located_spaces h)).
Proof. reflexivity. Qed.

Lemma returned_staff (h : Hotel.t) :
  returned (sqlite3_file h) staff_list
  = order_by by_department_and_name (Hotel.staff h).
Proof. reflexivity. Qed.

Lemma returned_swipes (h : Hotel.t) :
  returned (sqlite3_file h) staff_swipes_by_department
  = order_by most_swipes_first
      (map swipes_row
         (group_by department_and_location Statements.text_pair_eqb
            (staff_swipes h))).
Proof. reflexivity. Qed.

(** Rows that differ in a column still differ in it after a selection. *)
Lemma selection_keeps_distinct {Row Col} (column : Row -> Col)
    (keep : Row -> bool) (rows : list Row)
    (H : NoDup (map column rows)) :
  NoDup (map column (filter keep rows)).
Proof.
  rename column into f, keep into p, rows into l.
  induction l as [|x l IH]; simpl; simpl in H; [constructor|].
  inversion H as [|? ? Hx Hl]; subst.
  destruct (p x); simpl; [|now apply IH].
  constructor; [|now apply IH].
  intros Hin. apply Hx. apply in_map_iff in Hin.
  destruct Hin as (y & E & Hy). apply filter_In in Hy.
  rewrite <- E. apply in_map. tauto.
Qed.

End PageFacts.

(** X14.  The list of [/book] holds the room types first, then the
    meeting-space types, each group without repetition: an entry is
    listed if and only if it is a room type's name in category [room] or
    a space type's name in category [meeting], and no entry occurs
    twice. *)
Theorem booking_types_are_listed_once :
  forall h : Hotel.t,
    exists room_types space_types,
      served (sqlite3_file h) GET_book
      = Some {| template := "book.html";
                variables := book_context (room_types ++ space_types) |}
      /\ NoDup (room_types ++ space_types)
      /\ (forall row,
             In row room_types <->
             BookingType.type_category row = "room"%string
             /\ In (BookingType.roomType row)
                   (map RoomType.roomType (Hotel.room_type h)))
      /\ (forall row,
             In row space_types <->
             BookingType.type_category row = "meeting"%string
             /\ In (BookingType.roomType row)
                   (map MeetingRoom.spaceType (Hotel.meeting_space h))).
Proof.
  intros h.
  assert (H : connect_error (sqlite3_file h) = None) by reflexivity.
  unfold served, dispatch_request, view, book.
  run_queries H. cbn [render_template ret fst].
  do 2 eexists. split; [reflexivity|].
  rewrite PageFacts.returned_room_types, PageFacts.returned_space_types.
  destruct (PageFacts.sorted_distinct
              (fun rt => Reports.booking_type "room" (RoomType.roomType rt))
              (Hotel.room_type h)) as [N1 I1].
  destruct (PageFacts.sorted_distinct
              (fun ms => Reports.booking_type "meeting"
                           (MeetingRoom.spaceType ms))
              (Hotel.meeting_space h)) as [N2 I2].
  assert (R : forall row,
             In row (Sql.order_by Reports.by_type_name
                       (Sql.distinct Reports.booking_type_eqb
                          (map (fun rt => Reports.booking_type "room"
                                            (RoomType.roomType rt))
                               (Hotel.room_type h)))) <->
             BookingType.type_category row = "room"%string
             /\ In (BookingType.roomType row)
                   (map RoomType.roomType (Hotel.room_type h))).
  { intros row. rewrite I1, in_map_iff. split.
    - intros (x & Hx & ->). split; [reflexivity|]. now exists x.
    - intros [Ec (x & En & Hx)]. exists x. split; [exact Hx|].
      destruct row. simpl in *. now subst. }
  assert (S : forall row,
             In row (Sql.order_by Reports.by_type_name
                       (Sql.distinct Reports.booking_type_eqb
                          (map (fun ms => Reports.booking_type "meeting"
                                            (MeetingRoom.spaceType ms))
                               (Hotel.meeting_space h)))) <->
             BookingType.type_category row = "meeting"%string
             /\ In (BookingType.roomType row)
                   (map MeetingRoom.spaceType (Hotel.meeting_space h))).
  { intros row. rewrite I2, in_map_iff. split.
    - intros (x & Hx & ->). split; [reflexivity|]. now exists x.
    - intros [Ec (x & En & Hx)]. exists x. split; [exact Hx|].
      destruct row. simpl in *. now subst. }
  split; [|split; assumption].
  apply NoDup_app; [exact N1 | exact N2 |].
  intros row Hr Hs. apply R in Hr. apply S in Hs.
  destruct Hr as [Er _], Hs as [Es _]. rewrite Er in Es. discriminate.
Qed.

(** X15.  [/guest_rooms] never lists a meeting space and lists only
    rooms whose status is [available]; [/meeting_spaces] lists only rooms
    of the [meeting_space] table.  So no room is on both pages.  On both
    pages the total is the number of rows. *)
Theorem guest_rooms_are_not_meeting_spaces :
  forall h : Hotel.t,
    exists rooms spaces,
      served (sqlite3_file h) GET_guest_rooms
      = Some {| template := "guest_rooms.html";
                variables := guest_rooms_context rooms (len rooms) |}
      /\ served (sqlite3_file h) GET_meeting_spaces
         = Some {| template := "meeting_spaces.html";
                   variables := meeting_spaces_context spaces (len spaces) |}
      /\ (forall r, In r rooms ->
            SleepingRoom.room_status r = "available"%string
            /\ ~ In (SleepingRoom.roomId r)
                    (map MeetingRoom.roomId (Hotel.meeting_space h)))
      /\ (forall s, In s spaces ->
            In (MeetingSpace.roomId s)
               (map MeetingRoom.roomId (Hotel.meeting_space h)))
      /\ (forall r s, In r rooms -> In s spaces ->
            SleepingRoom.roomId r <> MeetingSpace.roomId s).
Proof.
  intros h.
  assert (H : connect_error (sqlite3_file h) = None) by reflexivity.
  unfold served, dispatch_request, view, guest_rooms, meeting_spaces_page.
  run_queries H. cbn [render_template ret fst].
  rewrite !PythonFacts.guarded_len.
  do 2 eexists. split; [reflexivity|]. split; [reflexivity|].
  rewrite PageFacts.returned_sleeping_rooms, PageFacts.returned_meeting_spaces.
  assert (R : forall r,
             In r (Sql.order_by Reports.by_building_and_number
                     (map Reports.sleeping_room
                        (filter Reports.is_available_bedroom
                                (Reports.described_rooms h)))) ->
             SleepingRoom.room_status r = "available"%string
             /\ ~ In (SleepingRoom.roomId r)
                     (map MeetingRoom.roomId (Hotel.meeting_space h))).
  { intros r Hr. apply SqlFacts.order_by_In, in_map_iff in Hr.
    destruct Hr as (x & <- & Hx). apply filter_In in Hx.
    destruct Hx as [Hx Hok]. unfold Reports.is_available_bedroom in Hok.
    apply andb_true_iff in Hok. destruct Hok as [Hnull Hav].
    split; [now apply String.eqb_eq|].
    destruct x as [y [ms|]]; [discriminate|].
    apply SqlFacts.left_join_In_unmatched in Hx. destruct Hx as [_ Hno].
    intros Hin. apply in_map_iff in Hin. destruct Hin as (ms & E & Hms).
    specialize (Hno ms Hms). cbn beta in Hno.
    apply Z.eqb_neq in Hno. apply Hno. exact E. }
  assert (S : forall s,
             In s (Sql.order_by Reports.by_space_type_and_number
                     (map Reports.meeting_space_row
                          (Reports.located_spaces h))) ->
             In (MeetingSpace.roomId s)
                (map MeetingRoom.roomId (Hotel.meeting_space h))).
  { intros s Hs. apply SqlFacts.order_by_In, in_map_iff in Hs.
    destruct Hs as ([[ms rm] b] & <- & Hx).
    apply SqlFacts.inner_join_In in Hx. destruct Hx as (Hx & _ & _).
    apply SqlFacts.inner_join_In in Hx. destruct Hx as (Hms & _ & _).
    simpl. now apply in_map. }
  split; [exact R|]. split; [exact S|].
  intros r s Hr Hs E. apply (R r Hr). rewrite E. now apply S.
Qed.

(** X16.  [/staff_roster] shows the rows of the [staff] table, none
    dropped and none repeated; [total_staff] is the size of the table and
    [active_staff] the number of its rows whose [isActive] is true. *)
Theorem staff_roster_shows_the_whole_table :
  forall h : Hotel.t,
    exists staff,
      served (sqlite3_file h) GET_staff_roster
      = Some {| template := "staff_roster.html";
                variables :=
                  staff_roster_context staff
                    (len (Hotel.staff h))
                    (len (filter (fun s => truthy_value (Staff.isActive s))
                                 (Hotel.staff h))) |}
      /\ Permutation staff (Hotel.staff h).
Proof.
  intros h.
  assert (H : connect_error (sqlite3_file h) = None) by reflexivity.
  unfold served, dispatch_request, view, staff_roster.
  run_queries H. cbn [render_template ret fst].
  rewrite PythonFacts.guarded_len, PythonFacts.guarded_filtered_len.
  rewrite PageFacts.returned_staff.
  eexists. split; [|apply SqlFacts.order_by_perm].
  unfold len. do 3 f_equal.
  - f_equal. apply SqlFacts.order_by_length.
  - f_equal. apply Permutation_length, SqlFacts.filter_perm,
      SqlFacts.order_by_perm.
Qed.

(** X17.  On [/card_management], for any rows, [departments] and
    [locations] count different non-empty names, so neither exceeds the
    number of rows. *)
Theorem departments_and_locations_are_bounded_by_the_rows :
  forall answers : (forall q, Sql.result (list (row_of q))),
    exists staff_cards total_swipes departments locations,
      served (connected answers) GET_card_management
      = Some {| template := "card_management.html";
                variables :=
                  card_management_context staff_cards total_swipes
                    departments locations |}
      /\ 0 <= departments <= len staff_cards
      /\ 0 <= locations <= len staff_cards.
Proof.
  intros answers.
  assert (H : connect_error (connected answers) = None) by reflexivity.
  unfold served, dispatch_request, view, card_management.
  run_queries H. cbn [render_template ret fst].
  do 4 eexists. split; [reflexivity|].
  generalize (returned (connected answers) staff_swipes_by_department).
  cbn [row_of]. intros rows.
  assert (B : forall (f : Swipes.row -> string),
             0 <= (if truthy rows
                   then len_set (map f (filter (fun s => truthy_text (f s)) rows))
                   else 0) <= len rows).
  { intros f. destruct rows as [|x l]; [unfold len; simpl; lia|].
    cbn [truthy]. unfold len_set, len. split; [lia|].
    apply (proj1 (Nat2Z.inj_le _ _)).
    eapply Nat.le_trans; [apply GroupFacts.distinct_length|].
    rewrite length_map. apply filter_length_le. }
  split; [apply (B Swipes.department) | apply (B Swipes.location)].
Qed.

(** X18.  On [/card_management], whatever the tables hold, no pair of
    department and location is listed twice, [total_swipes] is the number
    of swipes that join a card assignment, a staff member and a reader,
    and the rows with a department and a location are at most
    [departments * locations]. *)
Theorem swipe_rows_are_distinct_pairs :
  forall h : Hotel.t,
    exists staff_cards departments locations,
      served (sqlite3_file h) GET_card_management
      = Some {| template := "card_management.html";
                variables :=
                  card_management_context staff_cards
                    (len (Reports.staff_swipes h)) departments locations |}
      /\ NoDup (map (fun s => (Swipes.department s, Swipes.location s))
                    staff_cards)
      /\ len (filter (fun s => truthy_text (Swipes.department s)
                               && truthy_text (Swipes.location s))
                     staff_cards)
         <= departments * locations.
Proof.
  intros h.
  assert (H : connect_error (sqlite3_file h) = None) by reflexivity.
  unfold served, dispatch_request, view, card_management.
  run_queries H. cbn [render_template ret fst].
  rewrite PythonFacts.guarded_sum.
  rewrite PageFacts.returned_swipes.
  set (G := Sql.group_by Reports.department_and_location
              Statements.text_pair_eqb (Reports.staff_swipes h)).
  set (rows := Sql.order_by Reports.most_swipes_first
                 (map Reports.swipes_row G)).
  assert (Etotal : total_of Swipes.staff_swipes rows
                   = len (Reports.staff_swipes h)).
  { unfold rows.
    rewrite (PythonFacts.total_of_perm _ _ _ (SqlFacts.order_by_perm _ _)).
    change (len (Reports.staff_swipes h))
      with (Sql.count_star (Reports.staff_swipes h)).
    rewrite <- (SqlFacts.groups_cover Reports.department_and_location _
                  RoomListFacts.text_pair_eqb_eq (Reports.staff_swipes h)).
    fold G. unfold total_of.
    induction G as [|g G' IH]; simpl; [reflexivity|].
    now rewrite IH. }
  assert (Hnd : NoDup (map (fun s => (Swipes.department s, Swipes.location s))
                           rows)).
  { apply (Permutation_NoDup
             (Permutation_map _ (Permutation_sym (SqlFacts.order_by_perm _ _)))).
    rewrite map_map.
    replace (map _ G) with (map fst G)
      by (apply map_ext; intros [[? ?] ?]; reflexivity).
    apply (SqlFacts.group_by_keys_NoDup _ _ RoomListFacts.text_pair_eqb_eq). }
  do 3 eexists. split; [rewrite <- Etotal; reflexivity|].
  split; [exact Hnd|].
  clearbody rows. clear Etotal G.
  destruct rows as [|x l] eqn:E; [unfold len; simpl; lia|]. rewrite <- E in *.
  assert (T : truthy rows = true) by (rewrite E; reflexivity).
  clear E x l.
  match goal with
  | |- _ <= (if ?a then _ else _) * (if ?b then _ else _) =>
      change a with (truthy rows); change b with (truthy rows)
  end.
  rewrite !T.
  unfold len_set, len.
  set (D := Sql.distinct String.eqb
              (map Swipes.department
                 (filter (fun s => truthy_text (Swipes.department s)) rows))).
  set (L := Sql.distinct String.eqb
              (map Swipes.location
                 (filter (fun s => truthy_text (Swipes.location s)) rows))).
  rewrite <- Nat2Z.inj_mul, <- length_prod. apply (proj1 (Nat2Z.inj_le _ _)).
  rewrite <- (length_map (fun s => (Swipes.department s, Swipes.location s))).
  apply NoDup_incl_length.
  - now apply PageFacts.selection_keeps_distinct.
  - intros p Hp. apply in_map_iff in Hp. destruct Hp as (s & <- & Hs).
    apply filter_In in Hs. destruct Hs as [Hs Hok].
    apply andb_true_iff in Hok. destruct Hok as [Hd Hl].
    apply in_prod.
    + apply (SqlFacts.distinct_In String.eqb String.eqb_eq).
      apply in_map, filter_In. now split.
    + apply (SqlFacts.distinct_In String.eqb String.eqb_eq).
      apply in_map, filter_In. now split.
Qed.

